(** * A shallow embedding of imageio's DICOM reader (imageio/plugins/dicom.py)

    The development follows the source file top-down: the byte source and
    [struct] helpers, the element decoder of [SimpleDicomReader], the
    transfer-syntax switch, shape and sampling derivation, the integer
    promotion used when rescaling, [DicomSeries], the directory scan with its
    volume-boundary split, and the plugin's [Reader].

    Python exceptions are values of [exn] carried by [result]; statements
    that mutate an object thread the object explicitly. *)

From Stdlib Require Import ZArith QArith Qabs Lia List.
From Stdlib.Strings Require Import String Ascii Byte.
From stdpp Require Import base option list strings pretty gmap.

Open Scope string_scope.
Open Scope list_scope.
Open Scope Z_scope.

(** ** Python values shared by the whole module *)

Abbreviation bytes := (list byte).

#[global] Instance byte_eq_dec : EqDecision byte := Byte.byte_eq_dec.

(** The exceptions the module raises or lets escape. *)
Inductive exn : Type :=
| EOFError
| StructError                       (* struct.error *)
| NotADicomFile
| RuntimeError (msg : string)
| UnsupportedTransferSyntax (uid : string)
    (* RuntimeError('The simple dicom reader can only read files with
       uncompressed image data (not %r)' % uid) *)
| NotImplementedError
| TypeError (msg : string)
| ValueError (msg : string)
| IndexError
| AttributeError (name : string)
| KeyError (name : string)
| UnicodeDecodeError
| ZlibError                         (* zlib.error *)
| ZeroDivisionError
| UnboundLocalError
| IOError.

(** The outcome of a call: a value, an exception, or [OutOfFuel] when a
    loop of the model used up its bound.  The bounds are computed from the
    size of the input and are never reached (see the totality lemmas); no
    [except] clause catches [OutOfFuel]. *)
Inductive result (A : Type) : Type :=
| Ok (a : A)
| Raise (e : exn)
| OutOfFuel.
Arguments Ok {A} a.
Arguments Raise {A} e.
Arguments OutOfFuel {A}.

#[global] Instance result_ret : MRet result := @Ok.
#[global] Instance result_bind : MBind result :=
  fun A B f m =>
    match m with Ok a => f a | Raise e => Raise e | OutOfFuel => OutOfFuel end.
#[global] Instance result_fmap : FMap result :=
  fun A B f m =>
    match m with Ok a => Ok (f a) | Raise e => Raise e | OutOfFuel => OutOfFuel end.

Definition is_Ok {A} (r : result A) : bool :=
  match r with Ok _ => true | _ => false end.

(** ** The byte source

    A file opened in binary mode, or a [BytesIO]: the whole content and a
    cursor.  Reading past the end returns what is left and never fails. *)

Record file : Type := File { content : bytes; pos : nat }.

Definition tell (f : file) : nat := pos f.

Definition seek (p : nat) (f : file) : file := File (content f) p.

Definition read (n : nat) (f : file) : bytes * file :=
  let b := take n (drop (pos f) (content f)) in
  (b, File (content f) (pos f + length b)).

(** [f.read()] with no size: everything up to the end. *)
Definition read_rest (f : file) : bytes * file :=
  read (length (content f)) f.

(** ** [struct.pack] and [struct.unpack] for the formats the module uses *)

Definition byte_of_Z (z : Z) : byte :=
  match Byte.of_N (Z.to_N (z mod 256)) with
  | Some b => b
  | None => x00
  end.

Definition Z_of_byte (b : byte) : Z := Z.of_N (Byte.to_N b).

Inductive fmt : Type := fmt_H | fmt_I | fmt_L.

Definition calcsize (c : fmt) : nat :=
  match c with fmt_H => 2 | fmt_I => 4 | fmt_L => 4 end%nat.

(** Value of a little-endian byte string. *)
Definition le_to_Z (b : bytes) : Z :=
  foldr (fun x acc => Z_of_byte x + 256 * acc) 0 b.

(** [struct.unpack(prefix + fmt, value)[0]]; [little] stands for the
    prefix: [true] is '<', [false] is '>'. *)
Definition struct_unpack (little : bool) (c : fmt) (value : bytes) : result Z :=
  if decide (length value = calcsize c)
  then Ok (le_to_Z (if little then value else reverse value))
  else Raise StructError.

(** [struct.pack(prefix + 'H', v)] for [0 <= v < 65536]. *)
Definition pack_H (little : bool) (v : Z) : bytes :=
  let lo := byte_of_Z v in
  let hi := byte_of_Z (v / 256) in
  if little then [lo; hi] else [hi; lo].

(** ** Special tags *)

Definition ItemTag : Z * Z := (0xFFFE, 0xE000).
Definition ItemDelimiterTag : Z * Z := (0xFFFE, 0xE00D).
Definition SequenceDelimiterTag : Z * Z := (0xFFFE, 0xE0DD).

(** ** [bytes.find] *)

Fixpoint starts_with (needle hay : bytes) : bool :=
  match needle, hay with
  | [], _ => true
  | _ :: _, [] => false
  | x :: needle', y :: hay' => bool_decide (x = y) && starts_with needle' hay'
  end.

(** Lowest index at which [needle] occurs in [hay]; [None] is Python's -1. *)
Fixpoint find (needle hay : bytes) : option nat :=
  if starts_with needle hay then Some 0%nat
  else match hay with
       | [] => None
       | _ :: hay' => S <$> find needle hay'
       end.

(** ** [SimpleDicomReader._read_undefined_length_value] *)

Definition search_rewind : nat := 3.

Definition bytes_to_find (little : bool) : bytes :=
  pack_H little (fst SequenceDelimiterTag) ++ pack_H little (snd SequenceDelimiterTag).

Definition zero4 : bytes := [x00; x00; x00; x00].

Definition delimiter_warning : string :=
  "Expected 4 zero bytes after undefined length delimiter".

(** One run of the [while not found] loop per unit of fuel.  The result is
    the joined value, the file with its cursor moved, and what was printed. *)
Fixpoint scan_loop (fuel : nat) (little : bool) (read_size : nat)
    (value_chunks : list bytes) (fp : file)
  : result (bytes * file * list string) :=
  match fuel with
  | O => OutOfFuel
  | S fuel' =>
    let chunk_start := tell fp in
    let '(bytes_read, fp) := read read_size fp in
    let '(bytes_read, fp) :=
      if decide (length bytes_read < read_size)%nat then
        (* try again - if still don't get required amount, this is last block *)
        let '(new_bytes, fp) := read (read_size - length bytes_read) fp in
        (bytes_read ++ new_bytes, fp)
      else (bytes_read, fp) in
    if decide (length bytes_read < read_size)%nat then Raise EOFError
    else
      match find (bytes_to_find little) bytes_read with
      | Some index =>
        let value_chunks := value_chunks ++ [take index bytes_read] in
        let fp := seek (chunk_start + index + 4) fp in
        let '(length_, fp) := read 4 fp in
        let printed :=
          if decide (length_ = zero4) then [] else [delimiter_warning] in
        Ok (concat value_chunks, fp, printed)
      | None =>
        let fp := seek (tell fp - search_rewind) fp in
        scan_loop fuel' little read_size
          (value_chunks ++ [take (length bytes_read - search_rewind) bytes_read]) fp
      end
  end.

(** Every round that does not finish moves the cursor 125 bytes forward and
    needs 128 bytes after it, so one unit of fuel per byte of content, and
    one more, is always enough (see [read_undefined_length_value_total]).
    [little] is [self._unpackPrefix]; [read_size] has its default, 128. *)
Definition _read_undefined_length_value (little : bool) (fp : file)
  : result (bytes * file * list string) :=
  scan_loop (S (length (content fp))) little 128 [] fp.


(** A value in which the delimiter does not occur. *)
Definition no_needle (little : bool) (V : bytes) : Prop :=
  find (bytes_to_find little) V = None.

(** ** Python's numeric and text built-ins

    The module leans on a few built-ins whose exact behaviour it does not
    define: double-precision floats, [float(str)] and [int(str)], UTF-8
    decoding and zlib.  They are taken as an interface.  Of the floats two
    laws are assumed, both true of IEEE doubles as of the exact rationals
    of [Q_float]: [x < y] excludes [y < x], and [==] is symmetric. *)

Class PyFloat (F : Type) : Type := {
  f_of_Q : Q -> F;                   (* a literal, or float(n) for an int n *)
  f_of_string : string -> option F;  (* float(s); None is ValueError *)
  f_add : F -> F -> F;
  f_sub : F -> F -> F;
  f_mul : F -> F -> F;
  f_div : F -> F -> option F;        (* None is ZeroDivisionError *)
  f_abs : F -> F;
  f_eqb : F -> F -> bool;
  f_ltb : F -> F -> bool;
  f_trunc : F -> option Z;           (* int(x); None is an error on inf, nan *)
  f_ltb_asym : forall x y, f_ltb x y = true -> f_ltb y x = false;
  f_eqb_sym : forall x y, f_eqb x y = f_eqb y x
}.

Class PyRuntime : Type := {
  int_of_string : string -> option Z;    (* int(s); None is ValueError *)
  utf8_decode : bytes -> option string;  (* None is UnicodeDecodeError *)
  zlib_decompress_raw : bytes -> option bytes;
    (* zlib.decompress(b, -zlib.MAX_WBITS); None is zlib.error *)
  sys_is_little_endian : bool            (* sys.byteorder == 'little' *)
}.

Definition f_of_Z `{PyFloat F} (z : Z) : F := f_of_Q (inject_Z z).

(** Truth value of a float: [x != 0.0]. *)
Definition f_truth `{PyFloat F} (x : F) : bool := negb (f_eqb x (f_of_Z 0)).

(** ** Text helpers: [bytes.decode('ascii')], [str.strip], [str.split] *)

Definition decode_ascii (b : bytes) : result string :=
  if forallb (fun x => Z_of_byte x <? 128) b
  then Ok (string_of_list_byte b)
  else Raise UnicodeDecodeError.

Fixpoint lstrip_char (c : ascii) (s : string) : string :=
  match s with
  | String a s' => if Ascii.eqb a c then lstrip_char c s' else s
  | EmptyString => EmptyString
  end.

Fixpoint rstrip_by (p : ascii -> bool) (s : string) : string :=
  match s with
  | EmptyString => EmptyString
  | String a s' =>
    match rstrip_by p s' with
    | EmptyString => if p a then EmptyString else String a EmptyString
    | t => String a t
    end
  end.

(** [s.strip('\x00')] *)
Definition strip_nul (s : string) : string :=
  rstrip_by (Ascii.eqb zero) (lstrip_char zero s).

(** The ASCII characters for which [str.isspace] holds. *)
Definition is_space (a : ascii) : bool :=
  let n := nat_of_ascii a in
  ((9 <=? n) && (n <=? 13) || (28 <=? n) && (n <=? 32))%nat.

(** [s.rstrip()] *)
Definition rstrip (s : string) : string := rstrip_by is_space s.

(** [splitter in s] for a one-character splitter. *)
Fixpoint contains_char (c : ascii) (s : string) : bool :=
  match s with
  | EmptyString => false
  | String a s' => Ascii.eqb a c || contains_char c s'
  end.

(** [s.split(splitter)] for a one-character splitter. *)
Fixpoint split_char (c : ascii) (s : string) : list string :=
  match s with
  | EmptyString => [EmptyString]
  | String a s' =>
    if Ascii.eqb a c then EmptyString :: split_char c s'
    else match split_char c s' with
         | t :: ts => String a t :: ts
         | [] => [String a EmptyString]
         end
  end.

Definition backslash : ascii := ascii_of_nat 92.

(** [mapM] for [option]: all conversions succeed or the whole fails. *)
Fixpoint all_some {A B} (f : A -> option B) (l : list A) : option (list B) :=
  match l with
  | [] => Some []
  | a :: l' =>
    match f a with
    | Some b => match all_some f l' with Some bs => Some (b :: bs) | None => None end
    | None => None
    end
  end.

(** ** Decoded values

    What a converter can put in the info dict: [None], an int, a float, a
    str, raw bytes, or a tuple of those. *)

#[warnings="-register-all"]
Inductive value (F : Type) : Type :=
| VNone
| VInt (z : Z)
| VFloat (x : F)
| VStr (s : string)
| VBytes (b : bytes)
| VTuple (l : list (value F)).
Arguments VNone {F}.
Arguments VInt {F} z.
Arguments VFloat {F} x.
Arguments VStr {F} s.
Arguments VBytes {F} b.
Arguments VTuple {F} l.

Section Values.
Context {F : Type} `{PyFloat F}.

(** [a == b].  An int meets a float through [float(n)]. *)
Fixpoint py_eq (a b : value F) : bool :=
  match a, b with
  | VNone, VNone => true
  | VInt x, VInt y => x =? y
  | VInt x, VFloat y => f_eqb (f_of_Z x) y
  | VFloat x, VInt y => f_eqb x (f_of_Z y)
  | VFloat x, VFloat y => f_eqb x y
  | VStr s, VStr t => String.eqb s t
  | VBytes s, VBytes t => bool_decide (s = t)
  | VTuple l, VTuple m =>
    (fix go (l m : list (value F)) : bool :=
       match l, m with
       | [], [] => true
       | x :: l', y :: m' => py_eq x y && go l' m'
       | _, _ => false
       end) l m
  | _, _ => false
  end.

Definition bytes_ltb (s t : bytes) : bool :=
  String.ltb (string_of_list_byte s) (string_of_list_byte t).

(** [a < b] with Python 3's rules: numbers with numbers, text with text,
    tuples item by item; anything else is a TypeError. *)
Fixpoint py_lt (a b : value F) : result bool :=
  match a, b with
  | VInt x, VInt y => Ok (x <? y)
  | VInt x, VFloat y => Ok (f_ltb (f_of_Z x) y)
  | VFloat x, VInt y => Ok (f_ltb x (f_of_Z y))
  | VFloat x, VFloat y => Ok (f_ltb x y)
  | VStr s, VStr t => Ok (String.ltb s t)
  | VBytes s, VBytes t => Ok (bytes_ltb s t)
  | VTuple l, VTuple m =>
    (fix go (l m : list (value F)) : result bool :=
       match l, m with
       | [], [] => Ok false
       | [], _ :: _ => Ok true
       | _ :: _, [] => Ok false
       | x :: l', y :: m' => if py_eq x y then go l' m' else py_lt x y
       end) l m
  | _, _ => Raise (TypeError "unsupported operand")
  end.

(** [a > b] *)
Definition py_gt (a b : value F) : result bool := py_lt b a.

(** [v[i]] for a constant index [i >= 0]. *)
Definition py_getitem (v : value F) (i : nat) : result (value F) :=
  match v with
  | VTuple l =>
    match l !! i with Some x => Ok x | None => Raise IndexError end
  | VStr s =>
    match String.get i s with
    | Some c => Ok (VStr (String c EmptyString))
    | None => Raise IndexError
    end
  | VBytes b =>
    match b !! i with Some x => Ok (VInt (Z_of_byte x)) | None => Raise IndexError end
  | _ => Raise (TypeError "unsupported operand")
  end.

(** [float(v)] *)
Definition py_float (v : value F) : result F :=
  match v with
  | VInt z => Ok (f_of_Z z)
  | VFloat x => Ok x
  | VStr s =>
    match f_of_string s with Some x => Ok x | None => Raise (ValueError "float") end
  | _ => Raise (TypeError "unsupported operand")
  end.

(** [abs(v)] *)
Definition py_abs (v : value F) : result (value F) :=
  match v with
  | VInt z => Ok (VInt (Z.abs z))
  | VFloat x => Ok (VFloat (f_abs x))
  | _ => Raise (TypeError "unsupported operand")
  end.

(** [len(v)] of a tuple built by this module. *)
Definition tuple_items (v : value F) : list (value F) :=
  match v with VTuple l => l | _ => [] end.
End Values.

(** ** The tag dictionary *)

(** The dict display of the source, in its order.  Two keys are written
    twice, (0x0020, 0x0016) and (0x0020, 0x0018); as in any dict display the
    later entry replaces the earlier one. *)
Definition MINIDICT_items : list ((Z * Z) * (string * string)) :=
  [ ((0x7FE0, 0x0010), ("PixelData", "OB"));
    ((0x0008, 0x0020), ("StudyDate", "DA"));
    ((0x0008, 0x0021), ("SeriesDate", "DA"));
    ((0x0008, 0x0022), ("AcquisitionDate", "DA"));
    ((0x0008, 0x0023), ("ContentDate", "DA"));
    ((0x0008, 0x0030), ("StudyTime", "TM"));
    ((0x0008, 0x0031), ("SeriesTime", "TM"));
    ((0x0008, 0x0032), ("AcquisitionTime", "TM"));
    ((0x0008, 0x0033), ("ContentTime", "TM"));
    ((0x0008, 0x0060), ("Modality", "CS"));
    ((0x0008, 0x0070), ("Manufacturer", "LO"));
    ((0x0008, 0x0080), ("InstitutionName", "LO"));
    ((0x0008, 0x1030), ("StudyDescription", "LO"));
    ((0x0008, 0x103E), ("SeriesDescription", "LO"));
    ((0x0020, 0x0016), ("SOPClassUID", "UI"));
    ((0x0020, 0x0018), ("SOPInstanceUID", "UI"));
    ((0x0020, 0x000D), ("StudyInstanceUID", "UI"));
    ((0x0020, 0x000E), ("SeriesInstanceUID", "UI"));
    ((0x0008, 0x0117), ("ContextUID", "UI"));
    ((0x0020, 0x0011), ("SeriesNumber", "IS"));
    ((0x0020, 0x0012), ("AcquisitionNumber", "IS"));
    ((0x0020, 0x0013), ("InstanceNumber", "IS"));
    ((0x0020, 0x0014), ("IsotopeNumber", "IS"));
    ((0x0020, 0x0015), ("PhaseNumber", "IS"));
    ((0x0020, 0x0016), ("IntervalNumber", "IS"));
    ((0x0020, 0x0017), ("TimeSlotNumber", "IS"));
    ((0x0020, 0x0018), ("AngleNumber", "IS"));
    ((0x0020, 0x0019), ("ItemNumber", "IS"));
    ((0x0020, 0x0020), ("PatientOrientation", "CS"));
    ((0x0020, 0x0030), ("ImagePosition", "CS"));
    ((0x0020, 0x0032), ("ImagePositionPatient", "CS"));
    ((0x0020, 0x0035), ("ImageOrientation", "CS"));
    ((0x0020, 0x0037), ("ImageOrientationPatient", "CS"));
    ((0x0010, 0x0010), ("PatientName", "PN"));
    ((0x0010, 0x0020), ("PatientID", "LO"));
    ((0x0010, 0x0030), ("PatientBirthDate", "DA"));
    ((0x0010, 0x0040), ("PatientSex", "CS"));
    ((0x0010, 0x1010), ("PatientAge", "AS"));
    ((0x0010, 0x1020), ("PatientSize", "DS"));
    ((0x0010, 0x1030), ("PatientWeight", "DS"));
    ((0x0028, 0x0002), ("SamplesPerPixel", "US"));
    ((0x0028, 0x0008), ("NumberOfFrames", "IS"));
    ((0x0028, 0x0100), ("BitsAllocated", "US"));
    ((0x0028, 0x0101), ("BitsStored", "US"));
    ((0x0028, 0x0102), ("HighBit", "US"));
    ((0x0028, 0x0103), ("PixelRepresentation", "US"));
    ((0x0028, 0x0010), ("Rows", "US"));
    ((0x0028, 0x0011), ("Columns", "US"));
    ((0x0028, 0x0052), ("RescaleIntercept", "DS"));
    ((0x0028, 0x0053), ("RescaleSlope", "DS"));
    ((0x0028, 0x0030), ("PixelSpacing", "DS"));
    ((0x0018, 0x0088), ("SliceSpacing", "DS")) ].

Definition MINIDICT : gmap (Z * Z) (string * string) :=
  foldl (fun m kv => <[kv.1 := kv.2]> m) ∅ MINIDICT_items.

(** The groups we are interested in. *)
Definition GROUPS : gset Z :=
  list_to_set (fst <$> (fst <$> map_to_list MINIDICT)).

(** ** [SimpleDicomReader] *)

Record SimpleDicomReader (F : Type) : Type := {
  _filename : string;
  disk : option bytes;                  (* what open(_filename, 'rb') finds *)
  _file : option file;                  (* None once closed *)
  _pixel_data_loc : option (nat * Z);   (* (here, vl) *)
  is_implicit_VR : bool;
  is_little_endian : bool;
  _unpackPrefix : bool;                 (* true is '<', false is '>' *)
  _info : gmap string (value F)
}.
Arguments _filename {F} _.
Arguments disk {F} _.
Arguments _file {F} _.
Arguments _pixel_data_loc {F} _.
Arguments is_implicit_VR {F} _.
Arguments is_little_endian {F} _.
Arguments _unpackPrefix {F} _.
Arguments _info {F} _.

Section SimpleDicomReader.
Context {F : Type} `{PyFloat F} `{PyRuntime}.

Local Abbreviation reader := (SimpleDicomReader F).

Definition set_file (self : reader) (f : option file) : reader :=
  {| _filename := _filename self; disk := disk self; _file := f;
     _pixel_data_loc := _pixel_data_loc self;
     is_implicit_VR := is_implicit_VR self;
     is_little_endian := is_little_endian self;
     _unpackPrefix := _unpackPrefix self; _info := _info self |}.

Definition set_pixel_data_loc (self : reader) (loc : option (nat * Z)) : reader :=
  {| _filename := _filename self; disk := disk self; _file := _file self;
     _pixel_data_loc := loc;
     is_implicit_VR := is_implicit_VR self;
     is_little_endian := is_little_endian self;
     _unpackPrefix := _unpackPrefix self; _info := _info self |}.

Definition set_mode (self : reader) (implicit little : bool) : reader :=
  {| _filename := _filename self; disk := disk self; _file := _file self;
     _pixel_data_loc := _pixel_data_loc self;
     is_implicit_VR := implicit;
     is_little_endian := little;
     _unpackPrefix := little; _info := _info self |}.

Definition set_info (self : reader) (i : gmap string (value F)) : reader :=
  {| _filename := _filename self; disk := disk self; _file := _file self;
     _pixel_data_loc := _pixel_data_loc self;
     is_implicit_VR := is_implicit_VR self;
     is_little_endian := is_little_endian self;
     _unpackPrefix := _unpackPrefix self; _info := i |}.

(** [self._file], which must be open. *)
Definition the_file (self : reader) : result file :=
  match _file self with
  | Some f => Ok f
  | None => Raise (AttributeError "read")
  end.

(** [self.<key>] through [__getattr__], for a tag name [key]. *)
Definition getattr (self : reader) (key : string) : result (value F) :=
  match _info self !! key with
  | Some v => Ok v
  | None => Raise (AttributeError key)
  end.

(** [key in self], which walks [__iter__], the keys of the info dict. *)
Definition contains (self : reader) (key : string) : bool :=
  bool_decide (is_Some (_info self !! key)).

(** *** VR conversion *)

Definition _splitValues (x : bytes) (type : string -> option (value F))
    (splitter : ascii) : result (value F) :=
  s ← strip_nul <$> decode_ascii x;
  let converted :=
    if contains_char splitter s
    then VTuple <$> all_some type
           (filter (fun v => v ≠ EmptyString) (split_char splitter s))
    else type s in
  Ok (match converted with
      | Some v => v
      | None => VStr s     (* except ValueError: return s *)
      end).

Definition type_float (s : string) : option (value F) := VFloat <$> f_of_string s.
Definition type_int (s : string) : option (value F) := VInt <$> int_of_string s.

Definition decode_utf8 (x : bytes) : result string :=
  match utf8_decode x with
  | Some s => Ok s
  | None => Raise UnicodeDecodeError
  end.

(** [self._converters.get(vr, lambda x: x)(x)]; the lambdas read
    [self._unpackPrefix] when they are called. *)
Definition converter (self : reader) (vr : string) (x : bytes) : result (value F) :=
  match vr with
  | "US" => VInt <$> struct_unpack (_unpackPrefix self) fmt_H x
  | "UL" => VInt <$> struct_unpack (_unpackPrefix self) fmt_L x
  | "DS" => _splitValues x type_float backslash
  | "IS" => _splitValues x type_int backslash
  | "AS" | "DA" | "TM" | "UI" => (fun s => VStr (strip_nul s)) <$> decode_ascii x
  | "LO" | "PN" => (fun s => VStr (rstrip (strip_nul s))) <$> decode_utf8 x
  | "CS" => _splitValues x type_float backslash
  | _ => Ok (VBytes x)
  end.

(** *** [_readDataElement] *)

Definition deferred : bytes := list_byte_of_string "Deferred loading of pixel data".

Definition long_VRs : list bytes :=
  list_byte_of_string <$> ["OB"; "OW"; "SQ"; "UN"].

(** [self._unpack(fmt, f.read(size))] *)
Definition read_unpack (little : bool) (c : fmt) (f : file) : result (Z * file) :=
  let '(b, f) := read (calcsize c) f in
  v ← struct_unpack little c b;
  Ok (v, f).

(** Returns [(group, element, value)] and the reader as the call leaves
    it.  What the undefined-length scan prints goes to standard output
    and is not kept here. *)
Definition _readDataElement (self : reader) : result (Z * Z * bytes * reader) :=
  f ← the_file self;
  let little := _unpackPrefix self in
  (* Get group and element *)
  '(group, f) ← read_unpack little fmt_H f;
  '(element, f) ← read_unpack little fmt_H f;
  (* Get value length *)
  '(vl, f) ←
    (if is_implicit_VR self then read_unpack little fmt_I f
     else
       let '(vr, f) := read 2 f in
       if bool_decide (vr ∈ long_VRs) then
         let '(reserved, f) := read 2 f in
         read_unpack little fmt_I f
       else read_unpack little fmt_H f);
  (* Get value *)
  if (group =? 0x7FE0) && (element =? 0x0010) then
    let here := tell f in
    let self := set_pixel_data_loc self (Some (here, vl)) in
    Ok (group, element, deferred, set_file self (Some (seek (here + Z.to_nat vl) f)))
  else if vl =? 0xFFFFFFFF then
    '(value, f, _) ← _read_undefined_length_value little f;
    Ok (group, element, value, set_file self (Some f))
  else
    let '(value, f) := read (Z.to_nat vl) f in
    Ok (group, element, value, set_file self (Some f)).

(** *** [_read_header] *)

(** The [while True] loop that reads the group 2 elements; it ends by
    rewinding to the start of the first element of another group. *)
Fixpoint header_loop (fuel : nat) (self : reader) (TransferSyntaxUID : option string)
  : result (option string * reader) :=
  match fuel with
  | O => OutOfFuel
  | S fuel' =>
    f ← the_file self;
    let fp_save := tell f in
    '(group, element, value, self) ← _readDataElement self;
    if group =? 0x02 then
      uid ← (if (group =? 0x02) && (element =? 0x10)
             then (fun s => Some (strip_nul s)) <$> decode_ascii value
             else Ok TransferSyntaxUID);
      header_loop fuel' self uid
    else
      (* No more group 2: rewind and break (don't trust group length) *)
      f ← the_file self;
      Ok (TransferSyntaxUID, set_file self (Some (seek fp_save f)))
  end.

Definition header_eof_message : string :=
  "End of file reached while still reading header.".

(** [_inflate]: the rest of the stream is replaced by its inflation. *)
Definition _inflate (self : reader) : result reader :=
  f ← the_file self;
  let '(zipped, f) := read_rest f in
  match zlib_decompress_raw zipped with
  | Some unzipped => Ok (set_file self (Some (File unzipped 0)))
  | None => Raise ZlibError
  end.

(** The chain of [if] / [elif] on the transfer syntax: the mode
    [(is_implicit_VR, is_little_endian)] and the reader, inflated where
    the syntax asks for it. *)
Definition handle_transfer_syntax (TransferSyntaxUID : option string) (self : reader)
  : result (bool * bool * reader) :=
  match TransferSyntaxUID with
  | None => Ok (false, true, self)             (* Assume ExplicitVRLittleEndian *)
  | Some uid =>
    if decide (uid = "1.2.840.10008.1.2.1") then Ok (false, true, self)
    else if decide (uid = "1.2.840.10008.1.2.2") then Ok (false, false, self)
    else if decide (uid = "1.2.840.10008.1.2") then Ok (true, true, self)
    else if decide (uid = "1.2.840.10008.1.2.1.99") then
      self ← _inflate self;
      Ok (false, true, self)
    else if decide (uid = "1.2.840.10008.1.2.4.70") then Ok (false, true, self)
    else Raise (UnsupportedTransferSyntax uid)
  end.


Definition value_of_uid (TransferSyntaxUID : option string) : value F :=
  match TransferSyntaxUID with Some uid => VStr uid | None => VNone end.

Definition _read_header (self : reader) : result reader :=
  f ← the_file self;
  '(TransferSyntaxUID, self) ←
    match header_loop (S (length (content f))) self None with
    | Raise EOFError | Raise StructError => Raise (RuntimeError header_eof_message)
    | r => r
    end;
  (* Handle transfer syntax *)
  let self := set_info self (<["TransferSyntaxUID" := value_of_uid TransferSyntaxUID]> (_info self)) in
  '(implicit, little, self) ← handle_transfer_syntax TransferSyntaxUID self;
  (* From hereon, use implicit/explicit big/little endian *)
  Ok (set_mode self implicit little).

(** *** [_read_data_elements] *)

Fixpoint data_elements_loop (fuel : nat) (self : reader) : result reader :=
  match fuel with
  | O => OutOfFuel
  | S fuel' =>
    match _readDataElement self with
    | Raise EOFError | Raise StructError => Ok self       (* end of file ... *)
    | Raise e => Raise e
    | OutOfFuel => OutOfFuel
    | Ok (group, element, value, self) =>
      (* Is it a group we are interested in? *)
      if bool_decide (group ∈ GROUPS) then
        match MINIDICT !! (group, element) with
        | Some (name, vr) =>
          (* Is it an element we are interested in? *)
          match converter self vr value with
          | Ok v => data_elements_loop fuel' (set_info self (<[name := v]> (_info self)))
          | Raise EOFError | Raise StructError => Ok self
          | Raise e => Raise e
          | OutOfFuel => OutOfFuel
          end
        | None => data_elements_loop fuel' self
        end
      else data_elements_loop fuel' self
    end
  end.

Definition _read_data_elements (self : reader) : result reader :=
  f ← the_file self;
  data_elements_loop (S (length (content f))) self.

(** *** [_get_shape_and_sampling] *)

(** [(1.0,)*(len(shape)-len(sampling)) + sampling[-len(shape):]] *)
Definition fit_sampling (shape sampling : list (value F)) : list (value F) :=
  repeat (VFloat (f_of_Z 1)) (length shape - length sampling)
  ++ drop (length sampling - length shape) sampling.

Definition _get_shape_and_sampling (self : reader) : result reader :=
  (* Get shape (in the same way that pydicom does) *)
  multi ← (if contains self "NumberOfFrames"
           then n ← getattr self "NumberOfFrames"; py_gt n (VInt 1)
           else Ok false);
  shape ←
    (if multi : bool then
       spp ← getattr self "SamplesPerPixel";
       c ← py_gt spp (VInt 1);
       if c : bool then
         a ← getattr self "SamplesPerPixel";
         b ← getattr self "NumberOfFrames";
         r ← getattr self "Rows";
         k ← getattr self "Columns";
         Ok [a; b; r; k]
       else
         b ← getattr self "NumberOfFrames";
         r ← getattr self "Rows";
         k ← getattr self "Columns";
         Ok [b; r; k]
     else
       spp ← getattr self "SamplesPerPixel";
       c ← py_gt spp (VInt 1);
       if c : bool then
         bits ← getattr self "BitsAllocated";
         if py_eq bits (VInt 8) then
           a ← getattr self "SamplesPerPixel";
           r ← getattr self "Rows";
           k ← getattr self "Columns";
           Ok [a; r; k]
         else Raise NotImplementedError
       else
         r ← getattr self "Rows";
         k ← getattr self "Columns";
         Ok [r; k]);
  (* Try getting sampling between pixels *)
  ps ← getattr self "PixelSpacing";
  s0 ← py_getitem ps 0 ≫= py_float;
  ps ← getattr self "PixelSpacing";
  s1 ← py_getitem ps 1 ≫= py_float;
  let sampling := [VFloat s0; VFloat s1] in
  sampling ←
    (if contains self "SliceSpacing"
     then
       ss ← getattr self "SliceSpacing";
       a ← py_abs ss;
       Ok (a :: sampling)
     else Ok sampling);
  (* Ensure that sampling has as many elements as shape *)
  let sampling := fit_sampling shape sampling in
  (* Set shape and sampling *)
  Ok (set_info self (<["sampling" := VTuple sampling]>
                       (<["shape" := VTuple shape]> (_info self)))).

(** *** [__init__] and [_read] *)

(** What the constructor is given: a file name, here with the content of
    the file it names, or an open file object. *)
Inductive source : Type :=
| FromPath (filename : string) (data : bytes)
| FromFile (f : file).

Definition DICM : bytes := list_byte_of_string "DICM".

Definition not_dicom_message : string := "Not a valid DICOM file.".

(** [os.path.isfile(self._filename)] holds for a reader opened from a
    path and not for '<unknown file>'. *)
Definition _read (from_path : bool) (self : reader) : result reader :=
  f ← the_file self;
  (* Check prefix after peamble *)
  let '(magic, f) := read 4 (seek 128 f) in
  if decide (magic ≠ DICM) then Raise NotADicomFile
  else
    let self := set_file self (Some f) in
    self ← _read_header self;
    self ← _read_data_elements self;
    self ← _get_shape_and_sampling self;
    (* Close if done, reopen if necessary to read pixel data *)
    Ok (if from_path then set_file self None else self).

Definition new_SimpleDicomReader (src : source) : result reader :=
  let '(filename, on_disk, f, from_path) :=
    match src with
    | FromPath filename data => (filename, Some data, File data 0, true)
    | FromFile f => ("<unknown file>", None, f, false)
    end in
  (* The meta header is always explicit and little endian *)
  _read from_path
    {| _filename := filename; disk := on_disk;
       _file := Some f; _pixel_data_loc := None;
       is_implicit_VR := false; is_little_endian := true;
       _unpackPrefix := true; _info := ∅ |}.
End SimpleDicomReader.

(** ** NumPy

    Arrays are used through the handful of operations below.  They are an
    interface, as for the floats: nothing is assumed about them. *)

Inductive dtype : Type :=
| uint8 | uint16 | uint32 | uint64
| int8 | int16 | int32 | int64
| float32 | float64.

#[global] Instance dtype_eq_dec : EqDecision dtype.
Proof. solve_decision. Defined.

(** The values an integer type holds. *)
Definition dtype_range (dt : dtype) : option (Z * Z) :=
  match dt with
  | uint8 => Some (0, 2 ^ 8 - 1)
  | uint16 => Some (0, 2 ^ 16 - 1)
  | uint32 => Some (0, 2 ^ 32 - 1)
  | uint64 => Some (0, 2 ^ 64 - 1)
  | int8 => Some (- 2 ^ 7, 2 ^ 7 - 1)
  | int16 => Some (- 2 ^ 15, 2 ^ 15 - 1)
  | int32 => Some (- 2 ^ 31, 2 ^ 31 - 1)
  | int64 => Some (- 2 ^ 63, 2 ^ 63 - 1)
  | float32 | float64 => None
  end.

Definition itemsize (dt : dtype) : nat :=
  match dt with
  | uint8 | int8 => 1
  | uint16 | int16 => 2
  | uint32 | int32 | float32 => 4
  | uint64 | int64 | float64 => 8
  end%nat.

Definition is_signed (dt : dtype) : bool :=
  match dt with
  | int8 | int16 | int32 | int64 => true
  | _ => false
  end.

(** [z] brought into the range of [dt] as a C cast does. *)
Definition wrap (dt : dtype) (z : Z) : Z :=
  let m := 2 ^ (8 * Z.of_nat (itemsize dt)) in
  let r := z mod m in
  if is_signed dt && (m / 2 <=? r) then r - m else r.

(** A NumPy scalar with an integral value: [a.min()] of an integer
    array, and what arithmetic makes of it.  It has a type of its own:
    the element type of the array it comes from, or the type the
    arithmetic gave it. *)
Record npscalar : Type := {
  sc_dtype : dtype;
  sc_val : Z
}.

(** [-x] stays in the type of [x]: in an integer type it wraps around, so
    that the least value of a signed type is its own negative. *)
Definition sc_neg (x : npscalar) : npscalar :=
  {| sc_dtype := sc_dtype x;
     sc_val := match dtype_range (sc_dtype x) with
               | Some _ => wrap (sc_dtype x) (- sc_val x)
               | None => - sc_val x
               end |}.

(** [min([a, b, c])], [max([a, b, c])] and [max([a, b])] of Python: the
    items are compared by value, and the first of the least (of the
    greatest) is returned, with the type it has. *)
Definition py_min3 (a b c : npscalar) : npscalar :=
  let m := if sc_val b <? sc_val a then b else a in
  if sc_val c <? sc_val m then c else m.

Definition py_max3 (a b c : npscalar) : npscalar :=
  let m := if sc_val a <? sc_val b then b else a in
  if sc_val m <? sc_val c then c else m.

Definition py_max2 (a b : npscalar) : npscalar :=
  if sc_val a <? sc_val b then b else a.

Class NumPy (F : Type) (ndarray : Type) : Type := {
  nd_shape : ndarray -> list nat;                       (* a.shape *)
  nd_dtype : ndarray -> dtype;                          (* a.dtype *)
  nd_getitem : ndarray -> Z -> result ndarray;          (* a[index] *)
  nd_setitem : ndarray -> Z -> ndarray -> result ndarray;   (* a[index] = b *)
  nd_zeros : value F -> dtype -> result ndarray;        (* np.zeros(shape, dtype) *)
  nd_fromstring : bytes -> dtype -> result ndarray;     (* np.fromstring(b, dtype) *)
  nd_byteswap : ndarray -> ndarray;                     (* a.byteswap(True) *)
  nd_reshape : ndarray -> value F -> result ndarray;    (* a.reshape( *shape) *)
  nd_astype : ndarray -> dtype -> ndarray;              (* a.astype(dtype) *)
  nd_min : ndarray -> result Z;                         (* a.min() of an int array *)
  nd_max : ndarray -> result Z;                         (* a.max() of an int array *)
  nd_imul : ndarray -> value F -> result ndarray;       (* a *= x *)
  nd_iadd : ndarray -> value F -> result ndarray;       (* a += x *)
  sc_mul : npscalar -> Z -> result npscalar;            (* x * n, n a Python int *)
  sc_add : npscalar -> Z -> result npscalar             (* x + n, n a Python int *)
}.

Definition nd_ndim `{NumPy F ndarray} (a : ndarray) : nat := length (nd_shape a).

(** ** Integer promotion before rescaling

    The [else] branch of [_apply_slope_and_offset] that picks the element
    type for integer data with an integral slope and offset.  [dmin] and
    [dmax] are [data.min()] and [data.max()], scalars of the element type
    of the data.  What type a product or a sum of such a scalar and a
    Python int has, and when it overflows, is NumPy's affair ([sc_mul]
    and [sc_add] of the interface); comparisons are by value, and the
    negation wraps in the type of its operand. *)

Section Promotion.
Context {F : Type} {ndarray : Type} `{NumPy F ndarray}.

(** [x*slope+offset] *)
Definition sc_affine (x : npscalar) (slope offset : Z) : result npscalar :=
  p ← sc_mul x slope;
  sc_add p offset.

Definition required_dtype (dmin dmax : npscalar) (slope offset : Z) : result dtype :=
  (* Determine required range *)
  let minReq := dmin in
  let maxReq := dmax in
  a ← sc_affine minReq slope offset;
  b ← sc_affine maxReq slope offset;
  let minReq := py_min3 minReq a b in
  (* [maxReq] is computed after [minReq] has been overwritten *)
  a ← sc_affine minReq slope offset;
  b ← sc_affine maxReq slope offset;
  let maxReq := py_max3 maxReq a b in
  (* Determine required datatype from that *)
  Ok (if sc_val minReq <? 0 then
        (* Signed integer type *)
        let maxReq := py_max2 (sc_neg minReq) maxReq in
        if sc_val maxReq <? 2 ^ 7 then int8
        else if sc_val maxReq <? 2 ^ 15 then int16
        else if sc_val maxReq <? 2 ^ 31 then int32
        else float32
      else
        (* Unsigned integer type *)
        if sc_val maxReq <? 2 ^ 8 then int8
        else if sc_val maxReq <? 2 ^ 16 then int16
        else if sc_val maxReq <? 2 ^ 32 then int32
        else float32).
End Promotion.

(** The rule in the words of the specification: [minReq] and [maxReq]
    both from the minimum and maximum of the data, then the smallest of
    the 8, 16 and 32 bit types whose range contains them, signed when
    [minReq < 0] and unsigned otherwise, and [float32] when none does. *)

Definition spec_minReq (dmin dmax slope offset : Z) : Z :=
  Z.min dmin (Z.min (dmin * slope + offset) (dmax * slope + offset)).

Definition spec_maxReq (dmin dmax slope offset : Z) : Z :=
  Z.max dmax (Z.max (dmin * slope + offset) (dmax * slope + offset)).

Definition range_contains (dt : dtype) (lo hi : Z) : bool :=
  match dtype_range dt with
  | Some (a, b) => (a <=? lo) && (hi <=? b)
  | None => false
  end.

Definition spec_required_dtype (dmin dmax slope offset : Z) : dtype :=
  let minReq := spec_minReq dmin dmax slope offset in
  let maxReq := spec_maxReq dmin dmax slope offset in
  let candidates := if minReq <? 0 then [int8; int16; int32] else [uint8; uint16; uint32] in
  match List.find (fun dt => range_contains dt minReq maxReq) candidates with
  | Some dt => dt
  | None => float32
  end.

(** The unsigned type of the same width. *)
Definition unsign (dt : dtype) : dtype :=
  match dt with
  | int8 => uint8
  | int16 => uint16
  | int32 => uint32
  | int64 => uint64
  | other => other
  end.

(** ** Pixel data: [get_numpy_array] and its helpers *)

Section PixelData.
Context {F : Type} `{PyFloat F} `{PyRuntime} {ndarray : Type} `{NumPy F ndarray}.

Local Abbreviation reader := (SimpleDicomReader F).

Definition no_pixel_data_message : string := "No pixel data found in this dataset.".

(** [int(v)] *)
Definition py_int (v : value F) : result Z :=
  match v with
  | VInt z => Ok z
  | VFloat x =>
    match f_trunc x with Some z => Ok z | None => Raise (ValueError "int") end
  | VStr s =>
    match int_of_string s with Some z => Ok z | None => Raise (ValueError "int") end
  | _ => Raise (TypeError "int")
  end.

(** [np.dtype('%sint%d' % (('u', '')[rep], bits))] *)
Definition numpy_format (rep bits : value F) : result dtype :=
  signed ←
    match rep with
    | VInt 0 | VInt (-2) => Ok false
    | VInt 1 | VInt (-1) => Ok true
    | VInt _ => Raise IndexError
    | _ => Raise (TypeError "tuple indices must be integers")
    end;
  width ←
    match bits with
    | VInt z => Ok z
    | VFloat _ => py_int bits
    | _ => Raise (TypeError "%d format: a number is required")
    end;
  match signed, width with
  | false, 8 => Ok uint8 | false, 16 => Ok uint16
  | false, 32 => Ok uint32 | false, 64 => Ok uint64
  | true, 8 => Ok int8 | true, 16 => Ok int16
  | true, 32 => Ok int32 | true, 64 => Ok int64
  | _, _ => Raise UnboundLocalError
    (* the handler of the TypeError formats [numpy_format], not yet bound *)
  end.

Definition _pixel_data_numpy (self : reader) : result ndarray :=
  if negb (contains self "PixelData") then Raise (TypeError no_pixel_data_message)
  else
    (* determine the type used for the array *)
    let need_byteswap := negb (eqb (is_little_endian self) sys_is_little_endian) in
    rep ← getattr self "PixelRepresentation";
    bits ← getattr self "BitsAllocated";
    format ← numpy_format rep bits;
    pd ← getattr self "PixelData";
    arr ← match pd with
          | VBytes b => nd_fromstring b format
          | _ => Raise (TypeError "fromstring")
          end;
    let arr := if need_byteswap then nd_byteswap arr else arr in
    shape ← match _info self !! "shape" with
            | Some v => Ok v
            | None => Raise (KeyError "shape")
            end;
    nd_reshape arr shape.

Definition _apply_slope_and_offset (self : reader) (data : ndarray) : result ndarray :=
  (* Obtain slope and offset *)
  '(slope, needApplySlopeOffset) ←
    (if contains self "RescaleSlope"
     then v ← getattr self "RescaleSlope"; Ok (v, true)
     else Ok (VInt 1, false));
  '(offset, needApplySlopeOffset) ←
    (if contains self "RescaleIntercept"
     then v ← getattr self "RescaleIntercept"; Ok (v, true)
     else Ok (VInt 0, needApplySlopeOffset));
  needFloats ←
    (si ← py_int slope;
     if negb (py_eq (VInt si) slope) then Ok true
     else oi ← py_int offset; Ok (negb (py_eq (VInt oi) offset)));
  '(slope, offset) ←
    (if needFloats : bool then Ok (slope, offset)
     else si ← py_int slope; oi ← py_int offset; Ok (VInt si, VInt oi));
  (* Apply slope and offset *)
  if needApplySlopeOffset : bool then
    data ←
      (* Maybe we need to change the datatype? *)
      (if bool_decide (nd_dtype data ∈ [float32; float64]) then Ok data
       else if needFloats : bool then Ok (nd_astype data float32)
       else
         dmin ← nd_min data;
         dmax ← nd_max data;
         si ← py_int slope;
         oi ← py_int offset;
         dt ← required_dtype (F:=F) (ndarray:=ndarray)
                {| sc_dtype := nd_dtype data; sc_val := dmin |}
                {| sc_dtype := nd_dtype data; sc_val := dmax |} si oi;
         (* Change datatype *)
         Ok (if decide (dt ≠ nd_dtype data) then nd_astype data dt else data));
    data ← nd_imul data slope;
    nd_iadd data offset
  else Ok data.

Definition converted_message : bytes :=
  list_byte_of_string
    "Data converted to numpy array, raw data removed to preserve memory".

(** [len(self.PixelData)] *)
Definition py_len (v : value F) : result nat :=
  match v with
  | VBytes b => Ok (length b)
  | VStr s => Ok (String.length s)
  | VTuple l => Ok (length l)
  | _ => Raise (TypeError "len")
  end.

Definition get_numpy_array (self : reader) : result (ndarray * reader) :=
  (* Is there pixel data at all? *)
  if negb (contains self "PixelData") then Raise (TypeError no_pixel_data_message)
  else
    (* Load it now if it was not already loaded *)
    self ←
      match _pixel_data_loc self with
      | Some (here, vl) =>
        n ← getattr self "PixelData" ≫= py_len;
        if decide (n < 100)%nat then
          (* Reopen file? *)
          f ← match _file self with
              | Some f => Ok f
              | None =>
                match disk self with
                | Some data => Ok (File data 0)
                | None => Raise IOError
                end
              end;
          (* Read data *)
          let f := seek here f in
          '(value, f) ←
            (if vl =? 0xFFFFFFFF then
               '(value, f, _) ← _read_undefined_length_value (_unpackPrefix self) f;
               Ok (value, f)
             else Ok (read (Z.to_nat vl) f));
          (* Overwrite *)
          Ok (set_info (set_file self (Some f)) (<["PixelData" := VBytes value]> (_info self)))
        else Ok self
      | None => Ok self
      end;
    (* Get data *)
    data ← _pixel_data_numpy self;
    data ← _apply_slope_and_offset self data;
    (* Remove data again to preserve memory *)
    Ok (data, set_info self (<["PixelData" := VBytes converted_message]> (_info self))).
End PixelData.

(** ** The progress indicator

    Calls on the indicator are recorded, in order, as events. *)

Inductive progress_event : Type :=
| PStart (action unit : string) (max : nat)
| PSetProgress (n : nat)
| PWrite (msg : string)
| PFinish (msg : option string).

Abbreviation progress_log := (list progress_event).

(** [str(why)] for the exceptions of the model. *)
Definition str_of_exn (e : exn) : string :=
  match e with
  | EOFError => "End of file reached before sequence delimiter found."
  | StructError => "unpack requires a buffer"
  | NotADicomFile => "Not a valid DICOM file."
  | RuntimeError msg => msg
  | UnsupportedTransferSyntax uid =>
    "The simple dicom reader can only read files with uncompressed image data (not '"
      ++ uid ++ "')"
  | NotImplementedError =>
    "This code only handles SamplesPerPixel > 1 if Bits Allocated = 8"
  | TypeError msg => msg
  | ValueError msg => msg
  | IndexError => "index out of range"
  | AttributeError name => "'SimpleDicomReader' object has no attribute '" ++ name ++ "'"
  | KeyError name => "'" ++ name ++ "'"
  | UnicodeDecodeError => "codec can't decode byte"
  | ZlibError => "Error while decompressing data"
  | ZeroDivisionError => "float division by zero"
  | UnboundLocalError => "local variable 'numpy_format' referenced before assignment"
  | IOError => "No such file or directory"
  end.

(** ** Stable sorting with a key, as [list.sort(key=...)]

    The keys are compared with [<] only.  A comparison that raises makes
    the sort raise. *)

Section Sort.
Context {F : Type} `{PyFloat F} {A : Type}.

Fixpoint insert_by_key (k : value F) (a : A) (sorted : list (value F * A))
  : result (list (value F * A)) :=
  match sorted with
  | [] => Ok [(k, a)]
  | (k', a') :: rest =>
    c ← py_lt k' k;
    if c : bool then r ← insert_by_key k a rest; Ok ((k', a') :: r)
    else Ok ((k, a) :: sorted)
  end.

Fixpoint sort_keyed (l : list (value F * A)) : result (list (value F * A)) :=
  match l with
  | [] => Ok []
  | (k, a) :: l' => s ← sort_keyed l'; insert_by_key k a s
  end.

(** Every key is computed first, then the list is sorted. *)
Fixpoint with_keys (key : A -> result (value F)) (l : list A)
  : result (list (value F * A)) :=
  match l with
  | [] => Ok []
  | a :: l' => k ← key a; r ← with_keys key l'; Ok ((k, a) :: r)
  end.

Definition sort_by (key : A -> result (value F)) (l : list A) : result (list A) :=
  kl ← with_keys key l;
  s ← sort_keyed kl;
  Ok (List.map snd s).

(** No item has a key below the key of the item in front of it. *)
Inductive sorted_keys : list (value F * A) -> Prop :=
  | sorted_keys_nil : sorted_keys []
  | sorted_keys_one ka : sorted_keys [ka]
  | sorted_keys_cons k1 a1 k2 a2 l :
      py_lt k2 k1 = Ok false ->
      sorted_keys ((k2, a2) :: l) ->
      sorted_keys ((k1, a1) :: (k2, a2) :: l).

(** Every item has a key, and the keys are in order. *)
Definition key_sorted (key : A -> result (value F)) (l : list A) : Prop :=
  exists kl, with_keys key l = Ok kl /\ sorted_keys kl.
End Sort.

(** ** [DicomSeries] *)

(** The info dict of a [SimpleDicomReader], under a name that stays free
    inside the series' own name space. *)
Abbreviation dcm_info := (@_info).

Module DicomSeries.
Record t (F : Type) : Type := {
  _entries : list (SimpleDicomReader F);
  _suid : value F;
  _info : gmap string (value F)
}.
Arguments _entries {F} _.
Arguments _suid {F} _.
Arguments _info {F} _.

Section Methods.
Context {F : Type} `{PyFloat F} `{PyRuntime} {ndarray : Type} `{NumPy F ndarray}.

Local Abbreviation reader := (SimpleDicomReader F).
Local Abbreviation info_of := (dcm_info F).

(** [DicomSeries(suid, progressIndicator)] *)
Definition new (suid : value F) : t F :=
  {| _entries := []; _suid := suid; _info := ∅ |}.

Definition set_entries (self : t F) (L : list reader) : t F :=
  {| _entries := L; _suid := _suid self; _info := _info self |}.

Definition set_info (self : t F) (i : gmap string (value F)) : t F :=
  {| _entries := _entries self; _suid := _suid self; _info := i |}.

Definition _append (self : t F) (dcm : reader) : t F :=
  set_entries self (_entries self ++ [dcm]).

Definition _sort (self : t F) : result (t F) :=
  L ← sort_by (fun k => getattr k "InstanceNumber") (_entries self);
  Ok (set_entries self L).

Definition dimension_message : string := "Dimensions of slices does not match.".
Definition sampling_warning : string := "Warning: sampling does not match.".

(** [ds.Rows, ds.Columns] *)
Definition dimensions_of (ds : reader) : result (value F) :=
  r ← getattr ds "Rows";
  c ← getattr ds "Columns";
  Ok (VTuple [r; c]).

(** [float(ds.PixelSpacing[0]), float(ds.PixelSpacing[1])] *)
Definition sampling_of (ds : reader) : result (value F) :=
  ps ← getattr ds "PixelSpacing";
  a ← py_getitem ps 0 ≫= py_float;
  ps ← getattr ds "PixelSpacing";
  b ← py_getitem ps 1 ≫= py_float;
  Ok (VTuple [VFloat a; VFloat b]).

(** [float(ds.ImagePositionPatient[2])] *)
Definition z_position (ds : reader) : result F :=
  ipp ← getattr ds "ImagePositionPatient";
  py_getitem ipp 2 ≫= py_float.

(** One round of the [for index in range(len(L))] loop of [_finish], up
    to and including the test of the dimensions: the new
    [distance_sum], and whether the sampling matches. *)
Definition finish_step (dimensions sampling : value F) (ds1 ds2 : reader)
    (distance_sum : F) : result (F * bool) :=
  (* Get positions *)
  pos1 ← z_position ds1;
  pos2 ← z_position ds2;
  (* Update distance_sum to calculate distance later *)
  let distance_sum := f_add distance_sum (f_abs (f_sub pos1 pos2)) in
  (* Test measures *)
  dimensions2 ← dimensions_of ds2;
  sampling2 ← sampling_of ds2;
  if negb (py_eq dimensions dimensions2) then
    (* We cannot produce a volume if the dimensions match *)
    Raise (ValueError dimension_message)
  else Ok (distance_sum, py_eq sampling sampling2).

(** The loop; it returns the last [ds2] and the sum.  The log is
    returned on every path: a warning written before a later slice
    raises stays written. *)
Fixpoint finish_loop (dimensions sampling : value F) (ds1 : reader)
    (distance_sum : F) (L : list reader) (log : progress_log)
  : result (reader * F) * progress_log :=
  match L with
  | [] => (Ok (ds1, distance_sum), log)
  | ds2 :: L' =>
    match finish_step dimensions sampling ds1 ds2 distance_sum with
    | Ok (distance_sum, same_sampling) =>
      let log :=
        if same_sampling : bool then log
        else log ++ [PWrite sampling_warning] in
      (* Store previous *)
      finish_loop dimensions sampling ds2 distance_sum L' log
    | Raise e => (Raise e, log)
    | OutOfFuel => (OutOfFuel, log)
    end
  end.

(** [(a,) + t] for a tuple [t] *)
Definition tuple_cons (a : value F) (t : value F) : result (value F) :=
  match t with
  | VTuple l => Ok (VTuple (a :: l))
  | _ => Raise (TypeError "can only concatenate tuple")
  end.

Definition info_item (ds : reader) (key : string) : result (value F) :=
  match info_of ds !! key with
  | Some v => Ok v
  | None => Raise (KeyError key)
  end.

Definition _finish (self : t F) (log : progress_log)
  : result (t F) * progress_log :=
  (* The datasets list should be sorted by instance number *)
  let L := _entries self in
  match L with
  | [] => (Ok self, log)
  | [only] => (Ok (set_info self (info_of only)), log)
  | ds1 :: _ =>
    (* Init measures to check (these are in 2D) *)
    match (dimensions ← dimensions_of ds1;
           sampling ← sampling_of ds1;
           Ok (dimensions, sampling)) with
    | Ok (dimensions, sampling) =>
      (* Init measures to calculate average of *)
      let distance_sum := f_of_Z 0 in
      match finish_loop dimensions sampling ds1 distance_sum L log with
      | (Ok (ds2, distance_sum), log) =>
        ((* Finish calculating average distance
            (Note that there are len(L)-1 distances) *)
         distance_mean ←
           match f_div distance_sum (f_of_Z (Z.of_nat (length L) - 1)) with
           | Some m => Ok m
           | None => Raise ZeroDivisionError
           end;
         (* Set info dict *)
         let info := info_of ds1 in
         (* Store information that is specific for the serie *)
         shape ← info_item ds2 "shape" ≫= tuple_cons (VInt (Z.of_nat (length L)));
         let info := <["shape" := shape]> info in
         sampling ← info_item ds2 "sampling" ≫= tuple_cons (VFloat distance_mean);
         Ok (set_info self (<["sampling" := sampling]> info)),
         log)
      | (Raise e, log) => (Raise e, log)
      | (OutOfFuel, log) => (OutOfFuel, log)
      end
    | Raise e => (Raise e, log)
    | OutOfFuel => (OutOfFuel, log)
    end
  end.

Definition no_files_message : string := "Serie does not contain any files.".

(** [get_numpy_array]: the slices are loaded in turn and stacked.  The
    readers are left as they were: loading only swaps [PixelData] for a
    placeholder, and the next call reloads it from the file. *)
Definition get_numpy_array (self : t F) (log : progress_log)
  : result ndarray * progress_log :=
  match _entries self with
  | [] => (Raise (ValueError no_files_message), log)
  | [only] => (fst <$> get_numpy_array only, log)
  | first :: rest =>
    (* Init data (using what the dicom packaged produces as a reference) *)
    match ('(slice, _) ← get_numpy_array first;
           shape ← match _info self !! "shape" with
                   | Some v => Ok v
                   | None => Raise (KeyError "shape")
                   end;
           vol ← nd_zeros shape (nd_dtype slice);
           nd_setitem vol 0 slice) with
    | Ok vol =>
      (* Fill volume *)
      let n := length (_entries self) in
      let log := log ++ [PStart "loading data" "" n] in
      (fix fill (z : nat) (rest : list reader) (vol : ndarray) (log : progress_log)
         : result ndarray * progress_log :=
         match rest with
         | [] => (Ok vol, log ++ [PFinish None])
         | dcm :: rest' =>
           match ('(slice, _) ← get_numpy_array dcm;
                  nd_setitem vol (Z.of_nat z) slice) with
           | Ok vol => fill (S z) rest' vol (log ++ [PSetProgress (S z)])
           | Raise e => (Raise e, log)
           | OutOfFuel => (OutOfFuel, log)
           end
         end) 1%nat rest vol log
    | Raise e => (Raise e, log)
    | OutOfFuel => (OutOfFuel, log)
    end
  end.
End Methods.
End DicomSeries.

(** ** The host's request

    [Request] belongs to imageio's core; here it is the few things the
    plugin asks of it, together with what the file system answers about
    [filename]: whether it is a directory or a file, and the files that
    [list_files] collects under the directory to examine, in the order it
    appends them, each with its content. *)

Inductive expect_kind : Type :=
| EXPECT_IM | EXPECT_MIM | EXPECT_VOL | EXPECT_MVOL | EXPECT_NONE.

Record Request : Type := {
  filename : string;
  isdir : bool;                          (* os.path.isdir(filename) *)
  isfile : bool;                         (* os.path.isfile(filename) *)
  list_files : list (string * bytes);
  firstbytes : bytes;
  get_file : file;
  expect : expect_kind
}.

(** [sub in s], used for [s.count(sub)] as a truth value. *)
Fixpoint has_substring (sub s : string) : bool :=
  if String.prefix sub s then true
  else match s with
       | EmptyString => false
       | String _ s' => has_substring sub s'
       end.

(** [l[index]] on a Python list. *)
Definition py_list_get {A} (l : list A) (index : Z) : result A :=
  let i := if index <? 0 then index + Z.of_nat (length l) else index in
  if i <? 0 then Raise IndexError
  else match l !! Z.to_nat i with
       | Some a => Ok a
       | None => Raise IndexError
       end.

(** ** The directory scan: [splitSerieIfRequired] and [process_directory] *)

Section Directory.
Context {F : Type} `{PyFloat F} `{PyRuntime}.

Local Abbreviation reader := (SimpleDicomReader F).
Local Abbreviation serie_t := (DicomSeries.t F).

Definition missing_file_warning (filename : string) : string :=
  "Warning: missing file after '" ++ filename ++ "'".

(** [L2[-1].append(ds2)] *)
Fixpoint append_last (L2 : list (list reader)) (ds2 : reader) : list (list reader) :=
  match L2 with
  | [] => []
  | [last] => [last ++ [ds2]]
  | b :: L2' => b :: append_last L2' ds2
  end.

(** [float(ds1.ImagePositionPatient[2])], then the same for [ds2], then
    [abs(pos1 - pos2)]. *)
Definition newDist_of (ds1 ds2 : reader) : result F :=
  pos1 ← DicomSeries.z_position ds1;
  pos2 ← DicomSeries.z_position ds2;
  Ok (f_abs (f_sub pos1 pos2)).

(** The height of a slice, for the statements: 0.0 stands in where the
    slice has none. *)
Definition z_of (ds : reader) : F :=
  match DicomSeries.z_position ds with
  | Ok z => z
  | _ => f_of_Z 0
  end.

(** The slice has a height. *)
Definition has_z (ds : reader) : Prop :=
  exists z, DicomSeries.z_position ds = Ok z.

Definition has_zb (ds : reader) : bool :=
  match DicomSeries.z_position ds with
  | Ok _ => true
  | _ => false
  end.

(** [distance and newDist > factor*distance] *)
Definition exceeds (factor : Q) (distance newDist : F) : bool :=
  f_truth distance && f_ltb (f_mul (f_of_Q factor) distance) newDist.

(** The [for index in range(1, len(L))] loop.  [distance] starts as the
    int 0 and is a float afterwards; it is only tested for truth while
    it is 0, so [float(0)] stands for the int. *)
Fixpoint split_loop (ds1 : reader) (distance : F) (L2 : list (list reader))
    (rest : list reader) (log : progress_log)
  : result (list (list reader)) * progress_log :=
  match rest with
  | [] => (Ok L2, log)
  | ds2 :: rest' =>
    match newDist_of ds1 ds2 with
    | Ok newDist =>
      (* If the distance deviates more than 2x from what we've seen,
         we can agree it's a new dataset. *)
      if exceeds 2.1 distance newDist then
        split_loop ds2 (f_of_Z 0) (append_last (L2 ++ [[]]) ds2) rest' log
      else
        (* Test missing file *)
        let log :=
          if exceeds 1.5 distance newDist
          then log ++ [PWrite (missing_file_warning (_filename ds1))]
          else log in
        split_loop ds2 newDist (append_last L2 ds2) rest' log
    | Raise e => (Raise e, log)
    | OutOfFuel => (OutOfFuel, log)
    end
  end.

(** [serie] is an object of the list [series]: it is named here by its
    position [i], which is what [series.index(serie)] finds, the series
    of the list being distinct objects.  Sorting happens in place, so the
    list holds the sorted serie whether or not it is split. *)
Definition splitSerieIfRequired (i : nat) (series : list serie_t) (log : progress_log)
  : result (list serie_t) * progress_log :=
  match series !! i with
  | None => (Raise (ValueError "x not in list"), log)
  | Some serie =>
    (* Sort the original list and get local name *)
    match DicomSeries._sort serie with
    | Ok serie =>
      let series := <[i := serie]> series in
      match DicomSeries._entries serie with
      | [] => (Raise IndexError, log)
      | ds1 :: rest =>
        (* Check whether we can do this *)
        if negb (contains ds1 "ImagePositionPatient") then (Ok series, log)
        else
          match split_loop ds1 (f_of_Z 0) [[ds1]] rest log with
          | (Ok L2, log) =>
            (* Split if we should *)
            if decide (1 < length L2)%nat then
              let series2insert :=
                (fun L => DicomSeries.set_entries
                            (DicomSeries.new (DicomSeries._suid serie)) L) <$> L2 in
              (* Insert series and remove self *)
              (Ok (take i series ++ series2insert ++ drop (S i) series), log)
            else (Ok series, log)
          | (Raise e, log) => (Raise e, log)
          | (OutOfFuel, log) => (OutOfFuel, log)
          end
      end
    | Raise e => (Raise e, log)
    | OutOfFuel => (OutOfFuel, log)
    end
  end.

(** [series[suid]._append(dcm)], with a new serie when [suid] is not yet
    a key.  The dict is kept as its values in insertion order. *)
Fixpoint register (suid : value F) (dcm : reader) (series : list serie_t)
  : list serie_t :=
  match series with
  | [] => [DicomSeries._append (DicomSeries.new suid) dcm]
  | s :: rest =>
    if py_eq suid (DicomSeries._suid s) then DicomSeries._append s dcm :: rest
    else s :: register suid dcm rest
  end.

(** The [for filename in files] loop. *)
Fixpoint examine_files (files : list (string * bytes)) (series : list serie_t)
    (count : nat) (log : progress_log) : result (list serie_t) * progress_log :=
  match files with
  | [] => (Ok series, log)
  | (filename, data) :: files' =>
    (* Skip DICOMDIR files *)
    if has_substring "DICOMDIR" filename then examine_files files' series count log
    else
      (* Try loading dicom ... *)
      match new_SimpleDicomReader (FromPath filename data) with
      | Raise NotADicomFile => examine_files files' series count log
      | Raise why => examine_files files' series count (log ++ [PWrite (str_of_exn why)])
      | OutOfFuel => (OutOfFuel, log)
      | Ok dcm =>
        (* Get SUID and register the file with an existing or new series object *)
        match getattr dcm "SeriesInstanceUID" with
        | Ok suid =>
          (* Show progress (note that we always start with a 0.0) *)
          let count := S count in
          examine_files files' (register suid dcm series) count
            (log ++ [PSetProgress count])
        | _ => examine_files files' series count log
        end
      end
  end.

(** [for serie in reversed([serie for serie in series])]: the series are
    visited from the last to the first; what is inserted lands behind
    the series still to visit, so each keeps its position until its turn. *)
Fixpoint split_all (n : nat) (series : list serie_t) (log : progress_log)
  : result (list serie_t) * progress_log :=
  match n with
  | O => (Ok series, log)
  | S i =>
    match splitSerieIfRequired i series log with
    | (Ok series, log) => split_all i series log
    | r => r
    end
  end.

(** The [for i in range(len(series))] loop that finishes the series. *)
Fixpoint finish_all (i : nat) (series : list serie_t) (series_ : list serie_t)
    (log : progress_log) : result (list serie_t) * progress_log :=
  match series with
  | [] => (Ok series_, log)
  | serie :: rest =>
    match DicomSeries._finish serie log with
    | (Ok serie, log) =>
      finish_all (S i) rest (series_ ++ [serie]) (log ++ [PSetProgress (S i)])
    | (Raise _, log) =>
      (* Skip serie (probably report-like file without pixels) *)
      finish_all (S i) rest series_ (log ++ [PSetProgress (S i)])
    | (OutOfFuel, log) => (OutOfFuel, log)
    end
  end.

(** The series that come through [_finish], finished, in their order. *)
Definition finished (series : list serie_t) : list serie_t :=
  omap (fun serie =>
          match (DicomSeries._finish serie []).1 with
          | Ok serie => Some serie
          | _ => None
          end) series.

Definition invalid_filename_message : string :=
  "Dicom plugin needs a valid filename to examine the directory ".

Definition found_message (n : nat) : string :=
  "Found " ++ pretty n ++ " correct series.".

Definition process_directory (request : Request) (log : progress_log)
  : result (list serie_t) * progress_log :=
  (* Get directory to examine *)
  if negb (isdir request || isfile request)
  then (Raise (ValueError invalid_filename_message), log)
  else
    (* Check files *)
    let files := list_files request in
    (* Gather file data and put in DicomSeries *)
    let log := log ++ [PStart "examining files" "files" (length files)] in
    match examine_files files [] 0 log with
    | (Ok series, log) =>
      (* Make a list and sort, so that the order is deterministic *)
      match sort_by (fun x => Ok (DicomSeries._suid x)) series with
      | Ok series =>
        (* Split series if necessary *)
        match split_all (length series) series log with
        | (Ok series, log) =>
          (* Finish all series *)
          match finish_all 0 series [] log with
          | (Ok series_, log) =>
            (Ok series_, log ++ [PFinish (Some (found_message (length series)))])
          | r => r
          end
        | r => r
        end
      | Raise e => (Raise e, log)
      | OutOfFuel => (OutOfFuel, log)
      end
    | r => r
    end.
End Directory.

(** ** [DicomFormat] and its [Reader] *)

(** [DicomFormat._can_read] *)
Definition _can_read (request : Request) : bool :=
  bool_decide (take 4 (drop 128 (firstbytes request)) = DICM).

(** [DicomFormat._can_save] *)
Definition _can_save (request : Request) : bool := false.

(** The [progress] argument of [_open]. *)
Inductive progress_arg : Type :=
| ProgressIndicator    (* an instance of BaseProgressIndicator *)
| ProgressTrue
| ProgressFalse
| ProgressNone
| ProgressOther.

Module Reader.
Record t (F ndarray : Type) : Type := {
  request : Request;
  _info : option (gmap string (value F));      (* None once closed *)
  _data : option ndarray;
  _series : option (list (DicomSeries.t F));   (* only created if needed *)
  _progressIndicator : progress_log            (* what the indicator was told *)
}.
Arguments request {F ndarray} _.
Arguments _info {F ndarray} _.
Arguments _data {F ndarray} _.
Arguments _series {F ndarray} _.
Arguments _progressIndicator {F ndarray} _.

Section Methods.
Context {F : Type} `{PyFloat F} `{PyRuntime} {ndarray : Type} `{NumPy F ndarray}.

Local Abbreviation reader := (SimpleDicomReader F).
Local Abbreviation self_t := (t F ndarray).

Definition set_loaded (self : self_t) (info : gmap string (value F)) (data : ndarray)
  : self_t :=
  {| request := request self; _info := Some info; _data := Some data;
     _series := _series self; _progressIndicator := _progressIndicator self |}.

Definition set_series (self : self_t) (series : option (list (DicomSeries.t F)))
    (log : progress_log) : self_t :=
  {| request := request self; _info := _info self; _data := _data self;
     _series := series; _progressIndicator := log |}.

Definition invalid_progress_message : string := "Invalid value for progress.".

Definition _open (request : Request) (progress : progress_arg) : result self_t :=
  '(info, data) ←
    (if isdir request then
       (* A dir can be given if the user used the format explicitly *)
       Ok (∅, None)
     else
       (* Read the given dataset now ... *)
       dcm ← new_SimpleDicomReader (FromFile (get_file request));
       '(data, dcm) ← get_numpy_array dcm;
       Ok (dcm_info F dcm, Some data));
  (* Set progress indicator *)
  match progress with
  | ProgressOther => Raise (ValueError invalid_progress_message)
  | _ =>
    Ok {| request := request; _info := Some info; _data := data;
          _series := None; _progressIndicator := [] |}
  end.

Definition _close (self : self_t) : self_t :=
  {| request := request self; _info := None; _data := None;
     _series := None; _progressIndicator := _progressIndicator self |}.

(** The [series] property: the directory is scanned the first time it
    is read. *)
Definition series (self : self_t) : result (list (DicomSeries.t F)) * self_t :=
  match _series self with
  | Some s => (Ok s, self)
  | None =>
    match process_directory (request self) (_progressIndicator self) with
    | (Ok s, log) => (Ok s, set_series self (Some s) log)
    | (Raise e, log) => (Raise e, set_series self None log)
    | (OutOfFuel, log) => (OutOfFuel, set_series self None log)
    end
  end.

(** The first lines of [_get_length], [_get_data] and [_get_meta_data]:
    without data, load the first file of the first series.  Returns
    the data. *)
Definition ensure_data (self : self_t) : result ndarray * self_t :=
  match _data self with
  | Some data => (Ok data, self)
  | None =>
    match series self with
    | (Ok s, self) =>
      match (serie ← py_list_get s 0;
             dcm ← py_list_get (DicomSeries._entries serie) 0;
             '(data, dcm) ← get_numpy_array dcm;
             Ok (dcm_info F dcm, data)) with
      | Ok (info, data) => (Ok data, set_loaded self info data)
      | Raise e => (Raise e, self)
      | OutOfFuel => (OutOfFuel, self)
      end
    | (Raise e, self) => (Raise e, self)
    | (OutOfFuel, self) => (OutOfFuel, self)
    end
  end.

(** [self._data.shape[0] if (self._data.ndim==3) else 1] *)
Definition nslices_of (data : ndarray) : nat :=
  match nd_shape data with
  | [n; _; _] => n
  | _ => 1%nat
  end.

Definition expect_message : string := "DICOM plugin needs to know what is expected.".

(** [sum([len(serie) for serie in self.series])] *)
Definition total_slices (s : list (DicomSeries.t F)) : nat :=
  foldr Nat.add 0%nat ((fun serie => length (DicomSeries._entries serie)) <$> s).

Definition _get_length (self : self_t) : result nat * self_t :=
  match ensure_data self with
  | (Ok data, self) =>
    let nslices := nslices_of data in
    match expect (request self) with
    | EXPECT_IM =>
      (* User expects one, but lets be honest about what is in this file *)
      (Ok nslices, self)
    | EXPECT_MIM =>
      (* User expects multiple, if this file has multiple slices, ok.
         Otherwise we have to check the series. *)
      if decide (1 < nslices)%nat then (Ok nslices, self)
      else
        match series self with
        | (r, self) => (total_slices <$> r, self)
        end
    | EXPECT_VOL =>
      (* User expects a volume, if this file has one, ok.
         Otherwise we have to check the series *)
      if decide (1 < nslices)%nat then (Ok 1%nat, self)
      else
        match series self with
        | (r, self) => (length <$> r, self)
        end
    | EXPECT_MVOL =>
      (* User expects multiple volumes. We have to check the series *)
      match series self with
      | (r, self) => (length <$> r, self)
      end
    | EXPECT_NONE => (Raise (ValueError expect_message), self)
    end
  | (Raise e, self) => (Raise e, self)
  | (OutOfFuel, self) => (OutOfFuel, self)
  end.

(** [self._info], which is a dict while the reader is open. *)
Definition the_info (self : self_t) : gmap string (value F) :=
  default ∅ (_info self).

(** [L = []; for serie in self.series: L.extend([dcm for dcm in serie])] *)
Definition flatten (s : list (DicomSeries.t F)) : list reader :=
  concat (DicomSeries._entries <$> s).

Definition one_slice_message : string := "Dicom file contains only one slice.".

Definition _get_data (self : self_t) (index : Z)
  : result (ndarray * gmap string (value F)) * self_t :=
  match ensure_data self with
  | (Ok data, self) =>
    let nslices := nslices_of data in
    match expect (request self) with
    | EXPECT_IM =>
      (* Allow index >1 only if this file contains >1 *)
      if decide (1 < nslices)%nat then
        ((fun a => (a, the_info self)) <$> nd_getitem data index, self)
      else if decide (index = 0) then (Ok (data, the_info self), self)
      else (Raise IndexError, self)
    | EXPECT_MIM =>
      (* Return slice from volume, or return item from series *)
      if bool_decide (index = 0) && bool_decide (1 < nslices)%nat then
        ((fun a => (a, the_info self)) <$> nd_getitem data index, self)
      else
        match series self with
        | (Ok s, self) =>
          let L := flatten s in
          (dcm ← py_list_get L index;
           '(a, dcm) ← get_numpy_array dcm;
           Ok (a, dcm_info F dcm),
           self)
        | (Raise e, self) => (Raise e, self)
        | (OutOfFuel, self) => (OutOfFuel, self)
        end
    | EXPECT_VOL | EXPECT_MVOL =>
      (* Return volume or series *)
      if bool_decide (index = 0) && bool_decide (1 < nslices)%nat then
        (Ok (data, the_info self), self)
      else
        match series self with
        | (Ok s, self) =>
          match py_list_get s index with
          | Ok serie =>
            match DicomSeries.get_numpy_array serie (_progressIndicator self) with
            | (r, log) =>
              ((fun a => (a, DicomSeries._info serie)) <$> r,
               set_series self (_series self) log)
            end
          | Raise e => (Raise e, self)
          | OutOfFuel => (OutOfFuel, self)
          end
        | (Raise e, self) => (Raise e, self)
        | (OutOfFuel, self) => (OutOfFuel, self)
        end
    | EXPECT_NONE => (Raise (ValueError expect_message), self)
    end
  | (Raise e, self) => (Raise e, self)
  | (OutOfFuel, self) => (OutOfFuel, self)
  end.
End Methods.
End Reader.

(** ** Reference instances

    The interfaces above are instantiated once, so that the model can be
    run on concrete files: floats as exact rationals, decimal parsing for
    [float] and [int], ASCII text, and integer arrays on a little-endian
    host.  No deflate stream is recognised. *)

Definition digit_of (a : ascii) : option Z :=
  let n := Z.of_nat (nat_of_ascii a) in
  if (48 <=? n) && (n <=? 57) then Some (n - 48) else None.

(** The digits of [s] read as a number, and how many there are. *)
Fixpoint digits_value (s : string) (acc : Z) (count : nat) : option (Z * nat) :=
  match s with
  | EmptyString => Some (acc, count)
  | String a s' =>
    match digit_of a with
    | Some d => digits_value s' (10 * acc + d) (S count)
    | None => None
    end
  end.

Fixpoint lstrip_by (p : ascii -> bool) (s : string) : string :=
  match s with
  | String a s' => if p a then lstrip_by p s' else s
  | EmptyString => EmptyString
  end.

(** Surrounding white space is ignored, then an optional sign is read. *)
Definition split_sign (s : string) : bool * string :=
  match rstrip_by is_space (lstrip_by is_space s) with
  | String "-" s' => (true, s')
  | String "+" s' => (false, s')
  | t => (false, t)
  end.

Definition parse_int (s : string) : option Z :=
  let '(neg, body) := split_sign s in
  match digits_value body 0 0 with
  | Some (v, S _) => Some (if neg : bool then - v else v)
  | _ => None
  end.

Definition parse_decimal (s : string) : option Q :=
  let '(neg, body) := split_sign s in
  let sign (q : Q) := if neg : bool then Qred (- q) else q in
  match split_char "." body with
  | [whole] =>
    match digits_value whole 0 0 with
    | Some (v, S _) => Some (sign (inject_Z v))
    | _ => None
    end
  | [whole; frac] =>
    match digits_value whole 0 0, digits_value frac 0 0 with
    | Some (v, n), Some (w, m) =>
      if decide (n + m = 0)%nat then None
      else Some (sign (Qred (inject_Z v + inject_Z w / inject_Z (10 ^ Z.of_nat m))))
    | _, _ => None
    end
  | _ => None
  end.

Definition Q_ltb (x y : Q) : bool := negb (Qle_bool y x).

Lemma Q_ltb_asym x y : Q_ltb x y = true -> Q_ltb y x = false.
Proof.
  unfold Q_ltb. rewrite negb_true_iff, negb_false_iff. intros Hxy.
  apply Qle_bool_iff, Qlt_le_weak, Qnot_le_lt. intros Hle.
  apply Qle_bool_iff in Hle. congruence.
Qed.

Lemma Qeq_bool_sym x y : Qeq_bool x y = Qeq_bool y x.
Proof. unfold Qeq_bool. apply Z.eqb_sym. Qed.

#[global] Instance Q_float : PyFloat Q := {
  f_of_Q q := Qred q;
  f_of_string := parse_decimal;
  f_add x y := Qred (x + y);
  f_sub x y := Qred (x - y);
  f_mul x y := Qred (x * y);
  f_div x y := if Qeq_bool y 0 then None else Some (Qred (x / y));
  f_abs x := Qabs x;
  f_eqb := Qeq_bool;
  f_ltb := Q_ltb;
  f_trunc x := Some (Z.quot (Qnum x) (Zpos (Qden x)));
  f_ltb_asym := Q_ltb_asym;
  f_eqb_sym := Qeq_bool_sym
}.

#[global] Instance ascii_runtime : PyRuntime := {
  int_of_string := parse_int;
  utf8_decode b :=
    if forallb (fun x => Z_of_byte x <? 128) b then Some (string_of_list_byte b) else None;
  zlib_decompress_raw _ := None;
  sys_is_little_endian := true
}.

(** Integer arrays: an element type, a shape, and the items in row-major
    order. *)
Record zarray : Type := ZArray {
  za_dtype : dtype;
  za_shape : list nat;
  za_items : list Z
}.

Fixpoint chunks (n : nat) (fuel : nat) (b : bytes) : list bytes :=
  match fuel with
  | O => []
  | S fuel' =>
    match b with
    | [] => []
    | _ => take n b :: chunks n fuel' (drop n b)
    end
  end.

Definition shape_of_value {F} (v : value F) : option (list nat) :=
  match v with
  | VTuple l =>
    all_some (fun x => match x with
                       | VInt z => if 0 <=? z then Some (Z.to_nat z) else None
                       | _ => None
                       end) l
  | _ => None
  end.

Definition product (l : list nat) : nat := foldr Nat.mul 1%nat l.

(** Arithmetic of a scalar and a Python int as NumPy 1 does it where a C
    long has 64 bits: the int is taken as a 64-bit integer, so the result
    is one too (a double for a scalar of 64 unsigned bits or a float),
    and it wraps around where 64 bits do not hold it.  NumPy 2 keeps the
    type of the scalar instead; in the examples of the promotion no
    product leaves the type of the data, so that the two agree there. *)
Definition legacy_scalar (dt : dtype) (z : Z) : npscalar :=
  match dt with
  | uint64 | float32 | float64 => {| sc_dtype := float64; sc_val := z |}
  | _ => {| sc_dtype := int64; sc_val := wrap int64 z |}
  end.

Definition za_index (a : zarray) (index : Z) : option (nat * nat * list nat) :=
  match za_shape a with
  | [] => None
  | n :: rest =>
    let i := if index <? 0 then index + Z.of_nat n else index in
    if (0 <=? i) && (i <? Z.of_nat n) then Some (Z.to_nat i, n, rest) else None
  end.

#[global] Instance zarray_numpy {F} : NumPy F zarray := {
  nd_shape := za_shape;
  nd_dtype := za_dtype;
  nd_getitem a index :=
    match za_index a index with
    | Some (i, _, rest) =>
      Ok (ZArray (za_dtype a) rest
            (take (product rest) (drop (i * product rest) (za_items a))))
    | None => Raise IndexError
    end;
  nd_setitem a index b :=
    match za_index a index with
    | Some (i, _, rest) =>
      if decide (za_shape b = rest) then
        Ok (ZArray (za_dtype a) (za_shape a)
              (take (i * product rest) (za_items a)
               ++ (wrap (za_dtype a) <$> za_items b)
               ++ drop (S i * product rest) (za_items a)))
      else Raise (ValueError "could not broadcast input array")
    | None => Raise IndexError
    end;
  nd_zeros shape dt :=
    match shape_of_value shape with
    | Some sh => Ok (ZArray dt sh (repeat 0 (product sh)))
    | None => Raise (TypeError "shape")
    end;
  nd_fromstring b dt :=
    if decide (length b `mod` itemsize dt = 0)%nat then
      let items := (fun c => wrap dt (le_to_Z c)) <$> chunks (itemsize dt) (length b) b in
      Ok (ZArray dt [length items] items)
    else Raise (ValueError "string size must be a multiple of element size");
  nd_byteswap a :=
    let n := itemsize (za_dtype a) in
    let m := 2 ^ (8 * Z.of_nat n) in
    let swap z :=
      wrap (za_dtype a)
        (le_to_Z (reverse ((fun k => byte_of_Z ((z mod m) / 2 ^ (8 * Z.of_nat k))) <$> seq 0 n))) in
    ZArray (za_dtype a) (za_shape a) (swap <$> za_items a);
  nd_reshape a shape :=
    match shape_of_value shape with
    | Some sh =>
      if decide (product sh = length (za_items a)) then Ok (ZArray (za_dtype a) sh (za_items a))
      else Raise (ValueError "total size of new array must be unchanged")
    | None => Raise (TypeError "shape")
    end;
  nd_astype a dt := ZArray dt (za_shape a) (wrap dt <$> za_items a);
  nd_min a :=
    match za_items a with
    | [] => Raise (ValueError "zero-size array")
    | x :: l => Ok (foldr Z.min x l)
    end;
  nd_max a :=
    match za_items a with
    | [] => Raise (ValueError "zero-size array")
    | x :: l => Ok (foldr Z.max x l)
    end;
  nd_imul a x :=
    match x with
    | VInt s => Ok (ZArray (za_dtype a) (za_shape a) ((fun z => wrap (za_dtype a) (z * s)) <$> za_items a))
    | _ => Raise (TypeError "Cannot cast ufunc output")
    end;
  nd_iadd a x :=
    match x with
    | VInt s => Ok (ZArray (za_dtype a) (za_shape a) ((fun z => wrap (za_dtype a) (z + s)) <$> za_items a))
    | _ => Raise (TypeError "Cannot cast ufunc output")
    end;
  sc_mul x n := Ok (legacy_scalar (sc_dtype x) (sc_val x * n));
  sc_add x n := Ok (legacy_scalar (sc_dtype x) (sc_val x + n))
}.

(** ** Writing elements, to build files to read

    An element in explicit VR: group, element, the two bytes of the VR, the
    length (16 bits, or two reserved bytes and 32 bits for OB, OW, SQ and
    UN), then the value. *)

Definition pack_I (little : bool) (v : Z) : bytes :=
  let b := (fun k => byte_of_Z (v / 2 ^ (8 * Z.of_nat k))) <$> seq 0 4 in
  if little then b else reverse b.

Definition encode_explicit (little : bool) (group element : Z) (vr : string)
    (value : bytes) : bytes :=
  let vrb := list_byte_of_string vr in
  pack_H little group ++ pack_H little element ++ vrb
  ++ (if bool_decide (vrb ∈ list_byte_of_string <$> ["OB"; "OW"; "SQ"; "UN"])
      then [x00; x00] ++ pack_I little (Z.of_nat (length value))
      else pack_H little (Z.of_nat (length value)))
  ++ value.

(** The 128 bytes of preamble and the magic. *)
Definition preamble : bytes := repeat x00 128 ++ list_byte_of_string "DICM".

(** ** Inputs for the examples *)

(** A reader as [__init__] sets it up, on an empty stream. *)
Definition empty_reader : SimpleDicomReader Q :=
  {| _filename := "<unknown file>"; disk := None; _file := Some (File [] 0);
     _pixel_data_loc := None; is_implicit_VR := false; is_little_endian := true;
     _unpackPrefix := true; _info := ∅ |}.

(** ** Files with a meta header only

    A meta element is an element of group 2, written in explicit VR little
    endian with a defined length.  [header_only_file] is a preamble, the
    magic and such elements, and nothing behind them. *)

Record meta_element : Type := {
  m_element : Z;
  m_vr : string;
  m_value : bytes
}.

Definition is_long_VR (vr : string) : bool :=
  bool_decide (list_byte_of_string vr ∈ list_byte_of_string <$> ["OB"; "OW"; "SQ"; "UN"]).

Definition well_formed_meta (m : meta_element) : Prop :=
  0 <= m_element m < 65536 /\
  String.length (m_vr m) = 2%nat /\
  Z.of_nat (length (m_value m)) < (if is_long_VR (m_vr m) then 0xFFFFFFFF else 65536) /\
  (m_element m = 0x10 -> forallb (fun x => Z_of_byte x <? 128) (m_value m) = true).

Definition encode_meta (m : meta_element) : bytes :=
  encode_explicit true 2 (m_element m) (m_vr m) (m_value m).

Definition header_only_file (ms : list meta_element) : bytes :=
  preamble ++ concat (encode_meta <$> ms).

(** The bytes a source is read from. *)
Definition source_bytes (src : source) : bytes :=
  match src with
  | FromPath _ data => data
  | FromFile f => content f
  end.

(** The meta header of the examples: the transfer syntax alone. *)
Definition meta_explicit_le : meta_element :=
  {| m_element := 0x10; m_vr := "UI";
     m_value := list_byte_of_string "1.2.840.10008.1.2.1" ++ [x00] |}.

(** ** The split rule and the mean distance, apart from the loops

    [distance_sum] is the sum [_finish] builds: 0.0, then for each slice in
    order the distance to the slice before it, the first slice being
    paired with itself. *)

Section Rules.
Context {F : Type} `{PyFloat F}.

Fixpoint gap_sum (prev : F) (acc : F) (zs : list F) : F :=
  match zs with
  | [] => acc
  | z :: zs' => gap_sum z (f_add acc (f_abs (f_sub prev z))) zs'
  end.

Definition distance_sum (zs : list F) : F :=
  match zs with
  | [] => f_of_Z 0
  | z0 :: _ => gap_sum z0 (f_of_Z 0) zs
  end.

(** For each slice behind [prev], whether a bucket starts with it:
    [distance] is the gap seen last, or 0 where a bucket has just
    started; a bucket starts when [distance] is not 0 and the new gap is
    more than 2.1 times [distance]. *)
Fixpoint bucket_starts (prev distance : F) (zs : list F) : list bool :=
  match zs with
  | [] => []
  | z :: zs' =>
    let newDist := f_abs (f_sub prev z) in
    if f_truth distance && f_ltb (f_mul (f_of_Q 2.1) distance) newDist
    then true :: bucket_starts z (f_of_Z 0) zs'
    else false :: bucket_starts z newDist zs'
  end.

(** The rule in the words of the specification: [distance] is the gap
    seen last, if there is one since the bucket started; a bucket starts
    when the new gap exceeds 2.1 times [distance], whatever [distance]
    is. *)
Fixpoint spec_bucket_starts (prev : F) (distance : option F) (zs : list F) : list bool :=
  match zs with
  | [] => []
  | z :: zs' =>
    let newDist := f_abs (f_sub prev z) in
    match distance with
    | Some d =>
      if f_ltb (f_mul (f_of_Q 2.1) d) newDist
      then true :: spec_bucket_starts z None zs'
      else false :: spec_bucket_starts z (Some newDist) zs'
    | None => false :: spec_bucket_starts z (Some newDist) zs'
    end
  end.

(** The buckets: [current] grows until a marked item starts the next. *)
Fixpoint cut_at {A} (current : list A) (marked : list (bool * A)) : list (list A) :=
  match marked with
  | [] => [current]
  | (true, a) :: rest => current :: cut_at [a] rest
  | (false, a) :: rest => cut_at (current ++ [a]) rest
  end.
End Rules.

(** ** Files and directories for the examples *)

Definition text : string -> bytes := list_byte_of_string.

(** A single-frame slice of 8-bit pixels: series, instance number,
    position, rows, columns, pixel spacing, and further elements in front
    of the pixel data. *)
Definition slice_file (suid instance position : string) (rows cols : Z)
    (spacing : string) (more : bytes) (pixels : bytes) : bytes :=
  header_only_file [meta_explicit_le]
  ++ encode_explicit true 0x0020 0x000E "UI" (text suid)
  ++ encode_explicit true 0x0020 0x0013 "IS" (text instance)
  ++ encode_explicit true 0x0020 0x0032 "DS" (text position)
  ++ encode_explicit true 0x0028 0x0002 "US" (pack_H true 1)
  ++ encode_explicit true 0x0028 0x0010 "US" (pack_H true rows)
  ++ encode_explicit true 0x0028 0x0011 "US" (pack_H true cols)
  ++ encode_explicit true 0x0028 0x0030 "DS" (text spacing)
  ++ encode_explicit true 0x0028 0x0100 "US" (pack_H true 8)
  ++ encode_explicit true 0x0028 0x0103 "US" (pack_H true 0)
  ++ more
  ++ encode_explicit true 0x7FE0 0x0010 "OB" pixels.

(** A request for a path in a directory that holds [files]. *)
Definition request_for (files : list (string * bytes)) (first : bytes)
    (e : expect_kind) : Request :=
  {| filename := "dir/first.dcm"; isdir := false; isfile := true;
     list_files := files; firstbytes := take 132 first;
     get_file := File first 0; expect := e |}.

(** A 1 x 2 slice at height [position] in series S. *)
Definition plain_slice (instance position : string) (pixels : bytes) : bytes :=
  slice_file "S" instance ("0\0\" ++ position) 1 2 "1\1" [] pixels.

(** The parsed reader of a file, or the empty reader when it is refused. *)
Definition parsed (filename : string) (data : bytes) : SimpleDicomReader Q :=
  match new_SimpleDicomReader (FromPath filename data) with
  | Ok r => r
  | _ => empty_reader
  end.

(** Slices 0, 1, 2, 10, 11, 12 of one series. *)
Definition six_slices : list (string * bytes) :=
  [ ("a.dcm", plain_slice "1" "0" [x00; x01]);
    ("b.dcm", plain_slice "2" "1" [x02; x03]);
    ("c.dcm", plain_slice "3" "2" [x04; x05]);
    ("d.dcm", plain_slice "4" "10" [x06; x07]);
    ("e.dcm", plain_slice "5" "11" [x08; x09]);
    ("f.dcm", plain_slice "6" "12" [x0a; x0b]) ].

(** Slices 0, 0, 5: two slices at the same height, then a gap. *)
Definition repeated_height : list (string * bytes) :=
  [ ("a.dcm", plain_slice "1" "0" [x00; x01]);
    ("b.dcm", plain_slice "2" "0" [x02; x03]);
    ("c.dcm", plain_slice "3" "5" [x04; x05]) ].

(** Two slices that agree on rows and columns and differ in pixel
    spacing. *)
Definition two_spacings : list (string * bytes) :=
  [ ("a.dcm", slice_file "S" "1" "0\0\0" 1 2 "1\1" [] [x00; x01]);
    ("b.dcm", slice_file "S" "2" "0\0\3" 1 2 "2\2" [] [x02; x03]) ].

(** Series S with slices of 1 x 2 and 2 x 1, and series T with one slice. *)
Definition mismatched_rows : list (string * bytes) :=
  [ ("a.dcm", slice_file "S" "1" "0\0\0" 1 2 "1\1" [] [x00; x01]);
    ("b.dcm", slice_file "S" "2" "0\0\1" 2 1 "1\1" [] [x02; x03]);
    ("c.dcm", slice_file "T" "1" "0\0\0" 1 2 "1\1" [] [x04; x05]) ].

(** A file of three frames of 1 x 2. *)
Definition three_frames : bytes :=
  slice_file "M" "1" "0\0\0" 1 2 "1\1"
    (encode_explicit true 0x0028 0x0008 "IS" (text "3"))
    [x0a; x0b; x14; x15; x1e; x1f].

(** The directory of [three_frames]: the file itself and a slice of
    another series. *)
Definition frames_directory : list (string * bytes) :=
  [ ("dir/first.dcm", three_frames);
    ("dir/second.dcm", plain_slice "1" "0" [x02; x03]) ].

Definition frames_request (e : expect_kind) : Request :=
  request_for frames_directory three_frames e.

(** The reader that [_open] gives for [three_frames]. *)
Definition frames_reader (e : expect_kind) : Reader.t Q zarray :=
  match Reader._open (frames_request e) ProgressNone with
  | Ok self => self
  | _ => {| Reader.request := frames_request e; Reader._info := None;
            Reader._data := None; Reader._series := None;
            Reader._progressIndicator := [] |}
  end.

(** The shape and the items of the array that [_get_data] returns. *)
Definition pixels_of (r : result (zarray * gmap string (value Q)))
  : result (list nat * list Z) :=
  (fun p => (za_shape p.1, za_items p.1)) <$> r.

(** A slice with a slice spacing. *)
Definition spaced_slice : bytes :=
  slice_file "S" "1" "0\0\0" 1 2 "1\1"
    (encode_explicit true 0x0018 0x0088 "DS" (text "2.5"))
    [x00; x01].

(** The series of the examples, as the scan builds them before they are
    finished. *)
Definition series_of (suid : string) (files : list (string * bytes)) : DicomSeries.t Q :=
  DicomSeries.set_entries (DicomSeries.new (VStr suid))
    ((fun f => parsed f.1 f.2) <$> files).

Definition two_spacings_series : DicomSeries.t Q := series_of "S" two_spacings.

(** The slices of [six_slices] and of [repeated_height], parsed, and the
    list that holds the one series of [six_slices]. *)
Definition six_entries : list (SimpleDicomReader Q) :=
  DicomSeries._entries (series_of "S" six_slices).

Definition repeated_entries : list (SimpleDicomReader Q) :=
  DicomSeries._entries (series_of "S" repeated_height).

Definition six_series : list (DicomSeries.t Q) := [series_of "S" six_slices].

(** The list after the series of [six_slices] is split. *)
Definition split_six : list (DicomSeries.t Q) :=
  match (splitSerieIfRequired 0 six_series []).1 with
  | Ok series => series
  | _ => []
  end.

(** The file names of the slices of each bucket. *)
Definition bucket_names (L2 : list (list (SimpleDicomReader Q))) : list (list string) :=
  (fun L : list (SimpleDicomReader Q) => _filename <$> L) <$> L2.

(** A finished serie, or the serie itself when [_finish] raises. *)
Definition finish_or_keep (serie : DicomSeries.t Q) : DicomSeries.t Q :=
  match (DicomSeries._finish serie []).1 with
  | Ok serie' => serie'
  | _ => serie
  end.

(** What parsing a file gives, when it gives a reader. *)
Definition header_only_source : source :=
  FromFile (File (header_only_file [meta_explicit_le]) 0).

Definition spaced_source : source := FromPath "spaced.dcm" spaced_slice.

(** The two series of [mismatched_rows], and the request that finds them. *)
Definition mismatched_S : DicomSeries.t Q := series_of "S" (take 2 mismatched_rows).
Definition mismatched_T : DicomSeries.t Q := series_of "T" (drop 2 mismatched_rows).

Definition mismatched_request : Request :=
  request_for mismatched_rows (plain_slice "1" "0" [x00; x01]) EXPECT_MVOL.

(** ** Encoded elements and readers for the round trips *)

(** The file whose content is [pre ++ rest], with the cursor behind [pre]. *)
Definition behind (pre rest : bytes) : file := File (pre ++ rest) (length pre).

(** An element as implicit VR writes it: the tag, a 32-bit length, the
    value. *)
Definition encode_implicit (little : bool) (group element : Z) (value : bytes) : bytes :=
  pack_H little group ++ pack_H little element
  ++ pack_I little (Z.of_nat (length value)) ++ value.

(** A reader in the given mode over an open file, with nothing read yet. *)
Definition reader_on (implicit little : bool) (f : file) : SimpleDicomReader Q :=
  {| _filename := "<unknown file>"; disk := None; _file := Some f;
     _pixel_data_loc := None; is_implicit_VR := implicit; is_little_endian := little;
     _unpackPrefix := little; _info := ∅ |}.

(** The slices of [six_slices] in the opposite order, as one series. *)
Definition six_reversed : DicomSeries.t Q := series_of "S" (reverse six_slices).

(** A series with a slice that has no instance number. *)
Definition unnumbered_series : DicomSeries.t Q :=
  DicomSeries.set_entries (DicomSeries.new (VStr "S")) [empty_reader].

(** ** What [_finish] asks of the slices *)

Section Measures.
Context {F : Type} `{PyFloat F}.

(** The slice has a height, rows and columns, and a pixel spacing of two
    numbers: what one round of the loop of [_finish] reads of it. *)
Definition measurable (ds : SimpleDicomReader F) : bool :=
  is_Ok (DicomSeries.z_position ds) && is_Ok (DicomSeries.dimensions_of ds)
  && is_Ok (DicomSeries.sampling_of ds).

(** [(ds1.Rows, ds1.Columns) == (ds2.Rows, ds2.Columns)] *)
Definition same_dimensions (ds1 ds2 : SimpleDicomReader F) : bool :=
  match DicomSeries.dimensions_of ds1, DicomSeries.dimensions_of ds2 with
  | Ok a, Ok b => py_eq a b
  | _, _ => false
  end.
End Measures.

(** ** What the scan keeps true of the series *)

Section Grouped.
Context {F : Type} `{PyFloat F}.

(** The slice carries the suid, as [==] sees it. *)
Definition carries (suid : value F) (dcm : SimpleDicomReader F) : Prop :=
  exists u, getattr dcm "SeriesInstanceUID" = Ok u /\ (u = suid \/ py_eq u suid = true).

(** Every series holds a slice, and its slices carry its suid. *)
Definition grouped (series : list (DicomSeries.t F)) : Prop :=
  Forall (fun s => DicomSeries._entries s <> [] /\
                   Forall (carries (DicomSeries._suid s)) (DicomSeries._entries s))
         series.

(** The slices of all series, in the order of the list. *)
Definition all_slices (series : list (DicomSeries.t F)) : list (SimpleDicomReader F) :=
  concat (DicomSeries._entries <$> series).
End Grouped.

(** ** [Reader._get_meta_data] *)

Section MetaData.
Context {F : Type} `{PyFloat F} `{PyRuntime} {ndarray : Type} `{NumPy F ndarray}.

(** [index] is [None] or an int.  The data are loaded as for [_get_data];
    the info of a slice of the directory is read without loading its
    pixels. *)
Definition _get_meta_data (self : Reader.t F ndarray) (index : option Z)
  : result (gmap string (value F)) * Reader.t F ndarray :=
  match Reader.ensure_data self with
  | (Ok data, self) =>
    let nslices := Reader.nslices_of data in
    match index with
    | None =>
      (* Default is the meta data of the given file, or the "first" file. *)
      (Ok (Reader.the_info self), self)
    | Some index =>
      match expect (Reader.request self) with
      | EXPECT_IM => (Ok (Reader.the_info self), self)
      | EXPECT_MIM =>
        (* Return slice from volume, or return item from series *)
        if bool_decide (index = 0) && bool_decide (1 < nslices)%nat then
          (Ok (Reader.the_info self), self)
        else
          match Reader.series self with
          | (Ok s, self) =>
            (dcm ← py_list_get (Reader.flatten s) index; Ok (dcm_info F dcm), self)
          | (Raise e, self) => (Raise e, self)
          | (OutOfFuel, self) => (OutOfFuel, self)
          end
      | EXPECT_VOL | EXPECT_MVOL =>
        (* Return volume or series *)
        if bool_decide (index = 0) && bool_decide (1 < nslices)%nat then
          (Ok (Reader.the_info self), self)
        else
          match Reader.series self with
          | (Ok s, self) =>
            (serie ← py_list_get s index; Ok (DicomSeries._info serie), self)
          | (Raise e, self) => (Raise e, self)
          | (OutOfFuel, self) => (OutOfFuel, self)
          end
      | EXPECT_NONE => (Raise (ValueError Reader.expect_message), self)
      end
    end
  | (Raise e, self) => (Raise e, self)
  | (OutOfFuel, self) => (OutOfFuel, self)
  end.
End MetaData.

(** ** Data sets, written out

    An element of the body of a file, and what the loop of
    [_read_data_elements] makes of it once it is read. *)

Record element : Type := {
  e_group : Z;
  e_element : Z;
  e_vr : string;
  e_value : bytes
}.

Definition is_pixel_data (e : element) : bool :=
  (e_group e =? 0x7FE0) && (e_element e =? 0x0010).

(** The element can be written in explicit VR with a defined length. *)
Definition well_formed_element (e : element) : Prop :=
  0 <= e_group e < 65536 /\ 0 <= e_element e < 65536 /\
  String.length (e_vr e) = 2%nat /\
  Z.of_nat (length (e_value e)) < (if is_long_VR (e_vr e) then 0xFFFFFFFF else 65536).

Definition encode_element (little : bool) (e : element) : bytes :=
  encode_explicit little (e_group e) (e_element e) (e_vr e) (e_value e).

(** The transfer syntax the meta elements leave: the value of the last
    element (0002, 0010), if there is one. *)
Definition uid_after (uid : option string) (ms : list meta_element) : option string :=
  foldl (fun u m =>
           if m_element m =? 0x10
           then Some (strip_nul (string_of_list_byte (m_value m)))
           else u) uid ms.

Section Stored.
Context {F : Type} `{PyFloat F} `{PyRuntime}.

(** A reader that has nothing but a byte order. *)
Definition blank (little : bool) : SimpleDicomReader F :=
  {| _filename := EmptyString; disk := None; _file := None; _pixel_data_loc := None;
     is_implicit_VR := false; is_little_endian := little; _unpackPrefix := little;
     _info := ∅ |}.

(** The name the element is kept under and the conversion of its value,
    both as the tag dictionary has them (the VR written in the file is
    not looked at); [None] for an element that is not kept. *)
Definition stored (little : bool) (e : element) : option (string * result (value F)) :=
  if bool_decide (e_group e ∈ GROUPS) then
    match MINIDICT !! (e_group e, e_element e) with
    | Some (name, vr) =>
      Some (name, converter (blank little) vr
                    (if is_pixel_data e then deferred else e_value e))
    | None => None
    end
  else None.

(** The element is not kept, or its conversion goes through. *)
Definition convertible (little : bool) (e : element) : bool :=
  match stored little e with
  | Some (_, r) => is_Ok r
  | None => true
  end.

Definition store (little : bool) (info : gmap string (value F)) (e : element)
  : gmap string (value F) :=
  match stored little e with
  | Some (name, Ok v) => <[name := v]> info
  | _ => info
  end.

(** Where the value of the last pixel data element starts, and its
    length; [offset] is where the elements start. *)
Fixpoint locate (little : bool) (offset : nat) (es : list element)
    (loc : option (nat * Z)) : option (nat * Z) :=
  match es with
  | [] => loc
  | e :: es' =>
    let next := (offset + length (encode_element little e))%nat in
    locate little next es'
      (if is_pixel_data e
       then Some ((next - length (e_value e))%nat, Z.of_nat (length (e_value e)))
       else loc)
  end.
End Stored.

(** A file in explicit VR little endian: preamble, magic, meta elements,
    body. *)
Definition encoded_file (ms : list meta_element) (es : list element) : bytes :=
  preamble ++ concat (encode_meta <$> ms) ++ concat (encode_element true <$> es).

Section Decoded.
Context {F : Type} `{PyFloat F} `{PyRuntime}.

(** The reader that the elements of such a file make, before
    [_get_shape_and_sampling] adds the shape and the sampling: the stream
    at its end, the place of the pixel data, the transfer syntax and the
    kept elements. *)
Definition decoded (src : source) (ms : list meta_element) (es : list element)
  : SimpleDicomReader F :=
  {| _filename := match src with
                  | FromPath filename _ => filename
                  | FromFile _ => "<unknown file>"
                  end;
     disk := match src with FromPath _ data => Some data | FromFile _ => None end;
     _file := Some (File (encoded_file ms es) (length (encoded_file ms es)));
     _pixel_data_loc := locate true (length (header_only_file ms)) es None;
     is_implicit_VR := false; is_little_endian := true; _unpackPrefix := true;
     _info := foldl (store true)
                (<["TransferSyntaxUID" := value_of_uid (uid_after None ms)]> ∅) es |}.
End Decoded.

(** The transfer syntaxes that leave the reader as it starts: explicit VR,
    little endian, nothing to inflate. *)
Definition plain_syntax (uid : option string) : Prop :=
  uid = None \/ uid = Some "1.2.840.10008.1.2.1" \/ uid = Some "1.2.840.10008.1.2.4.70".

(** The body of a 1 x 2 slice, element by element, with an element the
    dictionary does not have and a second instance number. *)
Definition slice_elements : list element :=
  [ {| e_group := 0x0020; e_element := 0x0013; e_vr := "IS"; e_value := text "1" |};
    {| e_group := 0x0009; e_element := 0x0001; e_vr := "LO"; e_value := text "private" |};
    {| e_group := 0x0020; e_element := 0x0013; e_vr := "IS"; e_value := text "7" |};
    {| e_group := 0x0028; e_element := 0x0002; e_vr := "US"; e_value := pack_H true 1 |};
    {| e_group := 0x0028; e_element := 0x0010; e_vr := "US"; e_value := pack_H true 1 |};
    {| e_group := 0x0028; e_element := 0x0011; e_vr := "US"; e_value := pack_H true 2 |};
    {| e_group := 0x0028; e_element := 0x0030; e_vr := "DS"; e_value := text "1\1" |};
    {| e_group := 0x7FE0; e_element := 0x0010; e_vr := "OB"; e_value := [x00; x00] |} ].

Definition slice_body_reader : SimpleDicomReader Q :=
  {| _filename := "<unknown file>"; disk := None;
     _file := Some (behind preamble (concat (encode_element true <$> slice_elements)));
     _pixel_data_loc := None; is_implicit_VR := false; is_little_endian := true;
     _unpackPrefix := true; _info := ∅ |}.

(** The reader with the pixel bytes [V] in its info and no place in the
    file to load them from. *)
Definition in_memory {F : Type} (self : SimpleDicomReader F) (V : bytes)
  : SimpleDicomReader F :=
  {| _filename := _filename self; disk := disk self; _file := _file self;
     _pixel_data_loc := None;
     is_implicit_VR := is_implicit_VR self; is_little_endian := is_little_endian self;
     _unpackPrefix := _unpackPrefix self;
     _info := <["PixelData" := VBytes V]> (_info self) |}.

(** The pixel data element of [slice_elements]. *)
Definition slice_pixel_element : element :=
  {| e_group := 0x7FE0; e_element := 0x0010; e_vr := "OB"; e_value := [x00; x00] |}.

(** A body in which [Rows] has a value of four bytes: an instance number,
    the rows, the columns. *)
Definition long_rows_element : element :=
  {| e_group := 0x0028; e_element := 0x0010; e_vr := "US";
     e_value := pack_H true 1 ++ pack_H true 0 |}.

Definition long_rows_reader : SimpleDicomReader Q :=
  {| _filename := "<unknown file>"; disk := None;
     _file := Some (behind preamble
                      (concat (encode_element true <$> take 1 slice_elements)
                       ++ encode_element true long_rows_element
                       ++ concat (encode_element true <$> drop 5 slice_elements)));
     _pixel_data_loc := None; is_implicit_VR := false; is_little_endian := true;
     _unpackPrefix := true; _info := ∅ |}.

(** A slice of 1 x 2 with pixel spacings 0.5 and 0.25 and a slice spacing
    of 2.5. *)
Definition fine_slice : bytes :=
  slice_file "S" "1" "0\0\0" 1 2 "0.5\0.25"
    (encode_explicit true 0x0018 0x0088 "DS" (text "2.5"))
    [x00; x01].

Definition fine_source : source := FromPath "fine.dcm" fine_slice.
(** * Properties *)

(** ** Reading from a file *)

Lemma read_fst n f : (read n f).1 = take n (drop (pos f) (content f)).
Proof. reflexivity. Qed.

Lemma read_content n f : content (read n f).2 = content f.
Proof. reflexivity. Qed.

Lemma read_pos n f : pos (read n f).2 = (pos f + length (read n f).1)%nat.
Proof. reflexivity. Qed.

Lemma read_length_le n f : (length (read n f).1 <= n)%nat.
Proof. rewrite read_fst, length_take. lia. Qed.

Lemma read_full n f :
  (length (read n f).1 = n)%nat <-> (pos f + n <= length (content f))%nat \/ n = 0%nat.
Proof. rewrite read_fst, length_take, length_drop. lia. Qed.

(** A short read has reached the end: reading again brings nothing. *)
Lemma read_again_nil n m f :
  (length (read n f).1 < n)%nat -> (read m (read n f).2).1 = [].
Proof.
  intros Hs. rewrite read_fst in *. simpl.
  rewrite length_take, length_drop in Hs.
  rewrite drop_ge; [by rewrite take_nil |].
  rewrite length_take, length_drop. lia.
Qed.

(** ** [bytes.find] *)

Lemma starts_with_prefix needle hay :
  starts_with needle hay = true <-> take (length needle) hay = needle.
Proof.
  revert hay. induction needle as [|x needle IH]; intros [|y hay]; simpl; try done.
  rewrite andb_true_iff, bool_decide_eq_true, IH. split.
  - intros [-> ->]. done.
  - intros [= -> ?]. done.
Qed.

Lemma starts_with_app needle rest : starts_with needle (needle ++ rest) = true.
Proof. apply starts_with_prefix. by rewrite take_app_length. Qed.

Lemma starts_with_length needle hay :
  starts_with needle hay = true -> (length needle <= length hay)%nat.
Proof.
  rewrite starts_with_prefix. intros Ht. rewrite <- Ht, length_take. lia.
Qed.

Lemma starts_with_take needle n hay :
  starts_with needle (take n hay) = true <->
  (length needle <= n)%nat /\ starts_with needle hay = true.
Proof.
  rewrite !starts_with_prefix. split.
  - intros Ht.
    assert (length needle <= n)%nat as Hn.
    { rewrite <- Ht at 1. rewrite !length_take. lia. }
    split; [done|]. rewrite <- Ht at 2. rewrite take_take. f_equal. lia.
  - intros [Hn Ht].
    rewrite take_take. replace (length needle `min` n)%nat with (length needle) by lia. done.
Qed.

Lemma find_None needle hay :
  find needle hay = None <-> forall j, starts_with needle (drop j hay) = false.
Proof.
  induction hay as [|y hay IH]; simpl.
  - destruct (starts_with needle []) eqn:E.
    + split; [done|]. intros Hj. specialize (Hj 0%nat). simpl in Hj. congruence.
    + split; [|done]. intros _ j. by rewrite drop_nil.
  - destruct (starts_with needle (y :: hay)) eqn:E.
    + split; [done|]. intros Hj. specialize (Hj 0%nat). simpl in Hj. congruence.
    + rewrite fmap_None, IH. split.
      * intros Hj [|j]; [done|]. apply Hj.
      * intros Hj j. apply (Hj (S j)).
Qed.

Lemma find_Some needle hay i :
  find needle hay = Some i <->
  starts_with needle (drop i hay) = true /\
  forall j, (j < i)%nat -> starts_with needle (drop j hay) = false.
Proof.
  revert i. induction hay as [|y hay IH]; intros i; simpl.
  - destruct (starts_with needle []) eqn:E.
    + split.
      * intros [= <-]. split; [done|]. intros; lia.
      * intros [_ Hj]. destruct i; [done|]. specialize (Hj 0%nat). simpl in Hj.
        rewrite E in Hj. discriminate Hj. lia.
    + split; [done|]. intros [Hi _]. rewrite drop_nil in Hi. congruence.
  - destruct (starts_with needle (y :: hay)) eqn:E.
    + split.
      * intros [= <-]. split; [done|]. intros; lia.
      * intros [_ Hj]. destruct i; [done|]. specialize (Hj 0%nat). simpl in Hj.
        rewrite E in Hj. discriminate Hj. lia.
    + rewrite fmap_Some. split.
      * intros (i' & Hf & ->). apply IH in Hf as [Hi Hj]. split; [done|].
        intros [|j] ?; [done|]. apply Hj. lia.
      * intros [Hi Hj]. destruct i as [|i]; [simpl in Hi; congruence|].
        exists i. split; [|done]. apply IH. split; [done|].
        intros j ?. apply (Hj (S j)). lia.
Qed.

(** ** The undefined-length scan *)

Lemma bytes_to_find_length little : length (bytes_to_find little) = 4%nat.
Proof. by destruct little. Qed.

(** The four bytes of the delimiter are pairwise different, so the
    delimiter cannot overlap a copy of itself: in [V ++ needle ++ rest] the
    first occurrence is the one written after [V]. *)
Lemma first_occurrence little V rest j :
  no_needle little V -> (j < length V)%nat ->
  starts_with (bytes_to_find little) (drop j (V ++ bytes_to_find little ++ rest)) = false.
Proof.
  intros HV Hj. apply not_true_is_false. intros Hs.
  destruct (decide (j + 4 <= length V)%nat) as [Hin|Hout].
  - pose proof (proj1 (find_None _ _) HV j) as Hn.
    apply starts_with_prefix in Hs. rewrite bytes_to_find_length in Hs.
    rewrite drop_app_le in Hs by lia.
    rewrite take_app_le in Hs by (rewrite length_drop; lia).
    assert (starts_with (bytes_to_find little) (drop j V) = true) as Ht.
    { apply starts_with_prefix. by rewrite bytes_to_find_length. }
    congruence.
  - rewrite drop_app_le in Hs by lia.
    assert (length (drop j V) = length V - j)%nat as Hl by apply length_drop.
    destruct (drop j V) as [|a [|b [|c [|e l]]]]; simpl in Hl; try lia;
      destruct little; simpl in Hs;
      repeat (rewrite andb_true_iff in Hs; destruct Hs as [? Hs]);
      repeat match goal with H : bool_decide _ = true |- _ =>
               apply bool_decide_eq_true in H end;
      congruence.
Qed.

Lemma occurrence_after little V rest :
  starts_with (bytes_to_find little) (drop (length V) (V ++ bytes_to_find little ++ rest)) = true.
Proof. rewrite drop_app_length. apply starts_with_app. Qed.

(** One round of the loop, with the two reads folded into the window
    [take 128 (drop p c)]: a short window raises, a window holding the
    delimiter ends the scan, any other moves on by 125 bytes. *)
Lemma scan_loop_step fuel little chunks c p :
  let w := take 128 (drop p c) in
  scan_loop (S fuel) little 128 chunks (File c p) =
    if decide (length w < 128)%nat then Raise EOFError
    else
      match find (bytes_to_find little) w with
      | Some index =>
        let after := take 4 (drop (p + index + 4) c) in
        Ok (concat (chunks ++ [take index w]),
            File c (p + index + 4 + length after),
            if decide (after = zero4) then [] else [delimiter_warning])
      | None => scan_loop fuel little 128 (chunks ++ [take 125 w]) (File c (p + 125))
      end.
Proof.
  intros w. cbn [scan_loop]. unfold read, tell, seek. cbn [pos content]. fold w.
  destruct (decide (length w < 128)%nat) as [Hs|Hs].
  - rewrite (drop_ge c), take_nil, app_nil_r.
    + by rewrite decide_True.
    + subst w. rewrite length_take, length_drop in *. lia.
  - rewrite decide_False by done. cbn [content pos].
    destruct (find _ w); [done|].
    assert (length w = 128%nat) as Hw.
    { subst w. rewrite length_take in *. lia. }
    rewrite Hw. unfold search_rewind. do 2 f_equal. f_equal. lia.
Qed.

(** The scan always ends: a round that goes on has read 128 bytes and
    leaves the cursor 125 bytes further. *)
Lemma scan_loop_total fuel little chunks fp :
  (length (content fp) - pos fp < fuel)%nat ->
  scan_loop fuel little 128 chunks fp <> OutOfFuel.
Proof.
  revert chunks fp. induction fuel as [|fuel IH]; intros chunks [c p] Hf; [lia|].
  rewrite scan_loop_step. cbn zeta. cbn [content pos] in Hf.
  destruct (decide _) as [|Hs]; [done|].
  destruct (find _ _); [done|].
  apply IH. cbn [content pos].
  rewrite length_take, length_drop in Hs. lia.
Qed.

Lemma read_undefined_length_value_total little fp :
  _read_undefined_length_value little fp <> OutOfFuel.
Proof. apply scan_loop_total. lia. Qed.

Section Scan.
Variables (little : bool) (pre V tail : bytes).
Hypothesis HV : no_needle little V.

Let stream := V ++ bytes_to_find little ++ zero4 ++ tail.
Let c := pre ++ stream.
Let n := length V.
Let K := (n / 125)%nat.

Lemma window_eq a m : take m (drop (length pre + a) c) = take m (drop a stream).
Proof. unfold c. by rewrite drop_app_add. Qed.

Lemma scan_loop_run fuel k chunks :
  (k <= K)%nat -> (K - k < fuel)%nat -> concat chunks = take (125 * k) stream ->
  scan_loop fuel little 128 chunks (File c (length pre + 125 * k)) =
    if decide (125 * K + 128 <= length stream)%nat
    then Ok (V, File c (length pre + n + 8), [])
    else Raise EOFError.
Proof.
  revert k chunks. induction fuel as [|fuel IH]; intros k chunks Hk Hf Hc; [lia|].
  rewrite scan_loop_step. cbn zeta. rewrite !window_eq.
  assert (125 * K <= n)%nat as HK by (unfold K; apply Nat.Div0.mul_div_le).
  assert (n < 125 * K + 125)%nat as HK'.
  { unfold K. pose proof (Nat.div_mod_eq n 125). pose proof (Nat.mod_upper_bound n 125). lia. }
  assert (length stream = n + 8 + length tail)%nat as Hlen.
  { unfold stream. rewrite !length_app, bytes_to_find_length. simpl. lia. }
  destruct (decide (k = K)) as [->|Hne].
  - (* the window that holds the delimiter *)
    rewrite length_take, length_drop.
    destruct (decide (125 * K + 128 <= length stream)%nat) as [Hfull|Hshort].
    + rewrite decide_False by lia.
      assert (find (bytes_to_find little) (take 128 (drop (125 * K) stream)) = Some (n - 125 * K)%nat) as ->.
      { apply find_Some. split.
        - rewrite skipn_firstn_comm, drop_drop.
          apply starts_with_take. split; [rewrite bytes_to_find_length; lia|].
          replace (125 * K + (n - 125 * K))%nat with n by lia.
          apply occurrence_after.
        - intros j Hj. apply not_true_is_false.
          rewrite skipn_firstn_comm, drop_drop. intros Ht.
          apply starts_with_take in Ht as [_ Ht].
          unfold stream in Ht. rewrite first_occurrence in Ht; [done|done|]. lia. }
      replace (length pre + 125 * K + (n - 125 * K) + 4)%nat with (length pre + (n + 4))%nat by lia.
      rewrite window_eq.
      assert (take 4 (drop (n + 4) stream) = zero4) as ->.
      { unfold stream, n. rewrite drop_app_add, drop_app_length'.
        - by rewrite take_app_length'.
        - by rewrite bytes_to_find_length. }
      rewrite decide_True by done.
      assert (concat (chunks ++ [take (n - 125 * K) (take 128 (drop (125 * K) stream))]) = V) as ->.
      { rewrite concat_app, Hc, concat_cons, concat_nil, app_nil_r.
        rewrite take_take. replace ((n - 125 * K) `min` 128)%nat with (n - 125 * K)%nat by lia.
        rewrite take_take_drop.
        replace (125 * K + (n - 125 * K))%nat with n by lia.
        unfold stream, n. by rewrite take_app_length. }
      change (length zero4) with 4%nat.
      by replace (length pre + (n + 4) + 4)%nat with (length pre + n + 8)%nat by lia.
    + rewrite decide_True by lia. done.
  - (* a window before it: full, and without the delimiter *)
    rewrite length_take, length_drop. rewrite decide_False by lia.
    assert (find (bytes_to_find little) (take 128 (drop (125 * k) stream)) = None) as ->.
    { apply find_None. intros j. apply not_true_is_false.
      rewrite skipn_firstn_comm, drop_drop. intros Ht.
      apply starts_with_take in Ht as [Hj Ht]. rewrite bytes_to_find_length in Hj.
      unfold stream in Ht. rewrite first_occurrence in Ht; [done|done|]. lia. }
    replace (length pre + 125 * k + 125)%nat with (length pre + 125 * S k)%nat by lia.
    apply IH; [lia|lia|].
    rewrite concat_app, Hc, concat_cons, concat_nil, app_nil_r.
    rewrite take_take. replace (125 `min` 128)%nat with 125%nat by lia.
    rewrite take_take_drop. f_equal. lia.
Qed.
End Scan.

Lemma window_full_iff n t :
  (125 * (n / 125) + 128 <= n + 8 + t)%nat <-> (120 <= t + n `mod` 125)%nat.
Proof. pose proof (Nat.div_mod_eq n 125). lia. Qed.

(** With enough bytes behind the delimiter for its window to be full, the
    scan returns exactly [V], leaves the cursor on the first byte of
    [tail], and prints nothing. *)
Lemma scan_returns_value little pre V tail :
  no_needle little V ->
  (120 <= length tail + length V `mod` 125)%nat ->
  _read_undefined_length_value little
    (File (pre ++ V ++ bytes_to_find little ++ zero4 ++ tail) (length pre)) =
  Ok (V, File (pre ++ V ++ bytes_to_find little ++ zero4 ++ tail) (length pre + length V + 8),
      []).
Proof.
  intros HV Ht. unfold _read_undefined_length_value. cbn [content].
  pose proof (scan_loop_run little pre V tail HV
                (S (length (pre ++ V ++ bytes_to_find little ++ zero4 ++ tail))) 0 []) as Hrun.
  rewrite Nat.mul_0_r, Nat.add_0_r in Hrun. rewrite Hrun.
  - rewrite decide_True; [done|].
    rewrite !length_app, bytes_to_find_length. change (length zero4) with 4%nat.
    apply window_full_iff in Ht. lia.
  - lia.
  - rewrite !length_app.
    assert (length V / 125 <= length V)%nat by (apply Nat.Div0.div_le_upper_bound; lia). lia.
  - done.
Qed.

(** When no delimiter lies behind the cursor the scan raises [EOFError]. *)
Lemma scan_loop_no_needle fuel little chunks c p :
  (forall j, starts_with (bytes_to_find little) (drop (p + j) c) = false) ->
  (length c - p < fuel)%nat ->
  scan_loop fuel little 128 chunks (File c p) = Raise EOFError.
Proof.
  revert chunks p. induction fuel as [|fuel IH]; intros chunks p Hno Hf; [lia|].
  rewrite scan_loop_step. cbn zeta.
  destruct (decide _) as [|Hs]; [done|].
  assert (find (bytes_to_find little) (take 128 (drop p c)) = None) as ->.
  { apply find_None. intros j. apply not_true_is_false.
    rewrite skipn_firstn_comm, drop_drop. intros Ht.
    apply starts_with_take in Ht as [_ Ht]. by rewrite Hno in Ht. }
  apply IH.
  - intros j. rewrite <- Nat.add_assoc. apply Hno.
  - rewrite length_take, length_drop in Hs. lia.
Qed.

Lemma scan_exhausted_raises little fp :
  (forall j, starts_with (bytes_to_find little) (drop (pos fp + j) (content fp)) = false) ->
  _read_undefined_length_value little fp = Raise EOFError.
Proof.
  destruct fp as [c p]. intros Hno. apply scan_loop_no_needle; [done|]. cbn. lia.
Qed.

(** C1. The scan gives up on its last window.  For a value [V] without
    the delimiter, written as [V ++ needle ++ 0x00000000 ++ tail]: when
    fewer than 128 bytes are left from the start of the window in which
    the delimiter lies, that is when [length tail + length V mod 125 < 120],
    the scan raises [EOFError] although the delimiter is there, where the
    claim has it return [V] for every tail, empty and short ones included. *)
Theorem scan_short_tail_raises little pre V tail :
  no_needle little V ->
  (length tail + length V `mod` 125 < 120)%nat ->
  _read_undefined_length_value little
    (File (pre ++ V ++ bytes_to_find little ++ zero4 ++ tail) (length pre)) =
  Raise EOFError.
Proof.
  intros HV Ht. unfold _read_undefined_length_value. cbn [content].
  pose proof (scan_loop_run little pre V tail HV
                (S (length (pre ++ V ++ bytes_to_find little ++ zero4 ++ tail))) 0 []) as Hrun.
  rewrite Nat.mul_0_r, Nat.add_0_r in Hrun. rewrite Hrun.
  - rewrite decide_False; [done|].
    rewrite !length_app, bytes_to_find_length. change (length zero4) with 4%nat.
    intros Hfull.
    assert (125 * (length V / 125) + 128 <= length V + 8 + length tail)%nat as Hfull' by lia.
    apply window_full_iff in Hfull'. lia.
  - lia.
  - rewrite !length_app.
    assert (length V / 125 <= length V)%nat by (apply Nat.Div0.div_le_upper_bound; lia). lia.
  - done.
Qed.

(** The shortest such input: an empty value and nothing behind the four
    zero bytes. *)
Lemma scan_short_tail_raises_witness :
  no_needle true [] /\ (length (@nil byte) + length (@nil byte) `mod` 125 < 120)%nat /\
  _read_undefined_length_value true (File (bytes_to_find true ++ zero4) 0) = Raise EOFError.
Proof.
  split; [reflexivity|]. split; [vm_compute; lia|].
  apply (scan_short_tail_raises true [] [] []); [reflexivity | vm_compute; lia].
Defined.
(** ** Integer promotion before rescaling *)

Lemma py_min3_val (a b c : npscalar) :
  sc_val (py_min3 a b c) = Z.min (sc_val a) (Z.min (sc_val b) (sc_val c)).
Proof.
  unfold py_min3.
  destruct (Z.ltb_spec (sc_val b) (sc_val a));
    [destruct (Z.ltb_spec (sc_val c) (sc_val b))|destruct (Z.ltb_spec (sc_val c) (sc_val a))];
    lia.
Qed.

Lemma py_max3_val (a b c : npscalar) :
  sc_val (py_max3 a b c) = Z.max (sc_val a) (Z.max (sc_val b) (sc_val c)).
Proof.
  unfold py_max3.
  destruct (Z.ltb_spec (sc_val a) (sc_val b));
    [destruct (Z.ltb_spec (sc_val b) (sc_val c))|destruct (Z.ltb_spec (sc_val a) (sc_val c))];
    lia.
Qed.

Lemma py_max2_val (a b : npscalar) :
  sc_val (py_max2 a b) = Z.max (sc_val a) (sc_val b).
Proof. unfold py_max2. destruct (Z.ltb_spec (sc_val a) (sc_val b)); lia. Qed.

(** Of the items of equal value [min] keeps the first: the minimum of
    the data itself, with its type, unless a product is smaller. *)
Lemma py_min3_first (a b c : npscalar) :
  sc_val a <= sc_val b -> sc_val a <= sc_val c -> py_min3 a b c = a.
Proof.
  intros Hb Hc. unfold py_min3.
  rewrite (proj2 (Z.ltb_ge _ _) Hb). by rewrite (proj2 (Z.ltb_ge _ _) Hc).
Qed.

(** For a slope that is not negative the maximum the code computes, from
    the overwritten [minReq], is the maximum the specification names. *)
Lemma maxReq_nonneg_slope dmin dmax slope offset :
  dmin <= dmax -> 0 <= slope ->
  let lo := spec_minReq dmin dmax slope offset in
  Z.max dmax (Z.max (lo * slope + offset) (dmax * slope + offset))
  = spec_maxReq dmin dmax slope offset.
Proof.
  intros Hd Hs. cbv zeta. unfold spec_minReq, spec_maxReq.
  assert (dmin * slope <= dmax * slope) by nia.
  set (m := Z.min dmin (Z.min (dmin * slope + offset) (dmax * slope + offset))).
  assert (m <= dmin) by (unfold m; lia).
  assert (m * slope <= dmin * slope) by nia.
  lia.
Qed.

(** The two ladders of thresholds. *)
Lemma signed_ladder (m : Z) :
  let dt := if m <? 2 ^ 7 then int8
            else if m <? 2 ^ 15 then int16
            else if m <? 2 ^ 31 then int32 else float32 in
  (m < 2 ^ 7 -> dt = int8) /\
  (2 ^ 7 <= m < 2 ^ 15 -> dt = int16) /\
  (2 ^ 15 <= m < 2 ^ 31 -> dt = int32) /\
  (2 ^ 31 <= m -> dt = float32).
Proof.
  cbv zeta.
  destruct (Z.ltb_spec m (2 ^ 7)), (Z.ltb_spec m (2 ^ 15)), (Z.ltb_spec m (2 ^ 31));
    repeat split; intros Hm; first [done | lia].
Qed.

Lemma unsigned_ladder (hi : Z) :
  let dt := if hi <? 2 ^ 8 then int8
            else if hi <? 2 ^ 16 then int16
            else if hi <? 2 ^ 32 then int32 else float32 in
  (hi < 2 ^ 8 -> unsign dt = uint8) /\
  (2 ^ 8 <= hi < 2 ^ 16 -> unsign dt = uint16) /\
  (2 ^ 16 <= hi < 2 ^ 32 -> unsign dt = uint32) /\
  (2 ^ 32 <= hi -> dt = float32).
Proof.
  cbv zeta.
  destruct (Z.ltb_spec hi (2 ^ 8)), (Z.ltb_spec hi (2 ^ 16)), (Z.ltb_spec hi (2 ^ 32));
    repeat split; intros Hm; first [done | lia].
Qed.

Section Promotion.
Context {F : Type} {ndarray : Type} `{NumPy F ndarray}.

(** C2, amended.  For integer data with an integral slope [s >= 0] and
    offset [o], as long as NumPy's scalar arithmetic is exact on the
    values at hand (the products and sums [data.min*s+o], [data.max*s+o]
    and [minReq*s+o] come out with their mathematical values, and
    [-minReq], where it is taken, does not wrap around, as it does for
    the least value of its type): with [minReq = min(data.min, data.min*s+o, data.max*s+o)]
    and [maxReq = max(data.max, data.min*s+o, data.max*s+o)], when
    [minReq < 0] the type is the signed integer of the smallest width [w]
    among 8, 16 and 32 with [max(-minReq, maxReq) < 2^(w-1)], and
    [float32] when there is none; when [minReq >= 0] its width is the
    smallest [w] among 8, 16 and 32 with [maxReq < 2^w], and it is
    [float32] when there is none. *)
Theorem required_dtype_nonneg_slope (dmin dmax a b c : npscalar) (slope offset : Z) :
  sc_val dmin <= sc_val dmax -> 0 <= slope ->
  sc_affine (F:=F) (ndarray:=ndarray) dmin slope offset = Ok a ->
  sc_val a = sc_val dmin * slope + offset ->
  sc_affine (F:=F) (ndarray:=ndarray) dmax slope offset = Ok b ->
  sc_val b = sc_val dmax * slope + offset ->
  sc_affine (F:=F) (ndarray:=ndarray) (py_min3 dmin a b) slope offset = Ok c ->
  sc_val c = sc_val (py_min3 dmin a b) * slope + offset ->
  (sc_val (py_min3 dmin a b) < 0 ->
   sc_val (sc_neg (py_min3 dmin a b)) = - sc_val (py_min3 dmin a b)) ->
  let lo := spec_minReq (sc_val dmin) (sc_val dmax) slope offset in
  let hi := spec_maxReq (sc_val dmin) (sc_val dmax) slope offset in
  exists dt,
    required_dtype (F:=F) (ndarray:=ndarray) dmin dmax slope offset = Ok dt /\
    (lo < 0 ->
     let m := Z.max (- lo) hi in
     (m < 2 ^ 7 -> dt = int8) /\
     (2 ^ 7 <= m < 2 ^ 15 -> dt = int16) /\
     (2 ^ 15 <= m < 2 ^ 31 -> dt = int32) /\
     (2 ^ 31 <= m -> dt = float32)) /\
    (0 <= lo ->
     (hi < 2 ^ 8 -> unsign dt = uint8) /\
     (2 ^ 8 <= hi < 2 ^ 16 -> unsign dt = uint16) /\
     (2 ^ 16 <= hi < 2 ^ 32 -> unsign dt = uint32) /\
     (2 ^ 32 <= hi -> dt = float32)).
Proof.
  intros Hd Hs Ha Hva Hb Hvb Hc Hvc Hneg lo hi.
  unfold required_dtype. rewrite Ha. cbn [mbind result_bind].
  rewrite Hb. cbn [mbind result_bind]. rewrite Hc. cbn [mbind result_bind].
  assert (sc_val (py_min3 dmin a b) = lo) as Hlo.
  { rewrite py_min3_val, Hva, Hvb. reflexivity. }
  assert (sc_val (py_max3 dmax c b) = hi) as Hhi.
  { rewrite py_max3_val, Hvc, Hvb, Hlo. by apply maxReq_nonneg_slope. }
  eexists. split; [reflexivity|]. rewrite Hlo. split; intros Hsign.
  - rewrite (proj2 (Z.ltb_lt lo 0)) by done. cbv zeta.
    rewrite py_max2_val, Hneg, Hlo, Hhi by (by rewrite Hlo). apply signed_ladder.
  - rewrite (proj2 (Z.ltb_ge lo 0)) by done. rewrite Hhi. apply unsigned_ladder.
Qed.
End Promotion.

(** Signed 16-bit data from -1000 to 1000 with slope 2 and offset 0 stays
    in 16 bits. *)
Lemma required_dtype_nonneg_slope_witness :
  required_dtype (F:=Q) (ndarray:=zarray)
    {| sc_dtype := int16; sc_val := -1000 |} {| sc_dtype := int16; sc_val := 1000 |} 2 0
  = Ok int16.
Proof.
  destruct (required_dtype_nonneg_slope (F:=Q) (ndarray:=zarray)
              {| sc_dtype := int16; sc_val := -1000 |}
              {| sc_dtype := int16; sc_val := 1000 |}
              {| sc_dtype := int64; sc_val := -2000 |}
              {| sc_dtype := int64; sc_val := 2000 |}
              {| sc_dtype := int64; sc_val := -4000 |} 2 0)
    as (dt & -> & Hsigned & _).
  - cbn. lia.
  - lia.
  - reflexivity.
  - reflexivity.
  - reflexivity.
  - reflexivity.
  - reflexivity.
  - reflexivity.
  - intros _. reflexivity.
  - f_equal. apply Hsigned; vm_compute; [reflexivity | split; [discriminate | reflexivity]].
Defined.

(** Where the negation wraps around, the least value of the type of the
    data counts for nothing: 16-bit data from -32768 to 5 is put into 8
    bits, and 8-bit data from -128 to 100 is left in 8 bits. *)
Lemma required_dtype_least_value :
  required_dtype (F:=Q) (ndarray:=zarray)
    {| sc_dtype := int16; sc_val := -32768 |} {| sc_dtype := int16; sc_val := 5 |} 1 0
  = Ok int8 /\
  required_dtype (F:=Q) (ndarray:=zarray)
    {| sc_dtype := int8; sc_val := -128 |} {| sc_dtype := int8; sc_val := 100 |} 1 0
  = Ok int8.
Proof. split; vm_compute; reflexivity. Qed.

(** C2 as stated fails in three ways: the types on the unsigned path are
    the signed ones ([int8] for 8-bit unsigned data up to 200); the
    signed path tests a symmetric bound, so -128 in 16-bit data asks for
    16 bits; and for a negative slope [maxReq] is taken from the
    overwritten [minReq]. *)
Lemma required_dtype_counterexample :
  required_dtype (F:=Q) (ndarray:=zarray)
    {| sc_dtype := uint8; sc_val := 0 |} {| sc_dtype := uint8; sc_val := 200 |} 1 0
  <> Ok (spec_required_dtype 0 200 1 0) /\
  required_dtype (F:=Q) (ndarray:=zarray)
    {| sc_dtype := int16; sc_val := -128 |} {| sc_dtype := int16; sc_val := 100 |} 1 0
  <> Ok (spec_required_dtype (-128) 100 1 0) /\
  required_dtype (F:=Q) (ndarray:=zarray)
    {| sc_dtype := int16; sc_val := 0 |} {| sc_dtype := int16; sc_val := 50 |} (-2) 0
  <> Ok (spec_required_dtype 0 50 (-2) 0).
Proof. vm_compute. repeat split; discriminate. Qed.

(** ** The transfer-syntax switch *)

Section TransferSyntax.
Context {F : Type} `{PyFloat F} `{PyRuntime}.



End TransferSyntax.


(** ** Working with [result] *)

Lemma bind_Ok {A B} (m : result A) (f : A -> result B) b :
  m ≫= f = Ok b <-> exists a, m = Ok a /\ f a = Ok b.
Proof.
  destruct m; cbn; split; try done.
  - eauto.
  - by intros (? & [= ->] & ?).
  - by intros (? & ? & ?).
  - by intros (? & ? & ?).
Qed.

Lemma fmap_Ok {A B} (m : result A) (f : A -> B) b :
  f <$> m = Ok b <-> exists a, m = Ok a /\ f a = b.
Proof.
  destruct m; cbn; split; try done.
  - intros [= <-]. eauto.
  - by intros (? & [= ->] & ->).
  - by intros (? & ? & ?).
  - by intros (? & ? & ?).
Qed.

Ltac bind_inv H :=
  repeat first
    [ apply bind_Ok in H as (? & ? & H)
    | apply fmap_Ok in H as (? & ? & H) ].

(** ** Shape and sampling *)

Section ShapeAndSampling.
Context {F : Type} `{PyFloat F} `{PyRuntime}.

Lemma fit_sampling_length (shape sampling : list (value F)) :
  length (fit_sampling shape sampling) = length shape.
Proof.
  unfold fit_sampling. rewrite length_app, repeat_length, length_drop. lia.
Qed.

Lemma fit_sampling_pad (shape sampling : list (value F)) :
  (length sampling <= length shape)%nat ->
  fit_sampling shape sampling =
    repeat (VFloat (f_of_Z 1)) (length shape - length sampling) ++ sampling.
Proof.
  intros Hl. unfold fit_sampling.
  by replace (length sampling - length shape)%nat with 0%nat by lia.
Qed.

Lemma fit_sampling_drop (shape sampling : list (value F)) :
  (length shape <= length sampling)%nat ->
  fit_sampling shape sampling = drop (length sampling - length shape) sampling.
Proof.
  intros Hl. unfold fit_sampling.
  by replace (length shape - length sampling)%nat with 0%nat by lia.
Qed.

(** What [_get_shape_and_sampling] stores. *)
Lemma _get_shape_and_sampling_Ok (self self' : SimpleDicomReader F) :
  _get_shape_and_sampling self = Ok self' ->
  exists shape raw s0 s1,
    _info self' = <["sampling" := VTuple (fit_sampling shape raw)]>
                    (<["shape" := VTuple shape]> (_info self)) /\
    (2 <= length shape <= 4)%nat /\
    (if contains self "SliceSpacing"
     then exists a, raw = [a; VFloat s0; VFloat s1]
     else raw = [VFloat s0; VFloat s1]).
Proof.
  unfold _get_shape_and_sampling. intros Hg.
  apply bind_Ok in Hg as (multi & _ & Hg).
  apply bind_Ok in Hg as (shape & Hshape & Hg).
  apply bind_Ok in Hg as (ps & _ & Hg).
  apply bind_Ok in Hg as (s0 & _ & Hg).
  apply bind_Ok in Hg as (ps' & _ & Hg).
  apply bind_Ok in Hg as (s1 & _ & Hg).
  apply bind_Ok in Hg as (raw & Hraw & Hg).
  injection Hg as <-.
  exists shape, raw, s0, s1. split; [done|]. split.
  - destruct multi.
    + apply bind_Ok in Hshape as (? & _ & Hshape).
      apply bind_Ok in Hshape as ([] & _ & Hshape); bind_inv Hshape;
        injection Hshape as <-; simpl; lia.
    + apply bind_Ok in Hshape as (? & _ & Hshape).
      apply bind_Ok in Hshape as ([] & _ & Hshape).
      * apply bind_Ok in Hshape as (? & _ & Hshape).
        destruct (py_eq _ _); [|done]. bind_inv Hshape.
        injection Hshape as <-; simpl; lia.
      * bind_inv Hshape. injection Hshape as <-; simpl; lia.
  - destruct (contains self "SliceSpacing").
    + bind_inv Hraw. injection Hraw as <-. eauto.
    + by injection Hraw as <-.
Qed.

(** The same, with the values that are stored named by what they are
    read from: the two pixel spacings, and the slice spacing when there
    is one. *)
Lemma _get_shape_and_sampling_values (self self' : SimpleDicomReader F) :
  _get_shape_and_sampling self = Ok self' ->
  exists shape ps s0 s1 raw,
    _info self' = <["sampling" := VTuple (fit_sampling shape raw)]>
                    (<["shape" := VTuple shape]> (_info self)) /\
    (2 <= length shape <= 4)%nat /\
    _info self !! "PixelSpacing" = Some ps /\
    py_getitem ps 0 ≫= py_float = Ok s0 /\
    py_getitem ps 1 ≫= py_float = Ok s1 /\
    match _info self !! "SliceSpacing" with
    | Some ss => exists a, py_abs ss = Ok a /\ raw = [a; VFloat s0; VFloat s1]
    | None => raw = [VFloat s0; VFloat s1]
    end.
Proof.
  unfold _get_shape_and_sampling. intros Hg.
  apply bind_Ok in Hg as (multi & _ & Hg).
  apply bind_Ok in Hg as (shape & Hshape & Hg).
  apply bind_Ok in Hg as (ps & Hps & Hg).
  apply bind_Ok in Hg as (s0 & Hs0 & Hg).
  apply bind_Ok in Hg as (ps' & Hps' & Hg).
  apply bind_Ok in Hg as (s1 & Hs1 & Hg).
  apply bind_Ok in Hg as (raw & Hraw & Hg).
  injection Hg as <-.
  assert (_info self !! "PixelSpacing" = Some ps /\ ps' = ps) as [Hlook ->].
  { unfold getattr in Hps, Hps'. destruct (_info self !! "PixelSpacing"); [|done].
    injection Hps as <-. by injection Hps' as <-. }
  exists shape, ps, s0, s1, raw. split; [done|]. split.
  - destruct multi.
    + apply bind_Ok in Hshape as (? & _ & Hshape).
      apply bind_Ok in Hshape as ([] & _ & Hshape); bind_inv Hshape;
        injection Hshape as <-; simpl; lia.
    + apply bind_Ok in Hshape as (? & _ & Hshape).
      apply bind_Ok in Hshape as ([] & _ & Hshape).
      * apply bind_Ok in Hshape as (? & _ & Hshape).
        destruct (py_eq _ _); [|done]. bind_inv Hshape.
        injection Hshape as <-; simpl; lia.
      * bind_inv Hshape. injection Hshape as <-; simpl; lia.
  - split; [exact Hlook|]. split; [exact Hs0|]. split; [exact Hs1|].
    unfold contains, getattr in Hraw.
    destruct (_info self !! "SliceSpacing") as [ss|].
    + rewrite bool_decide_eq_true_2 in Hraw by eauto.
      apply bind_Ok in Hraw as (ss' & [= <-] & Hraw).
      apply bind_Ok in Hraw as (a & Ha & Hraw). injection Hraw as <-. eauto.
    + rewrite bool_decide_eq_false_2 in Hraw by (by intros [? ?]).
      by injection Hraw as <-.
Qed.
End ShapeAndSampling.

Lemma bind_OutOfFuel {A B} (m : result A) (f : A -> result B) :
  m ≫= f = OutOfFuel <-> m = OutOfFuel \/ exists a, m = Ok a /\ f a = OutOfFuel.
Proof.
  destruct m; cbn; split; try done; eauto.
  - by intros [|(? & [= ->] & ?)].
  - by intros [|(? & ? & ?)].
Qed.

(** ** The element decoder always ends and always moves forward *)

Section Progress.
Context {F : Type} `{PyFloat F} `{PyRuntime}.

Lemma read_unpack_Ok little c f v f' :
  read_unpack little c f = Ok (v, f') ->
  content f' = content f /\ pos f' = (pos f + calcsize c)%nat /\
  (pos f + calcsize c <= length (content f))%nat.
Proof.
  unfold read_unpack, struct_unpack. cbn.
  destruct (decide _) as [Hl|]; [|done]. cbn. intros [= <- <-]. cbn.
  rewrite Hl. split; [done|]. split; [done|].
  rewrite length_take, length_drop in Hl. destruct c; unfold calcsize in *; lia.
Qed.

Lemma read_unpack_total little c f : read_unpack little c f <> OutOfFuel.
Proof. unfold read_unpack, struct_unpack. cbn. by destruct (decide _). Qed.

Lemma scan_loop_Ok fuel little chunks fp v fp' out :
  scan_loop fuel little 128 chunks fp = Ok (v, fp', out) ->
  content fp' = content fp /\ (pos fp < pos fp')%nat.
Proof.
  revert chunks fp. induction fuel as [|fuel IH]; intros chunks [c p]; [done|].
  rewrite scan_loop_step. cbn zeta. destruct (decide _); [done|].
  destruct (find _ _).
  - intros [= <- <- <-]. cbn. split; [done|lia].
  - intros Hs. apply IH in Hs as [-> Hp]. cbn in *. split; [done|lia].
Qed.

(** A decoded element lies within the content, eight bytes at least,
    and the cursor ends behind it. *)
Lemma _readDataElement_Ok (self self' : SimpleDicomReader F) f group element value :
  _file self = Some f ->
  _readDataElement self = Ok (group, element, value, self') ->
  exists f', _file self' = Some f' /\ content f' = content f /\
             (pos f + 8 <= length (content f))%nat /\ (pos f + 8 <= pos f')%nat.
Proof.
  intros Hf. unfold _readDataElement, the_file. rewrite Hf. cbn [mbind result_bind].
  intros Hr.
  apply bind_Ok in Hr as ([g f1] & Hg & Hr). apply read_unpack_Ok in Hg as (Hc1 & Hp1 & Hl1).
  apply bind_Ok in Hr as ([e f2] & He & Hr). apply read_unpack_Ok in He as (Hc2 & Hp2 & Hl2).
  apply bind_Ok in Hr as ([vl f3] & Hvl & Hr).
  assert (content f3 = content f /\ (pos f + 8 <= pos f3)%nat /\
          (pos f3 <= length (content f))%nat) as (Hc3 & Hp3 & Hl3).
  { clear Hr. cbn [calcsize] in *. destruct (is_implicit_VR self).
    - apply read_unpack_Ok in Hvl as (Hc & Hp & Hl). cbn [calcsize] in *.
      rewrite Hc, Hc2, Hc1 in *. split; [done|]. split; lia.
    - destruct (read 2 f2) as [vr f2'] eqn:Hvr.
      assert (content f2' = content f2 /\ (pos f2 <= pos f2')%nat) as [Hc' Hp'].
      { unfold read in Hvr. injection Hvr as <- <-. cbn. split; [done|lia]. }
      destruct (bool_decide _).
      + destruct (read 2 f2') as [reserved f2''] eqn:Hres.
        assert (content f2'' = content f2' /\ (pos f2' <= pos f2'')%nat) as [Hc'' Hp''].
        { unfold read in Hres. injection Hres as <- <-. cbn. split; [done|lia]. }
        apply read_unpack_Ok in Hvl as (Hc & Hp & Hl). cbn [calcsize] in *.
        rewrite Hc, Hc'', Hc', Hc2, Hc1 in *. split; [done|]. split; lia.
      + apply read_unpack_Ok in Hvl as (Hc & Hp & Hl). cbn [calcsize] in *.
        rewrite Hc, Hc', Hc2, Hc1 in *. split; [done|].
        assert (pos f2' = pos f2 + 2)%nat; [|split; lia].
        pose proof (read_pos 2 f2) as Hq. rewrite read_fst, Hvr in Hq. cbn [snd] in Hq.
        rewrite length_take, length_drop, Hc2 in Hq. lia. }
  destruct ((g =? 32736) && (e =? 16)).
  - injection Hr as <- <- <- <-. eexists. split; [reflexivity|]. cbn. unfold tell.
    split; [done|]. lia.
  - destruct (vl =? 4294967295).
    + apply bind_Ok in Hr as ([[v f4] out] & Hs & Hr).
      apply scan_loop_Ok in Hs as [Hc4 Hp4].
      injection Hr as <- <- <- <-. eexists. split; [reflexivity|].
      split; [congruence|]. lia.
    + injection Hr as <- <- <- <-. eexists. split; [reflexivity|]. cbn.
      split; [done|]. lia.
Qed.

Lemma _readDataElement_total (self : SimpleDicomReader F) :
  _readDataElement self <> OutOfFuel.
Proof.
  unfold _readDataElement. intros Hr.
  apply bind_OutOfFuel in Hr as [Hr|(f & _ & Hr)].
  { unfold the_file in Hr. by destruct (_file self). }
  apply bind_OutOfFuel in Hr as [Hr|([g f1] & _ & Hr)]; [by apply read_unpack_total in Hr|].
  apply bind_OutOfFuel in Hr as [Hr|([e f2] & _ & Hr)]; [by apply read_unpack_total in Hr|].
  apply bind_OutOfFuel in Hr as [Hr|([vl f3] & _ & Hr)].
  { destruct (is_implicit_VR self); [by apply read_unpack_total in Hr|].
    destruct (read 2 f2) as [vr f2']. destruct (bool_decide _).
    - destruct (read 2 f2') as [reserved f2'']. by apply read_unpack_total in Hr.
    - by apply read_unpack_total in Hr. }
  destruct (_ && _); [done|]. destruct (vl =? _); [|done].
  apply bind_OutOfFuel in Hr as [Hr|([[v f4] out] & _ & Hr)]; [|done].
  by apply read_undefined_length_value_total in Hr.
Qed.
End Progress.

Lemma bind_total {A B} (m : result A) (f : A -> result B) :
  m <> OutOfFuel -> (forall a, m = Ok a -> f a <> OutOfFuel) -> m ≫= f <> OutOfFuel.
Proof. destruct m; cbn; eauto. Qed.

Lemma fmap_total {A B} (m : result A) (f : A -> B) :
  m <> OutOfFuel -> f <$> m <> OutOfFuel.
Proof. by destruct m. Qed.

Lemma decode_ascii_total b : decode_ascii b <> OutOfFuel.
Proof. unfold decode_ascii. by destruct (forallb _ _). Qed.

(** ** Parsing a file always ends *)

Section Totality.
Context {F : Type} `{PyFloat F} `{PyRuntime}.

Lemma the_file_total (self : SimpleDicomReader F) : the_file self <> OutOfFuel.
Proof. unfold the_file. by destruct (_file self). Qed.

Lemma the_file_Ok (self : SimpleDicomReader F) f :
  the_file self = Ok f <-> _file self = Some f.
Proof. unfold the_file. destruct (_file self); split; congruence. Qed.

Lemma header_loop_total fuel (self : SimpleDicomReader F) uid f :
  _file self = Some f -> (length (content f) - pos f < fuel)%nat ->
  header_loop fuel self uid <> OutOfFuel.
Proof.
  revert self uid f. induction fuel as [|fuel IH]; intros self uid f Hf Hfuel; [lia|].
  cbn [header_loop]. apply bind_total; [apply the_file_total|].
  intros f0 Hf0. apply the_file_Ok in Hf0. rewrite Hf in Hf0. injection Hf0 as <-.
  apply bind_total; [apply _readDataElement_total|].
  intros [[[group element] value] self'] Hr.
  destruct (_readDataElement_Ok _ _ _ _ _ _ Hf Hr) as (f' & Hf' & Hc & Hl & Hp).
  destruct (group =? 2).
  - apply bind_total.
    + destruct (_ && _); [|done]. apply fmap_total, decode_ascii_total.
    + intros uid' _. apply (IH _ _ f'); [done|]. rewrite Hc. lia.
  - apply bind_total; [apply the_file_total|]. done.
Qed.

Lemma converter_total (self : SimpleDicomReader F) vr x :
  converter self vr x <> OutOfFuel.
Proof.
  assert (forall c, VInt (F:=F) <$> struct_unpack (_unpackPrefix self) c x <> OutOfFuel) as Hu.
  { intros c. apply fmap_total. unfold struct_unpack. by destruct (decide _). }
  assert (forall t, _splitValues (F:=F) x t backslash <> OutOfFuel) as Hs.
  { intros t. unfold _splitValues. apply bind_total; [|done].
    apply fmap_total, decode_ascii_total. }
  assert (forall g : string -> value F, g <$> decode_ascii x <> OutOfFuel) as Ha.
  { intros g. apply fmap_total, decode_ascii_total. }
  assert (forall g : string -> value F, g <$> decode_utf8 x <> OutOfFuel) as Hd.
  { intros g. apply fmap_total. unfold decode_utf8. by destruct (utf8_decode x). }
  unfold converter.
  repeat match goal with
         | |- match ?s with EmptyString => _ | String _ _ => _ end <> _ => destruct s
         | |- match ?a with Ascii _ _ _ _ _ _ _ _ => _ end <> _ => destruct a
         | |- (if ?b then _ else _) <> _ => destruct b
         end; try done; first [apply Hu | apply Hs | apply Ha | apply Hd].
Qed.

Lemma data_elements_loop_total fuel (self : SimpleDicomReader F) f :
  _file self = Some f -> (length (content f) - pos f < fuel)%nat ->
  data_elements_loop fuel self <> OutOfFuel.
Proof.
  revert self f. induction fuel as [|fuel IH]; intros self f Hf Hfuel; [lia|].
  cbn [data_elements_loop].
  destruct (_readDataElement self) as [[[[group element] value] self']|e|] eqn:Hr.
  - destruct (_readDataElement_Ok _ _ _ _ _ _ Hf Hr) as (f' & Hf' & Hc & Hl & Hp).
    assert (length (content f') - pos f' < fuel)%nat as Hfuel' by (rewrite Hc; lia).
    destruct (bool_decide _); [|by apply (IH _ f')].
    destruct (MINIDICT !! _) as [[name vr]|]; [|by apply (IH _ f')].
    pose proof (converter_total self' vr value) as Hc'.
    destruct (converter self' vr value) as [v|e|]; [|by destruct e|done].
    by apply (IH _ f').
  - by destruct e.
  - by apply _readDataElement_total in Hr.
Qed.
End Totality.

Section Parse.
Context {F : Type} `{PyFloat F} `{PyRuntime}.

Lemma getattr_total (self : SimpleDicomReader F) key : getattr self key <> OutOfFuel.
Proof. unfold getattr. by destruct (_ !! _). Qed.

Lemma py_gt_int_total (v : value F) z : py_gt v (VInt z) <> OutOfFuel.
Proof. by destruct v. Qed.

Lemma py_getitem_total (v : value F) i : py_getitem v i <> OutOfFuel.
Proof.
  destruct v; cbn; try done.
  - by destruct (String.get _ _).
  - by destruct (_ !! _).
  - by destruct (_ !! _).
Qed.

Lemma py_float_total (v : value F) : py_float v <> OutOfFuel.
Proof. destruct v; cbn; try done. by destruct (f_of_string _). Qed.

Lemma py_abs_total (v : value F) : py_abs v <> OutOfFuel.
Proof. by destruct v. Qed.

Create HintDb total.
Local Hint Resolve getattr_total py_gt_int_total py_getitem_total py_float_total
  py_abs_total : total.

Ltac total :=
  repeat first
    [ done
    | progress eauto with total
    | apply bind_total; [|intros ? _]
    | match goal with |- (if ?b then _ else _) <> _ => destruct b end ].

Lemma _get_shape_and_sampling_total (self : SimpleDicomReader F) :
  _get_shape_and_sampling self <> OutOfFuel.
Proof. unfold _get_shape_and_sampling. total. Qed.

Lemma _inflate_total (self : SimpleDicomReader F) : _inflate self <> OutOfFuel.
Proof.
  unfold _inflate. apply bind_total; [apply the_file_total|]. intros f _.
  cbn. by destruct (zlib_decompress_raw _).
Qed.

Lemma handle_transfer_syntax_total uid (self : SimpleDicomReader F) :
  handle_transfer_syntax uid self <> OutOfFuel.
Proof.
  unfold handle_transfer_syntax. destruct uid as [uid|]; [|done].
  repeat (destruct (decide _); [try done|]); [|done].
  apply bind_total; [apply _inflate_total|done].
Qed.

Lemma _read_header_total (self : SimpleDicomReader F) : _read_header self <> OutOfFuel.
Proof.
  unfold _read_header. apply bind_total; [apply the_file_total|].
  intros f Hf. apply the_file_Ok in Hf.
  apply bind_total.
  - pose proof (header_loop_total (S (length (content f))) self None f Hf) as Ht.
    destruct (header_loop _ _ _) as [|e|]; [done|by destruct e|]. apply Ht. lia.
  - intros [uid self'] _. apply bind_total; [apply handle_transfer_syntax_total|].
    by intros [[? ?] ?] _.
Qed.

Lemma _read_data_elements_total (self : SimpleDicomReader F) :
  _read_data_elements self <> OutOfFuel.
Proof.
  unfold _read_data_elements. apply bind_total; [apply the_file_total|].
  intros f Hf. apply the_file_Ok in Hf.
  apply (data_elements_loop_total _ _ f Hf). lia.
Qed.

(** The model never runs out of fuel on a file: parsing returns a reader
    or raises. *)
Lemma new_SimpleDicomReader_total (src : source) :
  new_SimpleDicomReader (F:=F) src <> OutOfFuel.
Proof.
  unfold new_SimpleDicomReader.
  destruct src as [filename data|f]; cbn zeta beta iota; unfold _read;
    (apply bind_total; [apply the_file_total|]); intros f0 _;
    destruct (read 4 (seek 128 f0)) as [magic f1]; destruct (decide _); try done;
    (apply bind_total; [apply _read_header_total|]); intros ? _;
    (apply bind_total; [apply _read_data_elements_total|]); intros ? _;
    (apply bind_total; [apply _get_shape_and_sampling_total|]); done.
Qed.

(** C10. After a successful parse the info holds a shape and a sampling
    of the same length.  The sampling is made of the two measured pixel
    spacings, [float(PixelSpacing[0])] and [float(PixelSpacing[1])], with
    the absolute value of [SliceSpacing] in front when that is present,
    fitted to the shape: 1.0 is put in front as often as it is shorter,
    leading entries are dropped when it is longer; so with a shape of
    two dimensions a slice spacing that is present is left out and the
    sampling is the two pixel spacings. *)
Theorem parse_sampling_fits_shape (src : source) (r : SimpleDicomReader F) :
  new_SimpleDicomReader src = Ok r ->
  exists shape sampling ps s0 s1 raw,
    _info r !! "shape" = Some (VTuple shape) /\
    _info r !! "sampling" = Some (VTuple sampling) /\
    length sampling = length shape /\
    _info r !! "PixelSpacing" = Some ps /\
    py_getitem ps 0 ≫= py_float = Ok s0 /\
    py_getitem ps 1 ≫= py_float = Ok s1 /\
    match _info r !! "SliceSpacing" with
    | Some ss => exists a, py_abs ss = Ok a /\ raw = [a; VFloat s0; VFloat s1]
    | None => raw = [VFloat s0; VFloat s1]
    end /\
    ((length raw <= length shape)%nat ->
     sampling = repeat (VFloat (f_of_Z 1)) (length shape - length raw) ++ raw) /\
    ((length shape <= length raw)%nat ->
     sampling = drop (length raw - length shape) raw) /\
    (length shape = 2%nat -> sampling = [VFloat s0; VFloat s1]).
Proof.
  intros Hnew.
  assert (exists self self', _get_shape_and_sampling self = Ok self' /\
                             _info r = _info self') as (self & self' & Hg & Hi).
  { unfold new_SimpleDicomReader in Hnew.
    destruct src as [filename data|f]; cbn zeta beta iota in Hnew; unfold _read in Hnew;
      apply bind_Ok in Hnew as (f0 & _ & Hnew);
      destruct (read 4 (seek 128 f0)) as [magic f1]; destruct (decide _); try done;
      apply bind_Ok in Hnew as (? & _ & Hnew);
      apply bind_Ok in Hnew as (? & _ & Hnew);
      apply bind_Ok in Hnew as (self' & Hg & Hnew);
      injection Hnew as <-; eauto. }
  apply _get_shape_and_sampling_values in Hg
    as (shape & ps & s0 & s1 & raw & Hinfo & Hlen & Hps & Hs0 & Hs1 & Hraw).
  exists shape, (fit_sampling shape raw), ps, s0, s1, raw.
  rewrite Hi, Hinfo.
  split; [by rewrite lookup_insert_ne, lookup_insert_eq|].
  split; [by rewrite lookup_insert_eq|].
  split; [apply fit_sampling_length|].
  split; [by rewrite !lookup_insert_ne|].
  split; [exact Hs0|]. split; [exact Hs1|].
  split; [by rewrite !lookup_insert_ne|].
  split; [apply fit_sampling_pad|]. split; [apply fit_sampling_drop|].
  intros H2. unfold fit_sampling. rewrite H2.
  destruct (_info self !! "SliceSpacing"); [destruct Hraw as (a & _ & ->)|rewrite Hraw]; done.
Qed.
End Parse.

(** ** Packing and unpacking *)

Lemma Z_of_byte_of_Z z : Z_of_byte (byte_of_Z z) = z mod 256.
Proof.
  unfold Z_of_byte, byte_of_Z.
  pose proof (Z.mod_pos_bound z 256 ltac:(lia)) as Hm.
  destruct (Byte.of_N (Z.to_N (z mod 256))) as [b|] eqn:E.
  - apply Byte.to_of_N in E. rewrite E. lia.
  - apply Byte.of_N_None_iff in E. lia.
Qed.

Lemma unpack_pack_H v :
  0 <= v < 65536 -> struct_unpack true fmt_H (pack_H true v) = Ok v.
Proof.
  intros Hv. unfold struct_unpack, pack_H. cbn.
  rewrite !Z_of_byte_of_Z.
  f_equal. rewrite (Z.mod_small (v / 256)) by (split; [apply Z.div_pos|apply Z.div_lt_upper_bound]; lia).
  pose proof (Z.div_mod v 256 ltac:(lia)). lia.
Qed.

Lemma unpack_pack_I v :
  0 <= v < 2 ^ 32 -> struct_unpack true fmt_I (pack_I true v) = Ok v.
Proof.
  intros Hv. unfold struct_unpack, pack_I. cbn.
  rewrite !Z_of_byte_of_Z. f_equal.
  change (2 ^ (8 * Z.of_nat 0)) with 1. change (2 ^ (8 * Z.of_nat 1)) with 256.
  change (2 ^ (8 * Z.of_nat 2)) with 65536. change (2 ^ (8 * Z.of_nat 3)) with 16777216.
  pose proof (Z.div_mod v 256 ltac:(lia)).
  pose proof (Z.div_mod (v / 256) 256 ltac:(lia)).
  pose proof (Z.div_mod (v / 256 / 256) 256 ltac:(lia)).
  rewrite Z.div_1_r.
  replace (v / 65536) with (v / 256 / 256) by (by rewrite Z.div_div by lia).
  replace (v / 16777216) with (v / 256 / 256 / 256) by (by rewrite !Z.div_div by lia).
  assert (0 <= v / 256 / 256 / 256 < 256).
  { split; [repeat apply Z.div_pos; lia|].
    repeat (apply Z.div_lt_upper_bound; [lia|]). lia. }
  rewrite (Z.mod_small (v / 256 / 256 / 256)) by done.
  lia.
Qed.

Lemma pack_H_length little v : length (pack_H little v) = 2%nat.
Proof. by destruct little. Qed.

Lemma pack_I_length little v : length (pack_I little v) = 4%nat.
Proof. by destruct little. Qed.

Lemma list_byte_of_string_length s : length (list_byte_of_string s) = String.length s.
Proof.
  unfold list_byte_of_string. rewrite length_map.
  induction s as [|a s IH]; cbn; [done|]. by rewrite IH.
Qed.

(** ** A file with a meta header and no body *)

(** The file whose content is [pre ++ rest], with the cursor behind [pre]. *)
Local Abbreviation at_ pre rest := (File (pre ++ rest) (length pre)).

Lemma read_at pre x rest n :
  n = length x -> read n (at_ pre (x ++ rest)) = (x, at_ (pre ++ x) rest).
Proof.
  intros ->. unfold read. cbn [content pos].
  rewrite drop_app_length, take_app_length, length_app. by rewrite <- app_assoc.
Qed.

Lemma read_unpack_H_at pre v rest :
  0 <= v < 65536 ->
  read_unpack true fmt_H (at_ pre (pack_H true v ++ rest)) =
    Ok (v, at_ (pre ++ pack_H true v) rest).
Proof.
  intros Hv. unfold read_unpack. rewrite read_at by done.
  by rewrite unpack_pack_H.
Qed.

Lemma read_unpack_I_at pre v rest :
  0 <= v < 2 ^ 32 ->
  read_unpack true fmt_I (at_ pre (pack_I true v ++ rest)) =
    Ok (v, at_ (pre ++ pack_I true v) rest).
Proof.
  intros Hv. unfold read_unpack. rewrite read_at by done.
  by rewrite unpack_pack_I.
Qed.

Section HeaderOnly.
Context {F : Type} `{PyFloat F} `{PyRuntime}.

(** A well-formed meta element is decoded as it was written, and the
    cursor is left behind it. *)
Lemma meta_element_decoded (self : SimpleDicomReader F) pre m rest :
  well_formed_meta m ->
  _file self = Some (at_ pre (encode_meta m ++ rest)) ->
  _unpackPrefix self = true -> is_implicit_VR self = false ->
  _readDataElement self =
    Ok (2, m_element m, m_value m,
        set_file self (Some (at_ (pre ++ encode_meta m) rest))).
Proof.
  intros (Hel & Hvr & Hlen & _) Hf Hp Hi.
  unfold _readDataElement, the_file. rewrite Hf, Hp, Hi. cbn [mbind result_bind].
  unfold encode_meta, encode_explicit. cbn zeta. rewrite <- !app_assoc.
  set (vrb := list_byte_of_string (m_vr m)).
  assert (length vrb = 2%nat) as Hvrb by (unfold vrb; by rewrite list_byte_of_string_length).
  rewrite read_unpack_H_at by lia. cbn [mbind result_bind].
  rewrite read_unpack_H_at by lia. cbn [mbind result_bind].
  rewrite read_at by done.
  change (bool_decide (vrb ∈ long_VRs)) with (is_long_VR (m_vr m)).
  change (bool_decide (vrb ∈ list_byte_of_string <$> ["OB"; "OW"; "SQ"; "UN"]))
    with (is_long_VR (m_vr m)).
  assert ((2 =? 32736) && (m_element m =? 16) = false) as Hpix by done.
  destruct (is_long_VR (m_vr m)).
  - rewrite <- (app_assoc [x00; x00]). rewrite (read_at _ [x00; x00]) by done.
    rewrite read_unpack_I_at by lia. cbn [mbind result_bind]. rewrite Hpix.
    rewrite (proj2 (Z.eqb_neq _ _)) by lia.
    rewrite Nat2Z.id, read_at by done.
    by rewrite <- !app_assoc.
  - rewrite read_unpack_H_at by lia. cbn [mbind result_bind]. rewrite Hpix.
    rewrite (proj2 (Z.eqb_neq _ _)) by lia.
    rewrite Nat2Z.id, read_at by done.
    by rewrite <- !app_assoc.
Qed.

(** At the end of the stream there is no group to unpack. *)
Lemma element_at_end (self : SimpleDicomReader F) pre :
  _file self = Some (at_ pre []) ->
  _readDataElement self = Raise StructError.
Proof.
  intros Hf. unfold _readDataElement, the_file. rewrite Hf. cbn [mbind result_bind].
  unfold read_unpack, read. cbn [content pos].
  by rewrite drop_app_length.
Qed.

Lemma header_loop_meta_only ms : forall fuel (self : SimpleDicomReader F) pre uid,
  Forall well_formed_meta ms ->
  _file self = Some (at_ pre (concat (encode_meta <$> ms))) ->
  _unpackPrefix self = true -> is_implicit_VR self = false ->
  (length ms < fuel)%nat ->
  header_loop fuel self uid = Raise StructError.
Proof.
  induction ms as [|m ms IH]; intros [|fuel] self pre uid Hwf Hf Hp Hi Hfuel;
    cbn in Hfuel; try lia.
  - cbn [header_loop]. rewrite (proj2 (the_file_Ok self _) Hf). cbn [mbind result_bind].
    by rewrite (element_at_end self pre).
  - apply Forall_cons in Hwf as [Hm Hwf].
    cbn [header_loop]. rewrite (proj2 (the_file_Ok self _) Hf). cbn [mbind result_bind].
    rewrite fmap_cons, concat_cons in Hf.
    rewrite (meta_element_decoded self pre m _ Hm Hf Hp Hi). cbn [mbind result_bind].
    change (2 =? 2) with true. cbn [andb].
    assert (exists uid',
      (if m_element m =? 16
       then (fun s => Some (strip_nul s)) <$> decode_ascii (m_value m)
       else Ok uid) = Ok uid') as [uid' ->].
    { destruct (Z.eqb_spec (m_element m) 16) as [He|]; [|eauto].
      destruct Hm as (_ & _ & _ & Hascii). unfold decode_ascii.
      rewrite (Hascii He). cbn. eauto. }
    cbn [mbind result_bind].
    apply (IH _ _ (pre ++ encode_meta m)); try done. lia.
Qed.

Lemma encode_meta_length m : (1 <= length (encode_meta m))%nat.
Proof.
  unfold encode_meta, encode_explicit. cbn zeta. rewrite !length_app, !pack_H_length.
  destruct (bool_decide _);
    rewrite ?length_app, ?pack_H_length, ?pack_I_length; cbn [length]; lia.
Qed.

Lemma concat_meta_length ms : (length ms <= length (concat (encode_meta <$> ms)))%nat.
Proof.
  induction ms as [|m ms IH]; cbn; [lia|].
  rewrite length_app. pose proof (encode_meta_length m). lia.
Qed.
End HeaderOnly.

Section HeaderOnlyParse.
Context {F : Type} `{PyFloat F} `{PyRuntime} {ndarray : Type} `{NumPy F ndarray}.

Lemma _read_header_meta_only (self : SimpleDicomReader F) ms :
  Forall well_formed_meta ms ->
  _file self = Some (File (header_only_file ms) 132) ->
  _unpackPrefix self = true -> is_implicit_VR self = false ->
  _read_header self = Raise (RuntimeError header_eof_message).
Proof.
  intros Hwf Hf Hp Hi. unfold _read_header.
  rewrite (proj2 (the_file_Ok self _) Hf). cbn [mbind result_bind content].
  rewrite (header_loop_meta_only ms _ self preamble None); try done.
  unfold header_only_file. rewrite length_app.
  pose proof (concat_meta_length ms). lia.
Qed.

(** C7, amended.  A file made of a preamble, the magic and a well-formed
    meta header, with no body element behind it, is not parsed: the scan
    of the header runs into the end of the stream and raises "End of
    file reached while still reading header."  No dataset comes out of
    it.  On a dataset that has no [PixelData] entry, [get_numpy_array]
    raises "No pixel data found in this dataset." *)
Theorem header_only_file_rejected (src : source) ms :
  Forall well_formed_meta ms ->
  source_bytes src = header_only_file ms ->
  new_SimpleDicomReader (F:=F) src = Raise (RuntimeError header_eof_message) /\
  forall r : SimpleDicomReader F,
    contains r "PixelData" = false ->
    get_numpy_array (ndarray:=ndarray) r = Raise (TypeError no_pixel_data_message).
Proof.
  intros Hwf Hsrc. split.
  - unfold new_SimpleDicomReader.
    assert (forall p, read 4 (seek 128 (File (header_only_file ms) p)) =
                      (DICM, File (header_only_file ms) 132)) as Hmagic.
    { intros p. unfold read, seek, header_only_file, preamble. cbn [content pos].
      rewrite <- app_assoc, drop_app_length' by (by rewrite repeat_length).
      by rewrite take_app_length' by done. }
    destruct src as [filename data|[c p]]; cbn in Hsrc; subst; cbn zeta beta iota;
      unfold _read, the_file; cbn [_file mbind result_bind];
      rewrite Hmagic; (rewrite decide_False by (by intros ?));
      by rewrite (_read_header_meta_only _ ms).
  - intros r Hr. unfold get_numpy_array. by rewrite Hr.
Qed.
End HeaderOnlyParse.

(** A preamble, the magic and the transfer syntax, and nothing else. *)
Lemma header_only_file_rejected_witness :
  Forall well_formed_meta [meta_explicit_le] /\
  source_bytes header_only_source = header_only_file [meta_explicit_le] /\
  new_SimpleDicomReader (F:=Q) header_only_source = Raise (RuntimeError header_eof_message).
Proof.
  assert (Forall well_formed_meta [meta_explicit_le]) as Hwf.
  { apply Forall_singleton. unfold well_formed_meta.
    repeat split; try reflexivity; try discriminate. }
  split; [exact Hwf|]. split; [reflexivity|].
  exact (proj1 (header_only_file_rejected (ndarray:=zarray) header_only_source
                  [meta_explicit_le] Hwf eq_refl)).
Defined.

(** C7 as stated fails: on that file parsing does not succeed, so there
    is no dataset of which the shape could be absent. *)
Lemma header_only_parse_counterexample :
  ~ exists r : SimpleDicomReader Q, new_SimpleDicomReader header_only_source = Ok r.
Proof.
  intros [r Hr].
  assert (new_SimpleDicomReader (F:=Q) header_only_source
          = Raise (RuntimeError header_eof_message)) as E by (vm_compute; reflexivity).
  rewrite E in Hr. discriminate.
Qed.

(** A slice of 1 x 2 with pixel spacings 0.5 and 0.25 and a slice
    spacing of 2.5: the shape has two dimensions and the sampling is the
    two pixel spacings alone. *)
Lemma parse_sampling_fits_shape_witness :
  new_SimpleDicomReader (F:=Q) fine_source = Ok (parsed "fine.dcm" fine_slice) /\
  _info (parsed "fine.dcm" fine_slice) !! "sampling"
  = Some (VTuple [VFloat (1 # 2); VFloat (1 # 4)]) /\
  exists shape sampling ps s0 s1 raw,
    _info (parsed "fine.dcm" fine_slice) !! "shape" = Some (VTuple shape) /\
    _info (parsed "fine.dcm" fine_slice) !! "sampling" = Some (VTuple sampling) /\
    length sampling = length shape /\
    _info (parsed "fine.dcm" fine_slice) !! "PixelSpacing" = Some ps /\
    py_getitem ps 0 ≫= py_float = Ok s0 /\
    py_getitem ps 1 ≫= py_float = Ok s1 /\
    match _info (parsed "fine.dcm" fine_slice) !! "SliceSpacing" with
    | Some ss => exists a, py_abs ss = Ok a /\ raw = [a; VFloat s0; VFloat s1]
    | None => raw = [VFloat s0; VFloat s1]
    end /\
    ((length raw <= length shape)%nat ->
     sampling = repeat (VFloat (f_of_Z 1)) (length shape - length raw) ++ raw) /\
    ((length shape <= length raw)%nat ->
     sampling = drop (length raw - length shape) raw) /\
    (length shape = 2%nat -> sampling = [VFloat s0; VFloat s1]).
Proof.
  split; [vm_compute; reflexivity|].
  split; [vm_compute; reflexivity|].
  apply (parse_sampling_fits_shape fine_source). vm_compute; reflexivity.
Defined.

(** ** Finishing a series *)

Lemma last_default_irrelevant {A} (l : list A) d1 d2 :
  l <> [] -> List.last l d1 = List.last l d2.
Proof.
  induction l as [|x [|y l] IH]; intros Hl; [done|done|].
  change (List.last (y :: l) d1 = List.last (y :: l) d2). by apply IH.
Qed.

Section Finish.
Context {F : Type} `{PyFloat F} `{PyRuntime}.

Local Abbreviation reader := (SimpleDicomReader F).

Lemma z_position_total (ds : reader) : DicomSeries.z_position ds <> OutOfFuel.
Proof.
  unfold DicomSeries.z_position. apply bind_total; [apply getattr_total|].
  intros ? _. apply bind_total; [apply py_getitem_total|]. intros ? _. apply py_float_total.
Qed.

Lemma finish_step_total dimensions sampling (ds1 ds2 : reader) sum :
  DicomSeries.finish_step dimensions sampling ds1 ds2 sum <> OutOfFuel.
Proof.
  unfold DicomSeries.finish_step, DicomSeries.dimensions_of, DicomSeries.sampling_of.
  repeat first
    [ done
    | apply z_position_total | apply getattr_total | apply py_getitem_total
    | apply py_float_total
    | apply bind_total; [|intros ? _]
    | match goal with |- (if ?b then _ else _) <> _ => destruct b end ].
Qed.

(** The loop only ever appends sampling warnings to the log. *)
Lemma finish_loop_log dimensions sampling L : forall (ds1 : reader) sum log,
  exists w,
    DicomSeries.finish_loop dimensions sampling ds1 sum L log =
      ((DicomSeries.finish_loop dimensions sampling ds1 sum L []).1, log ++ w) /\
    (DicomSeries.finish_loop dimensions sampling ds1 sum L []).2 = w /\
    Forall (fun e => e = PWrite DicomSeries.sampling_warning) w.
Proof.
  induction L as [|ds2 L IH]; intros ds1 sum log; cbn [DicomSeries.finish_loop].
  - exists []. by rewrite app_nil_r.
  - destruct (DicomSeries.finish_step _ _ _ _ _) as [[sum' same]|e|].
    + destruct same.
      * apply IH.
      * destruct (IH ds2 sum' (log ++ [PWrite DicomSeries.sampling_warning]))
          as (w & Hl & Hw & Hall).
        destruct (IH ds2 sum' ([] ++ [PWrite DicomSeries.sampling_warning]))
          as (w' & Hl' & Hw' & Hall').
        assert (w' = w) as -> by congruence.
        exists (PWrite DicomSeries.sampling_warning :: w).
        rewrite Hl, Hl'. cbn [fst snd]. rewrite <- app_assoc.
        split; [done|]. split; [done|]. by apply Forall_cons_2.
    + exists []. by rewrite app_nil_r.
    + exists []. by rewrite app_nil_r.
Qed.

Lemma finish_loop_total dimensions sampling L : forall (ds1 : reader) sum log,
  (DicomSeries.finish_loop dimensions sampling ds1 sum L log).1 <> OutOfFuel.
Proof.
  induction L as [|ds2 L IH]; intros ds1 sum log; cbn [DicomSeries.finish_loop]; [done|].
  pose proof (finish_step_total dimensions sampling ds1 ds2 sum).
  destruct (DicomSeries.finish_step _ _ _ _ _) as [[sum' same]|e|]; done.
Qed.

(** What the loop returns: the last slice, and the running sum of the
    distances between the slices that follow one another. *)
Lemma finish_loop_Ok dimensions sampling L : forall (ds1 ds2 : reader) sum sum' log log',
  DicomSeries.finish_loop dimensions sampling ds1 sum L log = (Ok (ds2, sum'), log') ->
  ds2 = List.last L ds1 /\
  exists zs, Forall2 (fun ds z => DicomSeries.z_position ds = Ok z) L zs /\
             forall z1, DicomSeries.z_position ds1 = Ok z1 -> sum' = gap_sum z1 sum zs.
Proof.
  induction L as [|d L IH]; intros ds1 ds2 sum sum' log log';
    cbn [DicomSeries.finish_loop].
  - intros [= <- <- _]. split; [done|]. exists []. by split.
  - destruct (DicomSeries.finish_step _ _ _ _ _) as [[s same]|e|] eqn:Hstep; try done.
    intros Hloop.
    unfold DicomSeries.finish_step in Hstep.
    apply bind_Ok in Hstep as (pos1 & Hp1 & Hstep).
    apply bind_Ok in Hstep as (pos2 & Hp2 & Hstep).
    apply bind_Ok in Hstep as (dims2 & _ & Hstep).
    apply bind_Ok in Hstep as (samp2 & _ & Hstep).
    destruct (negb _); [done|]. injection Hstep as <- _.
    apply IH in Hloop as (Hlast & zs & Hzs & Hsum).
    split.
    + rewrite Hlast. destruct L as [|x L']; [done|].
      change (List.last (d :: x :: L') ds1) with (List.last (x :: L') ds1).
      by apply last_default_irrelevant.
    + exists (pos2 :: zs). split; [by constructor|].
      intros z1 Hz1. rewrite Hp1 in Hz1. injection Hz1 as <-.
      cbn [gap_sum]. by apply Hsum.
Qed.

Lemma tuple_cons_Ok (a t v : value F) :
  DicomSeries.tuple_cons a t = Ok v <-> exists l, t = VTuple l /\ v = VTuple (a :: l).
Proof.
  destruct t; cbn; split; try done; try (by intros (? & ? & ?)).
  - intros [= <-]. eauto.
  - intros (? & [= <-] & ->). done.
Qed.

(** C4, amended.  A series of [N >= 2] slices that comes through
    [_finish] has for info a copy of the first slice's info in which
    [shape] is [(N, *last.shape)] and [sampling] is
    [(distance_mean, *last.sampling)], with the shape and the sampling of
    the last slice; [distance_mean] is the sum of the distances in
    [ImagePositionPatient[2]] between the slices that follow one another,
    divided by [N - 1]. *)
Theorem finish_info_from_last_slice (self self' : DicomSeries.t F) log log' first rest :
  DicomSeries._entries self = first :: rest -> rest <> [] ->
  DicomSeries._finish self log = (Ok self', log') ->
  exists shape sampling zs distance_mean,
    Forall2 (fun ds z => DicomSeries.z_position ds = Ok z) (first :: rest) zs /\
    dcm_info F (List.last rest first) !! "shape" = Some (VTuple shape) /\
    dcm_info F (List.last rest first) !! "sampling" = Some (VTuple sampling) /\
    f_div (distance_sum zs) (f_of_Z (Z.of_nat (length (first :: rest)) - 1))
      = Some distance_mean /\
    DicomSeries._info self' =
      <["sampling" := VTuple (VFloat distance_mean :: sampling)]>
        (<["shape" := VTuple (VInt (Z.of_nat (length (first :: rest))) :: shape)]>
           (dcm_info F first)) /\
    DicomSeries._entries self' = first :: rest /\
    DicomSeries._suid self' = DicomSeries._suid self.
Proof.
  intros HL Hrest. unfold DicomSeries._finish. rewrite HL.
  destruct rest as [|second rest]; [done|].
  destruct (_ ≫= _) as [[dimensions sampling0]|e|] eqn:Hinit; try done.
  destruct (DicomSeries.finish_loop _ _ _ _ _ _) as [[[ds2 sum]|e|] log1] eqn:Hloop; try done.
  intros Hfin. injection Hfin as Hfin _.
  apply finish_loop_Ok in Hloop as (-> & zs & Hzs & Hsum).
  destruct zs as [|z0 zs]; [by apply Forall2_nil_inv_r in Hzs|].
  pose proof (Forall2_cons_1 _ _ _ _ _ Hzs) as [Hz0 _].
  specialize (Hsum z0 Hz0). subst sum.
  apply bind_Ok in Hfin as (mean & Hmean & Hfin).
  apply bind_Ok in Hfin as (shape & Hshape & Hfin).
  apply bind_Ok in Hfin as (sampling & Hsamp & Hfin).
  injection Hfin as <-.
  apply bind_Ok in Hshape as (sh & Hsh & Hshape).
  apply tuple_cons_Ok in Hshape as (lsh & -> & ->).
  apply bind_Ok in Hsamp as (sa & Hsa & Hsamp).
  apply tuple_cons_Ok in Hsamp as (lsa & -> & ->).
  unfold DicomSeries.info_item in Hsh, Hsa.
  destruct (dcm_info F _ !! "shape") as [?|] eqn:E1; [injection Hsh as ->|done].
  destruct (dcm_info F _ !! "sampling") as [?|] eqn:E2; [injection Hsa as ->|done].
  exists lsh, lsa, (z0 :: zs), mean.
  split; [done|].
  split; [done|]. split; [done|].
  split; [|done].
  cbn [distance_sum]. destruct (f_div _ _); [by injection Hmean as ->|done].
Qed.
End Finish.

(** The first slice of [two_spacings] has sampling (1, 1) and the last
    (2, 2): the series gets (3, 2, 2). *)
Lemma finish_info_from_last_slice_witness :
  DicomSeries._entries two_spacings_series =
    parsed "a.dcm" (slice_file "S" "1" "0\0\0" 1 2 "1\1" [] [x00; x01])
    :: [parsed "b.dcm" (slice_file "S" "2" "0\0\3" 1 2 "2\2" [] [x02; x03])] /\
  DicomSeries._finish two_spacings_series [] =
    (Ok (finish_or_keep two_spacings_series), [PWrite DicomSeries.sampling_warning]) /\
  exists (shape sampling : list (value Q)) (zs : list Q) (distance_mean : Q),
    Forall2 (fun ds z => DicomSeries.z_position ds = Ok z)
      (DicomSeries._entries two_spacings_series) zs /\
    shape = [VInt 1; VInt 2] /\ sampling = [VFloat 2%Q; VFloat 2%Q] /\
    f_div (distance_sum zs) (f_of_Z 1) = Some distance_mean /\
    DicomSeries._info (finish_or_keep two_spacings_series) !! "sampling"
      = Some (VTuple (VFloat distance_mean :: sampling)).
Proof.
  split; [reflexivity|]. split; [vm_compute; reflexivity|].
  destruct (finish_info_from_last_slice two_spacings_series
              (finish_or_keep two_spacings_series) [] [PWrite DicomSeries.sampling_warning]
              (parsed "a.dcm" (slice_file "S" "1" "0\0\0" 1 2 "1\1" [] [x00; x01]))
              [parsed "b.dcm" (slice_file "S" "2" "0\0\3" 1 2 "2\2" [] [x02; x03])])
    as (shape & sampling & zs & mean & Hzs & Hshape & Hsampling & Hmean & Hinfo & _);
    [reflexivity | discriminate | vm_compute; reflexivity |].
  exists shape, sampling, zs, mean.
  split; [exact Hzs|].
  split; [vm_compute in Hshape; congruence|].
  split; [vm_compute in Hsampling; congruence|].
  split; [exact Hmean|].
  rewrite Hinfo. apply lookup_insert_eq.
Defined.

(** C4 as stated fails on [two_spacings]: the sampling of the series ends
    with the sampling of the last slice, (2, 2), not with that of the
    first, (1, 1). *)
Lemma finish_first_slice_counterexample :
  exists first last serie,
    DicomSeries._entries two_spacings_series = [first; last] /\
    (DicomSeries._finish two_spacings_series []).1 = Ok serie /\
    dcm_info Q first !! "sampling" = Some (VTuple [VFloat 1%Q; VFloat 1%Q]) /\
    DicomSeries._info serie !! "sampling" <> Some (VTuple [VFloat 3%Q; VFloat 1%Q; VFloat 1%Q]) /\
    DicomSeries._info serie !! "sampling" = Some (VTuple [VFloat 3%Q; VFloat 2%Q; VFloat 2%Q]).
Proof.
  eexists _, _, (finish_or_keep two_spacings_series).
  split; [reflexivity|]. split; [vm_compute; reflexivity|].
  split; [vm_compute; reflexivity|].
  assert (DicomSeries._info (finish_or_keep two_spacings_series) !! "sampling"
          = Some (VTuple [VFloat 3%Q; VFloat 2%Q; VFloat 2%Q])) as E
    by (vm_compute; reflexivity).
  split; [|exact E]. rewrite E. discriminate.
Qed.

(** ** Finishing all series *)

Section FinishAll.
Context {F : Type} `{PyFloat F} `{PyRuntime}.

Lemma _finish_total (self : DicomSeries.t F) log :
  (DicomSeries._finish self log).1 <> OutOfFuel.
Proof.
  unfold DicomSeries._finish.
  destruct (DicomSeries._entries self) as [|ds1 [|ds rest]]; [done|done|].
  assert (forall A (m : result A), m <> OutOfFuel ->
            match m with Ok _ => True | Raise _ => True | OutOfFuel => False end) as Hm.
  { by intros A []. }
  destruct (_ ≫= _) as [[dimensions sampling]|e|] eqn:Hinit; [|done|].
  - pose proof (finish_loop_total dimensions sampling (ds1 :: ds :: rest) ds1
                  (f_of_Z 0) log) as Ht.
    destruct (DicomSeries.finish_loop _ _ _ _ _ _) as [[[ds2 sum]|e|] log1]; [|done|done].
    cbn [fst].
    repeat first
      [ done
      | apply bind_total; [|intros ? _]
      | match goal with
        | |- match ?x with Some _ => _ | None => _ end <> _ => destruct x
        | |- DicomSeries.info_item _ _ <> _ =>
            unfold DicomSeries.info_item; destruct (_ !! _)
        | |- DicomSeries.tuple_cons _ ?t <> _ => destruct t
        end ].
  - exfalso. revert Hinit.
    unfold DicomSeries.dimensions_of, DicomSeries.sampling_of.
    repeat first
      [ done
      | apply getattr_total | apply py_getitem_total | apply py_float_total
      | apply bind_total; [|intros ? _] ].
Qed.

(** [_finish] writes nothing but sampling warnings, whatever comes of it. *)
Lemma _finish_log (self : DicomSeries.t F) log :
  exists w,
    DicomSeries._finish self log = ((DicomSeries._finish self []).1, log ++ w) /\
    Forall (fun e => e = PWrite DicomSeries.sampling_warning) w.
Proof.
  unfold DicomSeries._finish.
  destruct (DicomSeries._entries self) as [|ds1 [|ds rest]].
  - exists []. by rewrite app_nil_r.
  - exists []. by rewrite app_nil_r.
  - destruct (_ ≫= _) as [[dimensions sampling]|e|].
    + destruct (finish_loop_log dimensions sampling (ds1 :: ds :: rest) ds1 (f_of_Z 0) log)
        as (w & Hl & Hw & Hall).
      exists w. split; [|done]. rewrite Hl.
      destruct (DicomSeries.finish_loop _ _ _ _ _ []) as [[[ds2 sum]|e|] w'];
        cbn [fst snd] in *; by subst.
    + exists []. by rewrite app_nil_r.
    + exists []. by rewrite app_nil_r.
Qed.

Lemma finished_cons_Ok (serie serie' : DicomSeries.t F) series :
  (DicomSeries._finish serie []).1 = Ok serie' ->
  finished (serie :: series) = serie' :: finished series.
Proof. intros Hs. unfold finished. cbn. by rewrite Hs. Qed.

Lemma finished_cons_Raise (serie : DicomSeries.t F) series e :
  (DicomSeries._finish serie []).1 = Raise e ->
  finished (serie :: series) = finished series.
Proof. intros Hs. unfold finished. cbn. by rewrite Hs. Qed.

Lemma finished_app (pre post : list (DicomSeries.t F)) :
  finished (pre ++ post) = finished pre ++ finished post.
Proof. unfold finished. apply omap_app. Qed.

(** The loop that finishes the series returns, in their order, the
    series that come through [_finish], and tells the indicator nothing
    but the count of series and the sampling warnings of [_finish]. *)
Lemma finish_all_spec (series : list (DicomSeries.t F)) :
  forall i series_ log,
  exists events,
    finish_all i series series_ log = (Ok (series_ ++ finished series), log ++ events) /\
    Forall (fun e => e = PWrite DicomSeries.sampling_warning \/
                     exists n, e = PSetProgress n) events.
Proof.
  induction series as [|serie series IH]; intros i series_ log; cbn [finish_all].
  - exists []. rewrite !app_nil_r. by split.
  - destruct (_finish_log serie log) as (w & Hl & Hw).
    pose proof (_finish_total serie []) as Ht.
    rewrite Hl.
    assert (Forall (fun e => e = PWrite DicomSeries.sampling_warning \/
                             exists n, e = PSetProgress n) (w ++ [PSetProgress (S i)])) as Hall.
    { apply Forall_app. split.
      - eapply Forall_impl; [exact Hw|]. intros ? ->. by left.
      - apply Forall_singleton. right. eauto. }
    destruct ((DicomSeries._finish serie []).1) as [serie'|e|] eqn:Hs; [| |done].
    + destruct (IH (S i) (series_ ++ [serie']) ((log ++ w) ++ [PSetProgress (S i)]))
        as (events & Hf & Hev).
      exists ((w ++ [PSetProgress (S i)]) ++ events). split.
      * rewrite Hf, (finished_cons_Ok _ _ _ Hs). f_equal.
        -- by rewrite <- app_assoc.
        -- by rewrite <- !app_assoc.
      * apply Forall_app. by split.
    + destruct (IH (S i) series_ ((log ++ w) ++ [PSetProgress (S i)]))
        as (events & Hf & Hev).
      exists ((w ++ [PSetProgress (S i)]) ++ events). split.
      * rewrite Hf, (finished_cons_Raise _ _ _ Hs). f_equal.
        by rewrite <- !app_assoc.
      * apply Forall_app. by split.
Qed.

(** C8, amended.  When [_finish] raises on a series because its slices
    disagree on rows and columns, the loop that finishes the series
    leaves that series out of the list it returns and goes on with the
    series behind it.  It writes no message about the failure to the
    progress indicator: the events it adds are the counts of
    [set_progress] and the sampling warnings of [_finish]. *)
Theorem finish_all_drops_silently (pre post : list (DicomSeries.t F)) bad i series_ log :
  (DicomSeries._finish bad []).1 = Raise (ValueError DicomSeries.dimension_message) ->
  exists events,
    finish_all i (pre ++ bad :: post) series_ log =
      (Ok (series_ ++ finished pre ++ finished post), log ++ events) /\
    Forall (fun e => e = PWrite DicomSeries.sampling_warning \/
                     exists n, e = PSetProgress n) events.
Proof.
  intros Hbad.
  destruct (finish_all_spec (pre ++ bad :: post) i series_ log) as (events & Hf & Hev).
  exists events. split; [|done].
  by rewrite Hf, finished_app, (finished_cons_Raise _ _ _ Hbad).
Qed.

(** The scan as a whole: once the files are examined, sorted and split
    into [series], what is returned is [finished series]. *)
Lemma process_directory_finishes (request : Request) log series log1 series2 log2 :
  isdir request || isfile request = true ->
  examine_files (list_files request) [] 0
    (log ++ [PStart "examining files" "files" (length (list_files request))])
    = (Ok series, log1) ->
  sort_by (fun x => Ok (DicomSeries._suid x)) series = Ok series2 ->
  forall series3,
  split_all (length series2) series2 log1 = (Ok series3, log2) ->
  exists events,
    process_directory request log =
      (Ok (finished series3),
       log2 ++ events ++ [PFinish (Some (found_message (length series3)))]) /\
    Forall (fun e => e = PWrite DicomSeries.sampling_warning \/
                     exists n, e = PSetProgress n) events.
Proof.
  intros Hpath Hex Hsort series3 Hsplit. unfold process_directory.
  rewrite Hpath. cbn [negb]. rewrite Hex, Hsort, Hsplit.
  destruct (finish_all_spec series3 0 [] log2) as (events & Hf & Hev).
  exists events. rewrite Hf. split; [|done]. by rewrite <- app_assoc.
Qed.
End FinishAll.

(** In [mismatched_rows] series S has slices of 1 x 2 and 2 x 1. *)
Lemma finish_all_drops_silently_witness :
  (DicomSeries._finish mismatched_S []).1 = Raise (ValueError DicomSeries.dimension_message) /\
  exists events,
    finish_all 0 ([] ++ mismatched_S :: [mismatched_T]) [] [] =
      (Ok ([] ++ finished [] ++ finished [mismatched_T]), [] ++ events) /\
    Forall (fun e => e = PWrite DicomSeries.sampling_warning \/
                     exists n, e = PSetProgress n) events.
Proof.
  split; [vm_compute; reflexivity|].
  apply (finish_all_drops_silently [] [mismatched_T] mismatched_S 0 [] []).
  vm_compute; reflexivity.
Defined.

(** C8 as stated fails on [mismatched_rows]: series S fails on its
    dimensions and is dropped, and the indicator is only told the counts:
    no message is written. *)
Lemma process_directory_silent_counterexample :
  exists series_ log,
    process_directory (F:=Q) mismatched_request [] = (Ok series_, log) /\
    (DicomSeries._finish mismatched_S []).1 = Raise (ValueError DicomSeries.dimension_message) /\
    (DicomSeries._suid <$> series_) = [VStr "T"] /\
    Forall (fun e => forall msg, e <> PWrite msg) log.
Proof.
  eexists _, _. split; [vm_compute; reflexivity|].
  split; [vm_compute; reflexivity|]. split; [reflexivity|].
  repeat constructor; discriminate.
Qed.

(** ** Comparing values *)

Section ValueInduction.
Context {F : Type} (P : value F -> Prop).
Hypothesis HNone : P VNone.
Hypothesis HInt : forall z, P (VInt z).
Hypothesis HFloat : forall x, P (VFloat x).
Hypothesis HStr : forall s, P (VStr s).
Hypothesis HBytes : forall b, P (VBytes b).
Hypothesis HTuple : forall l, Forall P l -> P (VTuple l).

(** Induction on values, with the items of a tuple as smaller values. *)
Lemma value_ind_nested : forall v, P v.
Proof.
fix IH 1. intros [| | | | |l].
- exact HNone.
- apply HInt.
- apply HFloat.
- apply HStr.
- apply HBytes.
- apply HTuple. induction l as [|x l IHl].
  + constructor.
  + constructor; [apply IH | exact IHl].
Qed.
End ValueInduction.

Section Compare.
Context {F : Type} `{PyFloat F}.

Lemma py_eq_tuple_cons (x y : value F) l m :
  py_eq (VTuple (x :: l)) (VTuple (y :: m)) = py_eq x y && py_eq (VTuple l) (VTuple m).
Proof. reflexivity. Qed.

Lemma py_lt_tuple_cons (x y : value F) l m :
  py_lt (VTuple (x :: l)) (VTuple (y :: m)) =
    if py_eq x y then py_lt (VTuple l) (VTuple m) else py_lt x y.
Proof. reflexivity. Qed.

Lemma py_eq_sym (a b : value F) : py_eq a b = py_eq b a.
Proof.
revert b. induction a as [|x|x|s|s|l IH] using value_ind_nested; intros [|y|y|t|t|m];
  try reflexivity.
- cbn. apply Z.eqb_sym.
- cbn. apply f_eqb_sym.
- cbn. apply f_eqb_sym.
- cbn. apply f_eqb_sym.
- cbn. apply String.eqb_sym.
- cbn. apply bool_decide_ext. split; congruence.
- revert m. induction IH as [|x l Hx _ IHl]; intros [|y m]; try reflexivity.
  rewrite !py_eq_tuple_cons. by rewrite Hx, IHl.
Qed.

Lemma string_ltb_asym s t : String.ltb s t = true -> String.ltb t s = false.
Proof.
unfold String.ltb. rewrite (String.compare_antisym s t).
by destruct (String.compare t s).
Qed.

(** [a < b] excludes [b < a]. *)
Lemma py_lt_asym (a b : value F) : py_lt a b = Ok true -> py_lt b a = Ok false.
Proof.
revert b. induction a as [|x|x|s|s|l IH] using value_ind_nested; intros [|y|y|t|t|m];
  try discriminate.
- cbn. intros [= Hlt]. f_equal. apply Z.ltb_lt in Hlt. apply Z.ltb_ge. lia.
- cbn. intros [= Hlt]. f_equal. by apply f_ltb_asym.
- cbn. intros [= Hlt]. f_equal. by apply f_ltb_asym.
- cbn. intros [= Hlt]. f_equal. by apply f_ltb_asym.
- cbn. intros [= Hlt]. f_equal. by apply string_ltb_asym.
- cbn. unfold bytes_ltb. intros [= Hlt]. f_equal. by apply string_ltb_asym.
- revert m. induction IH as [|x l Hx _ IHl]; intros [|y m]; try discriminate.
  + reflexivity.
  + rewrite !py_lt_tuple_cons, (py_eq_sym y x).
    destruct (py_eq x y); [apply IHl | apply Hx].
Qed.
End Compare.

(** ** Sorting *)

Section SortFacts.
Context {F : Type} `{PyFloat F} {A : Type}.

Implicit Types (k : value F) (a : A) (s kl : list (value F * A)).

Lemma insert_by_key_head k a s s' :
  insert_by_key k a s = Ok s' ->
  exists r, s' = (k, a) :: r \/
            exists k' a' rest, s = (k', a') :: rest /\ s' = (k', a') :: r /\
                               py_lt k' k = Ok true.
Proof.
destruct s as [|[k' a'] rest]; cbn [insert_by_key].
- intros [= <-]. eauto.
- intros Hi. apply bind_Ok in Hi as ([] & Hc & Hi).
  + apply bind_Ok in Hi as (r & _ & [= <-]). exists r. right. eauto 10.
  + injection Hi as <-. eauto.
Qed.

Lemma insert_by_key_sorted k a s s' :
  sorted_keys s -> insert_by_key k a s = Ok s' -> sorted_keys s'.
Proof.
intros Hs. revert s'. induction Hs as [|[k1 a1]|k1 a1 k2 a2 l Hlt Hs IH]; intros s';
  cbn [insert_by_key].
- intros [= <-]. constructor.
- intros Hi. apply bind_Ok in Hi as ([] & Hc & Hi).
  + injection Hi as <-. constructor; [by apply py_lt_asym|constructor].
  + injection Hi as <-. constructor; [done|constructor].
- intros Hi. apply bind_Ok in Hi as ([] & Hc & Hi).
  + apply bind_Ok in Hi as (r & Hr & [= <-]).
    pose proof (IH _ Hr) as Hsr.
    destruct (insert_by_key_head k a ((k2, a2) :: l) r Hr)
      as [r' [->|(k' & a' & rest & [= <- <- <-] & -> & _)]].
    * constructor; [by apply py_lt_asym|done].
    * by constructor.
  + injection Hi as <-. constructor; [done|]. by constructor.
Qed.

Lemma sort_keyed_sorted kl s : sort_keyed kl = Ok s -> sorted_keys s.
Proof.
revert s. induction kl as [|[k a] kl IH]; intros s; cbn [sort_keyed].
- intros [= <-]. constructor.
- intros Hs. apply bind_Ok in Hs as (s0 & Hs0 & Hi).
  eapply insert_by_key_sorted; [|exact Hi]. by apply IH.
Qed.

(** Sorting what is sorted changes nothing. *)
Lemma sort_keyed_id s : sorted_keys s -> sort_keyed s = Ok s.
Proof.
induction 1 as [|[k1 a1]|k1 a1 k2 a2 l Hlt Hs IH]; [done|done|].
change (sort_keyed ((k1, a1) :: (k2, a2) :: l))
  with (sort_keyed ((k2, a2) :: l) ≫= insert_by_key k1 a1).
rewrite IH. cbn. by rewrite Hlt.
Qed.

Lemma sorted_keys_app s1 s2 : sorted_keys (s1 ++ s2) -> sorted_keys s1 /\ sorted_keys s2.
Proof.
induction s1 as [|[k1 a1] s1 IH]; cbn.
- intros Hs. split; [constructor|done].
- intros Hs. destruct s1 as [|[k2 a2] s1]; cbn in *.
  + split; [constructor|]. inversion Hs; subst; [constructor|done].
  + inversion Hs as [| |? ? ? ? ? Hlt Hs']; subst.
    destruct (IH Hs') as [H1 H2]. split; [by constructor|done].
Qed.

Section WithKey.
Variable key : A -> result (value F).

Lemma with_keys_Ok (l : list A) kl :
  with_keys key l = Ok kl <->
  List.map snd kl = l /\ Forall (fun ka => key ka.2 = Ok ka.1) kl.
Proof.
revert kl. induction l as [|a l IH]; intros kl; cbn [with_keys].
- split.
  + intros [= <-]. by split.
  + intros [Hm _]. by destruct kl.
- split.
  + intros Hw. apply bind_Ok in Hw as (k & Hk & Hw).
    apply bind_Ok in Hw as (r & Hr & [= <-]). apply IH in Hr as [<- Hf].
    split; [done|]. by constructor.
  + intros [Hm Hf]. destruct kl as [|[k a'] kl]; [done|].
    cbn in Hm. injection Hm as -> <-. apply Forall_cons in Hf as [Hk Hf].
    cbn in Hk. rewrite Hk. cbn. rewrite (proj2 (IH kl)) by done. done.
Qed.

Lemma with_keys_app (l1 l2 : list A) kl :
  with_keys key (l1 ++ l2) = Ok kl ->
  exists kl1 kl2, kl = kl1 ++ kl2 /\ with_keys key l1 = Ok kl1 /\ with_keys key l2 = Ok kl2.
Proof.
intros Hw. apply with_keys_Ok in Hw as [Hm Hf].
exists (take (length l1) kl), (drop (length l1) kl).
split; [by rewrite take_drop|].
rewrite <- (take_drop (length l1) kl) in Hf. apply Forall_app in Hf as [Hf1 Hf2].
split; apply with_keys_Ok; (split; [|done]).
- rewrite <- firstn_map, Hm. by rewrite take_app_length.
- rewrite <- skipn_map, Hm. by rewrite drop_app_length.
Qed.

Lemma insert_by_key_Forall (P : value F * A -> Prop) k a s s' :
  P (k, a) -> Forall P s -> insert_by_key k a s = Ok s' -> Forall P s'.
Proof.
intros Hka Hs. revert s'. induction Hs as [|[k' a'] rest Hh Hs IH]; intros s';
  cbn [insert_by_key].
- intros [= <-]. by constructor.
- intros Hi. apply bind_Ok in Hi as ([] & Hc & Hi).
  + apply bind_Ok in Hi as (r & Hr & [= <-]). constructor; [done|by apply IH].
  + injection Hi as <-. by repeat constructor.
Qed.

Lemma sort_keyed_Forall (P : value F * A -> Prop) kl s :
  Forall P kl -> sort_keyed kl = Ok s -> Forall P s.
Proof.
intros Hkl. revert s. induction Hkl as [|[k a] kl Hh Hkl IH]; intros s; cbn [sort_keyed].
- intros [= <-]. constructor.
- intros Hs. apply bind_Ok in Hs as (s0 & Hs0 & Hi).
  eapply insert_by_key_Forall; [exact Hh| |exact Hi]. by apply IH.
Qed.

(** What [sort_by] returns is in order. *)
Lemma sort_by_sorted (l l' : list A) : sort_by key l = Ok l' -> key_sorted key l'.
Proof.
unfold sort_by. intros Hs.
apply bind_Ok in Hs as (kl & Hkl & Hs). apply bind_Ok in Hs as (s & Hs & [= <-]).
exists s. split; [|by eapply sort_keyed_sorted].
apply with_keys_Ok. split; [done|].
apply with_keys_Ok in Hkl as [_ Hf]. by eapply sort_keyed_Forall.
Qed.

(** Sorting a list that is in order returns it. *)
Lemma sort_by_id (l : list A) : key_sorted key l -> sort_by key l = Ok l.
Proof.
intros (kl & Hkl & Hs). unfold sort_by. rewrite Hkl. cbn.
rewrite (sort_keyed_id _ Hs). cbn. f_equal. by apply with_keys_Ok in Hkl as [-> _].
Qed.

(** A stretch of a list in order is in order. *)
Lemma key_sorted_infix (l1 l2 l3 : list A) :
  key_sorted key (l1 ++ l2 ++ l3) -> key_sorted key l2.
Proof.
intros (kl & Hkl & Hs).
apply with_keys_app in Hkl as (kl1 & kl23 & -> & _ & Hkl).
apply with_keys_app in Hkl as (kl2 & kl3 & -> & Hkl2 & _).
exists kl2. split; [done|].
apply sorted_keys_app in Hs as [_ Hs]. by apply sorted_keys_app in Hs as [Hs _].
Qed.
End WithKey.
End SortFacts.

(** ** The split loop *)

Section SplitLoop.
Context {F : Type} `{PyFloat F} `{PyRuntime}.

Local Abbreviation reader := (SimpleDicomReader F).

Implicit Types (ds : reader) (rest cur bs : list reader)
  (done : list (list reader)) (log : progress_log).

Lemma z_of_Ok ds z : DicomSeries.z_position ds = Ok z -> z_of ds = z.
Proof. unfold z_of. by intros ->. Qed.

Lemma has_zb_spec ds : has_zb ds = true <-> has_z ds.
Proof.
unfold has_zb, has_z. destruct (DicomSeries.z_position ds); split;
  try done; try (by intros [? [=]]). by eexists.
Qed.

Lemma forallb_has_zb rest : forallb has_zb rest = true -> Forall has_z rest.
Proof.
induction rest as [|ds rest IH]; cbn [forallb]; [by constructor|].
intros [Hz Hr]%andb_prop. constructor; [by apply has_zb_spec|by apply IH].
Qed.

Lemma newDist_of_Ok (ds1 ds2 : reader) d :
  newDist_of ds1 ds2 = Ok d <->
  has_z ds1 /\ has_z ds2 /\ d = f_abs (f_sub (z_of ds1) (z_of ds2)).
Proof.
unfold newDist_of. split.
- intros Hn. apply bind_Ok in Hn as (z1 & Hz1 & Hn).
  apply bind_Ok in Hn as (z2 & Hz2 & [= <-]).
  rewrite (z_of_Ok _ _ Hz1), (z_of_Ok _ _ Hz2). unfold has_z. eauto.
- intros ([z1 Hz1] & [z2 Hz2] & ->).
  rewrite (z_of_Ok _ _ Hz1), (z_of_Ok _ _ Hz2), Hz1, Hz2. done.
Qed.

Lemma append_last_snoc done cur (ds2 : reader) :
  append_last (done ++ [cur]) ds2 = done ++ [cur ++ [ds2]].
Proof.
induction done as [|b done IH]; [done|].
cbn [app append_last]. rewrite IH.
by destruct (done ++ [cur]) eqn:E; [destruct done|].
Qed.

(** The buckets do not depend on what was written before. *)
Lemma split_loop_log rest (ds1 : reader) d L2 (log1 log2 : progress_log) :
  (split_loop ds1 d L2 rest log1).1 = (split_loop ds1 d L2 rest log2).1.
Proof.
revert ds1 d L2 log1 log2. induction rest as [|ds2 rest IH]; intros; [done|].
cbn [split_loop]. destruct (newDist_of ds1 ds2) as [nd| |]; [|done..].
destruct (exceeds 2.1 d nd); apply IH.
Qed.

(** Where the loop comes to its end, every slice behind the first has a
    height, the first too unless it is alone, and the buckets are those
    the rule cuts. *)
Lemma split_loop_Ok rest (ds1 : reader) d done cur log L2 log' :
  split_loop ds1 d (done ++ [cur]) rest log = (Ok L2, log') ->
  (rest <> [] -> has_z ds1) /\ Forall has_z rest /\
  L2 = done ++ cut_at cur (zip (bucket_starts (z_of ds1) d (z_of <$> rest)) rest).
Proof.
revert ds1 d done cur log. induction rest as [|ds2 rest IH]; intros ds1 d done cur log.
- intros [= <- <-]. by repeat split.
- cbn [split_loop fmap list_fmap bucket_starts].
  destruct (newDist_of ds1 ds2) as [nd| |] eqn:Hn; [|done..].
  apply newDist_of_Ok in Hn as (Hz1 & Hz2 & ->).
  unfold exceeds at 1.
  destruct (f_truth d && f_ltb (f_mul (f_of_Q 2.1) d) _) eqn:Hc.
  + rewrite append_last_snoc. cbn [app]. intros Hs.
    apply IH in Hs as (_ & Hr & ->).
    split; [done|]. split; [by constructor|].
    cbn [zip zip_with cut_at]. by rewrite <- app_assoc.
  + rewrite append_last_snoc. intros Hs.
    apply IH in Hs as (_ & Hr & ->).
    split; [done|]. split; [by constructor|]. done.
Qed.

(** And it comes to its end where the slices have heights. *)
Lemma split_loop_total rest (ds1 : reader) d done cur log :
  (rest <> [] -> has_z ds1) -> Forall has_z rest ->
  exists log',
    split_loop ds1 d (done ++ [cur]) rest log
    = (Ok (done ++ cut_at cur (zip (bucket_starts (z_of ds1) d (z_of <$> rest)) rest)),
       log').
Proof.
intros Hz1 Hr. revert ds1 d done cur log Hz1.
induction Hr as [|ds2 rest Hz2 Hr IH]; intros ds1 d done cur log Hz1; [by eexists|].
cbn [split_loop fmap list_fmap bucket_starts].
rewrite (proj2 (newDist_of_Ok ds1 ds2 _) (conj (Hz1 ltac:(done)) (conj Hz2 eq_refl))).
unfold exceeds at 1.
destruct (f_truth d && f_ltb (f_mul (f_of_Q 2.1) d) _) eqn:Hc.
- rewrite append_last_snoc. cbn [app].
  destruct (IH ds2 (f_of_Z 0) (done ++ [cur]) [ds2] log (fun _ => Hz2)) as [log' ->].
  exists log'. cbn [zip zip_with cut_at]. by rewrite <- app_assoc.
- rewrite append_last_snoc.
  match goal with
  | |- context [split_loop ds2 ?d' _ rest ?l] =>
    destruct (IH ds2 d' done (cur ++ [ds2]) l (fun _ => Hz2)) as [log' Hs]
  end.
  exists log'. exact Hs.
Qed.
End SplitLoop.

(** ** The buckets of [cut_at] *)

Section Buckets.
Context {F : Type} `{PyFloat F}.

Lemma bucket_starts_length (prev d : F) zs : length (bucket_starts prev d zs) = length zs.
Proof.
revert prev d. induction zs as [|z zs IH]; intros; [done|].
cbn [bucket_starts]. by destruct (_ && _); cbn; rewrite IH.
Qed.

Lemma concat_cut_at {A} (cur : list A) marked :
  concat (cut_at cur marked) = cur ++ marked.*2.
Proof.
revert cur. induction marked as [|[[] a] marked IH]; intros cur; cbn [cut_at].
- cbn. by rewrite !app_nil_r.
- cbn [concat]. by rewrite IH.
- rewrite IH. by rewrite <- app_assoc.
Qed.

Lemma cut_at_unmarked {A} (cur l : list A) :
  cut_at cur (zip (replicate (length l) false) l) = [cur ++ l].
Proof.
revert cur. induction l as [|a l IH]; intros cur; cbn.
- by rewrite app_nil_r.
- rewrite IH. by rewrite <- app_assoc.
Qed.

(** Every bucket replays: walked again from its first item, with no gap
    seen yet, the rule cuts nowhere inside it. *)
Lemma cut_at_replay {A} (z : A -> F) (rest cur : list A) (prev d : F) :
  exists more tail,
    cut_at cur (zip (bucket_starts prev d (z <$> rest)) rest) = (cur ++ more) :: tail /\
    bucket_starts prev d (z <$> more) = replicate (length more) false /\
    Forall (fun B => exists b0 bs, B = b0 :: bs /\
              bucket_starts (z b0) (f_of_Z 0) (z <$> bs) = replicate (length bs) false)
           tail.
Proof.
revert cur prev d. induction rest as [|a rest IH]; intros cur prev d.
- exists [], []. cbn. by rewrite app_nil_r.
- cbn [fmap list_fmap bucket_starts].
  destruct (_ && _) eqn:Hc; cbn [zip zip_with cut_at].
  + destruct (IH [a] (z a) (f_of_Z 0)) as (more & tail & -> & Hm & Ht).
    exists [], (([a] ++ more) :: tail). rewrite app_nil_r.
    split; [done|]. split; [done|]. constructor; [|done]. by exists a, more.
  + destruct (IH (cur ++ [a]) (z a) (f_abs (f_sub prev (z a))))
      as (more & tail & -> & Hm & Ht).
    exists (a :: more), tail. rewrite <- app_assoc.
    split; [done|]. split; [|done].
    cbn [fmap list_fmap bucket_starts length replicate]. by rewrite Hc, Hm.
Qed.
End Buckets.

(** ** The split rule *)

(** C5, with the guard of the code: the loop of [splitSerieIfRequired]
    comes to its end on slices that have heights, and its buckets are those
    of the rule [bucket_starts]: a bucket starts with a slice exactly when
    [distance] is not zero and the gap to the slice before exceeds 2.1
    times [distance]; [distance] is 0 at the start and once a bucket has
    started, and the last gap otherwise.  The series with heights 0, 1, 2,
    10, 11, 12 is split into two series of three slices. *)
Theorem split_loop_buckets :
  (forall (F : Type) (HF : PyFloat F) (HR : PyRuntime)
          (ds1 : SimpleDicomReader F) (rest : list (SimpleDicomReader F))
          (log : progress_log),
      (rest <> [] -> has_z ds1) -> Forall has_z rest ->
      exists log',
        split_loop ds1 (f_of_Z 0) [[ds1]] rest log
        = (Ok (cut_at [ds1]
                 (zip (bucket_starts (z_of ds1) (f_of_Z 0) (z_of <$> rest)) rest)),
           log')) /\
  z_of <$> six_entries = [0; 1; 2; 10; 11; 12]%Q /\
  bucket_names (DicomSeries._entries <$> split_six)
  = [["a.dcm"; "b.dcm"; "c.dcm"]; ["d.dcm"; "e.dcm"; "f.dcm"]].
Proof.
split; [|split; vm_compute; reflexivity].
intros F HF HR ds1 rest log Hz1 Hr.
exact (split_loop_total rest ds1 (f_of_Z 0) [] [ds1] log Hz1 Hr).
Qed.

Lemma split_loop_buckets_witness :
  exists log',
    split_loop (hd empty_reader six_entries) (f_of_Z 0)
      [[hd empty_reader six_entries]] (tl six_entries) []
    = (Ok (cut_at [hd empty_reader six_entries]
             (zip (bucket_starts (z_of (hd empty_reader six_entries)) (f_of_Z 0)
                     (z_of <$> tl six_entries))
                  (tl six_entries))),
       log').
Proof.
refine (proj1 split_loop_buckets Q _ _ (hd empty_reader six_entries) (tl six_entries) [] _ _).
- intros _. apply has_zb_spec. vm_compute. reflexivity.
- apply forallb_has_zb. vm_compute. reflexivity.
Defined.

(** C5 as stated fails on the slices at heights 0, 0, 5: the gap seen
    before the third slice is 0 and the new gap, 5, exceeds 2.1 times 0,
    so the rule as stated starts a bucket with the third slice; the loop
    keeps the three slices in one bucket. *)
Lemma split_rule_counterexample :
  let ds1 := hd empty_reader repeated_entries in
  let rest := tl repeated_entries in
  z_of <$> repeated_entries = [0; 0; 5]%Q /\
  bucket_names (cut_at [ds1] (zip (spec_bucket_starts (z_of ds1) None (z_of <$> rest)) rest))
  = [["a.dcm"; "b.dcm"]; ["c.dcm"]] /\
  bucket_names <$> (split_loop ds1 0%Q [[ds1]] rest []).1
  = Ok [["a.dcm"; "b.dcm"; "c.dcm"]].
Proof.
intros ds1 rest. split; [|split]; vm_compute; reflexivity.
Qed.

(** ** Splitting again *)

Section Resplit.
Context {F : Type} `{PyFloat F} `{PyRuntime}.

Local Abbreviation reader := (SimpleDicomReader F).
Local Abbreviation instance_number := (fun k : reader => getattr k "InstanceNumber").

Implicit Types (rest bs B : list reader) (series : list (DicomSeries.t F))
  (log : progress_log).

Lemma set_entries_same (s : DicomSeries.t F) :
  DicomSeries.set_entries s (DicomSeries._entries s) = s.
Proof. by destruct s. Qed.

Lemma _sort_Ok (s s' : DicomSeries.t F) :
  DicomSeries._sort s = Ok s' ->
  key_sorted instance_number (DicomSeries._entries s') /\
  DicomSeries._suid s' = DicomSeries._suid s.
Proof.
unfold DicomSeries._sort. intros Hs. apply bind_Ok in Hs as (L & HL & [= <-]).
split; [|done]. by apply sort_by_sorted in HL.
Qed.

Lemma _sort_sorted (s : DicomSeries.t F) :
  key_sorted instance_number (DicomSeries._entries s) -> DicomSeries._sort s = Ok s.
Proof.
intros Hs. unfold DicomSeries._sort. rewrite (sort_by_id _ _ Hs). cbn.
by rewrite set_entries_same.
Qed.

(** A bucket of the first walk, walked again, is one bucket. *)
Lemma bucket_resplit (ds1 : reader) rest log L2 log1 B :
  key_sorted instance_number (ds1 :: rest) ->
  split_loop ds1 (f_of_Z 0) [[ds1]] rest log = (Ok L2, log1) ->
  B ∈ L2 ->
  exists b0 bs, B = b0 :: bs /\ key_sorted instance_number B /\
    forall log2, exists log2',
      split_loop b0 (f_of_Z 0) [[b0]] bs log2 = (Ok [B], log2').
Proof.
intros Hsorted Hs HB.
apply (split_loop_Ok rest ds1 _ [] [ds1]) in Hs as (Hz1 & Hzr & ->). cbn [app] in HB.
assert (exists l1 l3, ds1 :: rest = l1 ++ B ++ l3) as (l1 & l3 & Hin).
{ apply list_elem_of_split in HB as (L1 & L3 & HL).
  apply (f_equal (@concat _)) in HL. rewrite concat_cut_at, concat_app in HL.
  cbn [concat] in HL. rewrite snd_zip in HL
    by (rewrite bucket_starts_length, length_fmap; lia).
  by exists (concat L1), (concat L3). }
destruct (cut_at_replay z_of rest [ds1] (z_of ds1) (f_of_Z 0))
  as (more & tail & Hcut & Hm & Ht).
rewrite Hcut in HB.
assert (exists b0 bs, B = b0 :: bs /\
          bucket_starts (z_of b0) (f_of_Z 0) (z_of <$> bs) = replicate (length bs) false)
  as (b0 & bs & -> & Hreplay).
{ apply elem_of_cons in HB as [->|HB]; [by exists ds1, more|].
  by apply (proj1 (Forall_forall _ _) Ht) in HB. }
exists b0, bs. split; [done|].
split; [by rewrite Hin in Hsorted; apply key_sorted_infix in Hsorted|].
assert ((bs <> [] -> has_z b0) /\ Forall has_z bs) as [Hz0 Hzb].
{ destruct l1 as [|x l1]; cbn in Hin.
  - injection Hin as -> ->. apply Forall_app in Hzr as [Hzb _].
    split; [|done]. intros Hne. apply Hz1. by destruct bs.
  - injection Hin as -> ->. apply Forall_app in Hzr as [_ Hzr].
    apply Forall_cons in Hzr as [Hz0 Hzr]. apply Forall_app in Hzr as [Hzb _].
    by split. }
intros log2.
destruct (split_loop_total bs b0 (f_of_Z 0) [] [b0] log2 Hz0 Hzb) as [log2' Hs].
cbn [app] in Hs. exists log2'. by rewrite Hs, Hreplay, cut_at_unmarked.
Qed.

(** A serie whose slices are in order and make one bucket is left as it
    is, and so is the list. *)
Lemma resplit_serie series j (s : DicomSeries.t F) (b0 : reader) bs :
  series !! j = Some s ->
  DicomSeries._entries s = b0 :: bs ->
  key_sorted instance_number (b0 :: bs) ->
  (contains b0 "ImagePositionPatient" = true ->
   forall log, exists log', split_loop b0 (f_of_Z 0) [[b0]] bs log = (Ok [b0 :: bs], log')) ->
  forall log, exists log', splitSerieIfRequired j series log = (Ok series, log').
Proof.
intros Hj He Hsorted Hloop log. unfold splitSerieIfRequired.
rewrite Hj, _sort_sorted by by rewrite He.
rewrite (list_insert_id _ _ _ Hj), He.
destruct (contains b0 "ImagePositionPatient") eqn:Hc; cbn [negb]; [|by eexists].
destruct (Hloop eq_refl log) as [log' ->]. cbn [length].
rewrite decide_False by lia. by eexists.
Qed.
End Resplit.

Section Idempotent.
Context {F : Type} `{PyFloat F} `{PyRuntime}.

Local Abbreviation reader := (SimpleDicomReader F).

(** C9: the split is idempotent.  Where [splitSerieIfRequired] has treated
    the serie at position [i] of the list, the serie or the buckets that
    stand in its place are at the positions [j] from [i] on, one for each;
    [splitSerieIfRequired] applied to any of them returns and leaves the
    list, and so every bucket, as it is. *)
Theorem split_idempotent (i : nat) (series series' : list (DicomSeries.t F))
    (log log' : progress_log) :
  splitSerieIfRequired i series log = (Ok series', log') ->
  forall j, (i <= j < i + (1 + (length series' - length series)))%nat ->
  forall log2, exists log2', splitSerieIfRequired j series' log2 = (Ok series', log2').
Proof.
unfold splitSerieIfRequired at 1.
destruct (series !! i) as [serie|] eqn:Hi; [|done].
pose proof (lookup_lt_Some _ _ _ Hi) as Hlt.
destruct (DicomSeries._sort serie) as [sorted| |] eqn:Hsort; [|done..].
apply _sort_Ok in Hsort as [Hsorted Hsuid].
destruct (DicomSeries._entries sorted) as [|ds1 rest] eqn:He; [done|].
assert (<[i:=sorted]> series !! i = Some sorted) as Hi'
  by by apply list_lookup_insert_eq.
destruct (contains ds1 "ImagePositionPatient") eqn:Hc; cbn [negb].
2:{ intros [= <- <-] j Hj. rewrite length_insert in Hj.
    replace j with i by lia.
    apply (resplit_serie _ i sorted ds1 rest Hi' He Hsorted). by rewrite Hc. }
destruct (split_loop ds1 (f_of_Z 0) [[ds1]] rest log) as [[L2| |] log1] eqn:Hs; [|done..].
pose proof (fun B => bucket_resplit ds1 rest log L2 log1 B Hsorted Hs) as Hbucket.
destruct (decide (1 < length L2)%nat) as [Hlen|Hlen].
- intros [= <- <-] j Hj.
  rewrite !length_app, length_take, length_drop, length_fmap, length_insert in Hj.
  assert (exists B, L2 !! (j - i)%nat = Some B) as [B HB]
    by (apply lookup_lt_is_Some; lia).
  destruct (Hbucket B) as (b0 & bs & -> & HsB & Hloop);
    [by eapply list_elem_of_lookup_2|].
  apply (resplit_serie _ j
           (DicomSeries.set_entries (DicomSeries.new (DicomSeries._suid sorted)) (b0 :: bs))
           b0 bs); [|done|done|by intros _].
  rewrite lookup_app_r by (rewrite length_take, length_insert; lia).
  rewrite length_take, length_insert, Nat.min_l by lia.
  rewrite lookup_app_l by (rewrite length_fmap; lia).
  by rewrite list_lookup_fmap, HB.
- intros [= <- <-] j Hj. rewrite length_insert in Hj.
  replace j with i by lia.
  apply (resplit_serie _ i sorted ds1 rest Hi' He Hsorted). intros _ log2.
  pose proof (split_loop_Ok rest ds1 _ [] [ds1] _ _ _ Hs) as (_ & _ & HL2).
  destruct (cut_at_replay z_of rest [ds1] (z_of ds1) (f_of_Z 0))
    as (more & tail & Hcut & _). cbn [app] in HL2, Hcut.
  destruct (Hbucket (ds1 :: more)) as (b0 & bs & [= <- <-] & _ & Hloop);
    [rewrite HL2, Hcut; apply list_elem_of_here|].
  assert (more = rest) as ->.
  { rewrite HL2 in Hlen. rewrite Hcut in HL2, Hlen. destruct tail; [|cbn in Hlen; lia].
    apply (f_equal (@concat _)) in Hcut. rewrite concat_cut_at in Hcut.
    rewrite snd_zip in Hcut by (rewrite bucket_starts_length, length_fmap; lia).
    cbn in Hcut. rewrite app_nil_r in Hcut. by injection Hcut. }
  apply Hloop.
Qed.
End Idempotent.

Lemma split_idempotent_witness :
  length split_six = 2%nat /\
  exists log2', splitSerieIfRequired 1 split_six [] = (Ok split_six, log2').
Proof.
split; [vm_compute; reflexivity|].
refine (split_idempotent (F:=Q) 0 six_series split_six [] [] _ 1%nat _ []).
- vm_compute. reflexivity.
- vm_compute. lia.
Defined.

(** ** The reader on a file of several frames *)

Section MultiImage.
Context {F : Type} `{PyFloat F} `{PyRuntime} {ndarray : Type} `{NumPy F ndarray}.

(** With MULTI_IMAGE expected and data loaded, the length is the number of
    slices of the loaded volume when there are several. *)
Lemma _get_length_multi_image (self : Reader.t F ndarray) (data : ndarray) :
  Reader._data self = Some data ->
  expect (Reader.request self) = EXPECT_MIM ->
  (1 < Reader.nslices_of data)%nat ->
  Reader._get_length self = (Ok (Reader.nslices_of data), self).
Proof.
intros Hd He Hn. unfold Reader._get_length, Reader.ensure_data.
rewrite Hd, He. by rewrite decide_True.
Qed.

(** An index other than 0 is looked up in the files of the directory,
    however many slices the loaded volume has. *)
Lemma _get_data_multi_image_beyond (self : Reader.t F ndarray) (data : ndarray)
    (index : Z) :
  Reader._data self = Some data ->
  expect (Reader.request self) = EXPECT_MIM ->
  index <> 0 ->
  Reader._get_data self index
  = match Reader.series self with
    | (Ok s, self) =>
      (dcm ← py_list_get (Reader.flatten s) index;
       '(a, dcm) ← get_numpy_array dcm;
       Ok (a, dcm_info F dcm),
       self)
    | (Raise e, self) => (Raise e, self)
    | (OutOfFuel, self) => (OutOfFuel, self)
    end.
Proof.
intros Hd He Hi. unfold Reader._get_data, Reader.ensure_data.
rewrite Hd, He. by rewrite bool_decide_false.
Qed.
End MultiImage.

(** C6, evaluated: [three_frames] holds three slices of 1 x 2 and lies in
    a directory with one more file.  With MULTI_IMAGE expected, the length
    is 3 and index 0 gives the first slice of the volume, but index 1 gives
    the pixels of the second file of the directory, not the second slice
    (20, 21), and index 2 raises IndexError.  With a single image expected,
    index 1 gives the second slice. *)
Theorem multi_image_beyond_first_index :
  let self := frames_reader EXPECT_MIM in
  Reader._open (frames_request EXPECT_MIM) ProgressNone = Ok self /\
  (fun data => (za_shape data, za_items data)) <$> Reader._data self
  = Some ([3; 1; 2]%nat, [10; 11; 20; 21; 30; 31]) /\
  (Reader._get_length self).1 = Ok 3%nat /\
  pixels_of (Reader._get_data self 0).1 = Ok ([1; 2]%nat, [10; 11]) /\
  pixels_of (Reader._get_data self 1).1 = Ok ([1; 2]%nat, [2; 3]) /\
  pixels_of (Reader._get_data self 2).1 = Raise IndexError /\
  pixels_of (Reader._get_data (frames_reader EXPECT_IM) 1).1 = Ok ([1; 2]%nat, [20; 21]).
Proof.
intros self. repeat (apply conj; [vm_compute; reflexivity|]). vm_compute. reflexivity.
Qed.

(** * Further properties of the reader

    ** The undefined-length scan, in full *)

Lemma find_drop needle hay j :
  find needle (drop j hay) =
    match find needle hay with
    | Some i => if decide (j <= i)%nat then Some (i - j)%nat else find needle (drop j hay)
    | None => None
    end.
Proof.
destruct (find needle hay) as [i|] eqn:Hf.
- destruct (decide (j <= i)%nat) as [Hj|]; [|done].
  apply find_Some in Hf as [Hi Hbefore]. apply find_Some. rewrite drop_drop. split.
  + by replace (j + (i - j))%nat with i by lia.
  + intros k Hk. rewrite drop_drop. apply Hbefore. lia.
- apply find_None. intros k. rewrite drop_drop.
  by apply (proj1 (find_None needle hay)).
Qed.

Lemma find_take needle hay n :
  find needle (take n hay) =
    match find needle hay with
    | Some i => if decide (i + length needle <= n)%nat then Some i
                else find needle (take n hay)
    | None => None
    end.
Proof.
destruct (find needle hay) as [i|] eqn:Hf.
- destruct (decide (i + length needle <= n)%nat) as [Hn|]; [|done].
  apply find_Some in Hf as [Hi Hbefore]. apply find_Some. split.
  + rewrite skipn_firstn_comm. apply starts_with_take. split; [lia|done].
  + intros k Hk. rewrite skipn_firstn_comm.
    destruct (starts_with needle (take (n - k) (drop k hay))) eqn:E; [|done].
    apply starts_with_take in E as [_ E]. by rewrite Hbefore in E.
- apply find_None. intros k. rewrite skipn_firstn_comm.
  destruct (starts_with needle (take (n - k) (drop k hay))) eqn:E; [|done].
  apply starts_with_take in E as [_ E].
  by rewrite (proj1 (find_None needle hay) Hf) in E.
Qed.

(** A needle found beyond the window is not found inside it. *)
Lemma find_take_beyond needle hay n i :
  find needle hay = Some i -> (n < i + length needle)%nat ->
  find needle (take n hay) = None.
Proof.
intros Hf Hn. apply find_Some in Hf as [Hi Hbefore].
apply find_None. intros k. rewrite skipn_firstn_comm.
destruct (starts_with needle (take (n - k) (drop k hay))) eqn:E; [|done].
apply starts_with_take in E as [Hlen E].
destruct (decide (k < i)%nat) as [Hk|Hk]; [by rewrite Hbefore in E|].
destruct needle as [|x needle]; [|cbn [length] in *; lia].
destruct i; [cbn in Hn; lia|]. by specialize (Hbefore 0%nat ltac:(lia)).
Qed.

Lemma scan_loop_find fuel little chunks c p :
  (length c - p < fuel)%nat ->
  scan_loop fuel little 128 chunks (File c p) =
    match find (bytes_to_find little) (drop p c) with
    | Some i =>
      if decide (125 * (i / 125) + 128 <= length c - p)%nat then
        let after := take 4 (drop (p + i + 4) c) in
        Ok (concat chunks ++ take i (drop p c),
            File c (p + i + 4 + length after),
            if decide (after = zero4) then [] else [delimiter_warning])
      else Raise EOFError
    | None => Raise EOFError
    end.
Proof.
revert chunks p. induction fuel as [|fuel IH]; intros chunks p Hfuel; [lia|].
rewrite scan_loop_step. cbn zeta.
rewrite length_take, length_drop.
destruct (decide (128 `min` (length c - p) < 128)%nat) as [Hshort|Hfull].
- destruct (find _ (drop p c)) as [i|]; [|done].
  destruct (decide (_ <= _)%nat); [lia|done].
- pose proof (bytes_to_find_length little) as Hneedle.
  destruct (find (bytes_to_find little) (drop p c)) as [i|] eqn:Hf.
  + destruct (decide (i + 4 <= 128)%nat) as [Hin|Hout].
    * rewrite find_take, Hf, Hneedle, decide_True by done.
      rewrite Nat.div_small by lia.
      destruct (decide (_ <= _)%nat); [|lia].
      rewrite concat_app, take_take, Nat.min_l by lia. cbn [concat]. by rewrite app_nil_r.
    * rewrite (find_take_beyond _ _ _ i Hf) by (rewrite Hneedle; lia).
      rewrite IH by lia. rewrite <- (drop_drop c 125 p), find_drop, Hf.
      rewrite decide_True by lia.
      replace (i / 125)%nat with ((i - 125) / 125 + 1)%nat.
      2:{ rewrite <- (Nat.div_add _ 1 125) by lia. f_equal. lia. }
      replace (p + 125 + (i - 125) + 4)%nat with (p + i + 4)%nat by lia.
      destruct (decide (125 * ((i - 125) / 125) + 128 <= length c - (p + 125))%nat);
        (destruct (decide (_ <= _)%nat); [|]; try lia); [|done].
      rewrite concat_app. cbn [concat]. rewrite app_nil_r, <- app_assoc.
      rewrite take_take, Nat.min_l by lia.
      rewrite (drop_drop c 125 p), <- (drop_drop c 125 p), take_take_drop.
      by replace (125 + (i - 125))%nat with i by lia.
  + rewrite find_take, Hf. rewrite IH by lia.
    by rewrite <- (drop_drop c 125 p), find_drop, Hf.
Qed.

(** X1: the scan for the sequence delimiter, whatever the stream holds.
    With [i] the offset of the first occurrence of the delimiter behind the
    cursor, the scan returns the [i] bytes before it, leaves the cursor
    behind the four bytes that follow the delimiter, and prints a warning
    when those are not four zero bytes; this provided the window of 128
    bytes that starts [125 * (i / 125)] bytes behind the cursor lies within
    the stream.  Where it does not, and where the delimiter does not occur,
    the scan raises EOFError. *)
Theorem read_undefined_length_value_first_occurrence (little : bool) (fp : file) :
  _read_undefined_length_value little fp =
    match find (bytes_to_find little) (drop (pos fp) (content fp)) with
    | Some i =>
      if decide (125 * (i / 125) + 128 <= length (content fp) - pos fp)%nat then
        let after := take 4 (drop (pos fp + i + 4) (content fp)) in
        Ok (take i (drop (pos fp) (content fp)),
            File (content fp) (pos fp + i + 4 + length after),
            if decide (after = zero4) then [] else [delimiter_warning])
      else Raise EOFError
    | None => Raise EOFError
    end.
Proof.
destruct fp as [c p]. unfold _read_undefined_length_value. cbn [content pos].
rewrite scan_loop_find by lia. done.
Qed.

(** ** Elements, written and read back *)

Lemma unpack_pack_H_any little v :
  0 <= v < 65536 -> struct_unpack little fmt_H (pack_H little v) = Ok v.
Proof.
intros Hv. destruct little; [by apply unpack_pack_H|].
rewrite <- (unpack_pack_H v Hv). by unfold struct_unpack, pack_H.
Qed.

Lemma unpack_pack_I_any little v :
  0 <= v < 2 ^ 32 -> struct_unpack little fmt_I (pack_I little v) = Ok v.
Proof.
intros Hv. destruct little; [by apply unpack_pack_I|].
rewrite <- (unpack_pack_I v Hv). unfold struct_unpack, pack_I.
rewrite !pack_I_length || idtac. cbn zeta. by rewrite length_reverse, reverse_involutive.
Qed.

Lemma read_behind pre x rest n :
  n = length x -> read n (behind pre (x ++ rest)) = (x, behind (pre ++ x) rest).
Proof. apply read_at. Qed.

Lemma read_unpack_H_behind little pre v rest :
  0 <= v < 65536 ->
  read_unpack little fmt_H (behind pre (pack_H little v ++ rest)) =
    Ok (v, behind (pre ++ pack_H little v) rest).
Proof.
intros Hv. unfold read_unpack. rewrite read_behind by by rewrite pack_H_length.
by rewrite unpack_pack_H_any.
Qed.

Lemma read_unpack_I_behind little pre v rest :
  0 <= v < 2 ^ 32 ->
  read_unpack little fmt_I (behind pre (pack_I little v ++ rest)) =
    Ok (v, behind (pre ++ pack_I little v) rest).
Proof.
intros Hv. unfold read_unpack. rewrite read_behind by by rewrite pack_I_length.
by rewrite unpack_pack_I_any.
Qed.

Lemma seek_behind pre x rest :
  seek (tell (behind pre (x ++ rest)) + length x) (behind pre (x ++ rest))
  = behind (pre ++ x) rest.
Proof. unfold seek, tell, behind. cbn. by rewrite length_app, <- app_assoc. Qed.

Lemma encode_explicit_length little group element vr value :
  String.length vr = 2%nat ->
  length (encode_explicit little group element vr value)
  = ((if is_long_VR vr then 12 else 8) + length value)%nat.
Proof.
intros Hvr. unfold encode_explicit. cbn zeta.
change (bool_decide (list_byte_of_string vr ∈ list_byte_of_string <$> ["OB"; "OW"; "SQ"; "UN"]))
  with (is_long_VR vr).
rewrite !length_app, !pack_H_length, list_byte_of_string_length, Hvr.
destruct (is_long_VR vr); rewrite ?length_app, ?pack_I_length, ?pack_H_length; cbn; lia.
Qed.

Section Elements.
Context {F : Type} `{PyFloat F} `{PyRuntime}.

(** An element in explicit VR, read back. *)
Lemma explicit_element_decoded (self : SimpleDicomReader F)
    (pre : bytes) (group element : Z) (vr : string) (value rest : bytes) :
  0 <= group < 65536 -> 0 <= element < 65536 -> String.length vr = 2%nat ->
  Z.of_nat (length value) < (if is_long_VR vr then 0xFFFFFFFF else 65536) ->
  is_implicit_VR self = false ->
  let e := encode_explicit (_unpackPrefix self) group element vr value in
  _file self = Some (behind pre (e ++ rest)) ->
  _readDataElement self =
    if (group =? 0x7FE0) && (element =? 0x0010) then
      Ok (group, element, deferred,
          set_file
            (set_pixel_data_loc self
               (Some ((length pre + length e - length value)%nat,
                      Z.of_nat (length value))))
            (Some (behind (pre ++ e) rest)))
    else Ok (group, element, value, set_file self (Some (behind (pre ++ e) rest))).
Proof.
intros Hg Hel Hvr Hlen Hi e Hf.
unfold _readDataElement, the_file. rewrite Hf, Hi. cbn [mbind result_bind].
unfold e, encode_explicit. cbn zeta. rewrite <- !app_assoc.
set (little := _unpackPrefix self).
set (vrb := list_byte_of_string vr).
assert (length vrb = 2%nat) as Hvrb by (unfold vrb; by rewrite list_byte_of_string_length).
rewrite read_unpack_H_behind by lia. cbn [mbind result_bind].
rewrite read_unpack_H_behind by lia. cbn [mbind result_bind].
rewrite read_behind by done.
change (bool_decide (vrb ∈ list_byte_of_string <$> ["OB"; "OW"; "SQ"; "UN"]))
  with (is_long_VR vr).
change (bool_decide (vrb ∈ long_VRs)) with (is_long_VR vr).
destruct (is_long_VR vr).
- rewrite <- (app_assoc [x00; x00]). rewrite (read_behind _ [x00; x00]) by done.
  rewrite read_unpack_I_behind by lia. cbn [mbind result_bind].
  destruct ((group =? 32736) && (element =? 16)).
  + rewrite Nat2Z.id, seek_behind. do 4 f_equal; [|by rewrite <- !app_assoc].
    do 3 f_equal. unfold tell, behind. cbn [pos].
    rewrite !length_app, !pack_H_length, pack_I_length, Hvrb. cbn. lia.
  + rewrite (proj2 (Z.eqb_neq _ _)) by lia.
    rewrite Nat2Z.id, read_behind by done. by rewrite <- !app_assoc.
- rewrite read_unpack_H_behind by lia. cbn [mbind result_bind].
  destruct ((group =? 32736) && (element =? 16)).
  + rewrite Nat2Z.id, seek_behind. do 4 f_equal; [|by rewrite <- !app_assoc].
    do 3 f_equal. unfold tell, behind. cbn [pos].
    rewrite !length_app, !pack_H_length, Hvrb. cbn. lia.
  + rewrite (proj2 (Z.eqb_neq _ _)) by lia.
    rewrite Nat2Z.id, read_behind by done. by rewrite <- !app_assoc.
Qed.

(** X2: an element written in explicit VR, in the byte order the reader
    is in, is read back as it was written: [_readDataElement] returns the
    group, the element and the value, and leaves the cursor behind the
    element.  The one exception is made by the code: for the pixel data
    tag (7FE0, 0010) the value is not read; the placeholder is returned,
    the offset and the length of the value are kept, and the cursor is
    moved behind the value all the same.  The element takes 8 bytes and
    its value, or 12 where the VR has the long form of the length. *)
Theorem explicit_element_round_trip (self : SimpleDicomReader F)
    (pre : bytes) (group element : Z) (vr : string) (value rest : bytes) :
  0 <= group < 65536 -> 0 <= element < 65536 -> String.length vr = 2%nat ->
  Z.of_nat (length value) < (if is_long_VR vr then 0xFFFFFFFF else 65536) ->
  is_implicit_VR self = false ->
  let e := encode_explicit (_unpackPrefix self) group element vr value in
  _file self = Some (behind pre (e ++ rest)) ->
  (_readDataElement self =
    if (group =? 0x7FE0) && (element =? 0x0010) then
      Ok (group, element, deferred,
          set_file
            (set_pixel_data_loc self
               (Some ((length pre + length e - length value)%nat,
                      Z.of_nat (length value))))
            (Some (behind (pre ++ e) rest)))
    else Ok (group, element, value, set_file self (Some (behind (pre ++ e) rest))))
  /\ length e = ((if is_long_VR vr then 12 else 8) + length value)%nat.
Proof.
intros Hg Hel Hvr Hlen Hi e Hf. split.
- by apply explicit_element_decoded.
- by apply encode_explicit_length.
Qed.

(** An element in implicit VR, read back. *)
Lemma implicit_element_decoded (self : SimpleDicomReader F)
    (pre : bytes) (group element : Z) (value rest : bytes) :
  0 <= group < 65536 -> 0 <= element < 65536 ->
  Z.of_nat (length value) < 0xFFFFFFFF ->
  is_implicit_VR self = true ->
  let e := encode_implicit (_unpackPrefix self) group element value in
  _file self = Some (behind pre (e ++ rest)) ->
  _readDataElement self =
    if (group =? 0x7FE0) && (element =? 0x0010) then
      Ok (group, element, deferred,
          set_file
            (set_pixel_data_loc self
               (Some ((length pre + 8)%nat, Z.of_nat (length value))))
            (Some (behind (pre ++ e) rest)))
    else Ok (group, element, value, set_file self (Some (behind (pre ++ e) rest))).
Proof.
intros Hg Hel Hlen Hi e Hf.
unfold _readDataElement, the_file. rewrite Hf, Hi. cbn [mbind result_bind].
unfold e, encode_implicit. rewrite <- !app_assoc.
set (little := _unpackPrefix self).
rewrite read_unpack_H_behind by lia. cbn [mbind result_bind].
rewrite read_unpack_H_behind by lia. cbn [mbind result_bind].
rewrite read_unpack_I_behind by lia. cbn [mbind result_bind].
destruct ((group =? 32736) && (element =? 16)).
- rewrite Nat2Z.id, seek_behind. do 4 f_equal; [|by rewrite <- !app_assoc].
  do 3 f_equal. unfold tell, behind. cbn [pos].
  rewrite !length_app, !pack_H_length, pack_I_length. lia.
- rewrite (proj2 (Z.eqb_neq _ _)) by lia.
  rewrite Nat2Z.id, read_behind by done. by rewrite <- !app_assoc.
Qed.

(** X3: the same in implicit VR, where the tag is followed by a 32-bit
    length: an element of defined length is read back as it was written,
    the pixel data element is passed over and its place is kept.  The
    element takes 8 bytes and its value. *)
Theorem implicit_element_round_trip (self : SimpleDicomReader F)
    (pre : bytes) (group element : Z) (value rest : bytes) :
  0 <= group < 65536 -> 0 <= element < 65536 ->
  Z.of_nat (length value) < 0xFFFFFFFF ->
  is_implicit_VR self = true ->
  let e := encode_implicit (_unpackPrefix self) group element value in
  _file self = Some (behind pre (e ++ rest)) ->
  (_readDataElement self =
    if (group =? 0x7FE0) && (element =? 0x0010) then
      Ok (group, element, deferred,
          set_file
            (set_pixel_data_loc self
               (Some ((length pre + 8)%nat, Z.of_nat (length value))))
            (Some (behind (pre ++ e) rest)))
    else Ok (group, element, value, set_file self (Some (behind (pre ++ e) rest))))
  /\ length e = (8 + length value)%nat.
Proof.
intros Hg Hel Hlen Hi e Hf. split.
- by apply implicit_element_decoded.
- unfold e, encode_implicit. rewrite !length_app, !pack_H_length, pack_I_length. lia.
Qed.
End Elements.

Lemma explicit_element_round_trip_witness :
  _readDataElement
    (reader_on false false
       (behind [x01] (encode_explicit false 0x0028 0x0010 "US" [x02; x00] ++ [x03])))
  = Ok (0x0028, 0x0010, [x02; x00],
        set_file
          (reader_on false false
             (behind [x01] (encode_explicit false 0x0028 0x0010 "US" [x02; x00] ++ [x03])))
          (Some (behind ([x01] ++ encode_explicit false 0x0028 0x0010 "US" [x02; x00])
                   [x03]))).
Proof.
refine (proj1 (explicit_element_round_trip
          (reader_on false false
             (behind [x01] (encode_explicit false 0x0028 0x0010 "US" [x02; x00] ++ [x03])))
          [x01] 0x0028 0x0010 "US" [x02; x00] [x03] _ _ _ _ _ _)).
- lia.
- lia.
- reflexivity.
- vm_compute. reflexivity.
- reflexivity.
- reflexivity.
Defined.

Lemma implicit_element_round_trip_witness :
  _readDataElement
    (reader_on true true
       (behind [] (encode_implicit true 0x7FE0 0x0010 [x0a; x0b; x0c] ++ [])))
  = Ok (0x7FE0, 0x0010, deferred,
        set_file
          (set_pixel_data_loc
             (reader_on true true
                (behind [] (encode_implicit true 0x7FE0 0x0010 [x0a; x0b; x0c] ++ [])))
             (Some (8%nat, 3)))
          (Some (behind ([] ++ encode_implicit true 0x7FE0 0x0010 [x0a; x0b; x0c]) []))).
Proof.
refine (proj1 (implicit_element_round_trip
          (reader_on true true
             (behind [] (encode_implicit true 0x7FE0 0x0010 [x0a; x0b; x0c] ++ [])))
          [] 0x7FE0 0x0010 [x0a; x0b; x0c] [] _ _ _ _ _)).
- lia.
- lia.
- vm_compute. reflexivity.
- reflexivity.
- reflexivity.
Defined.

(** ** Which exception rejects a file

    [NotADicomFile] is what the directory scan skips without a word, so it
    matters that nothing but the test of the magic raises it. *)

Lemma bind_never {A B} (e : exn) (m : result A) (f : A -> result B) :
  m <> Raise e -> (forall a, m = Ok a -> f a <> Raise e) -> m ≫= f <> Raise e.
Proof.
destruct m as [a|e'|]; cbn; [eauto| |done].
intros Hm _ [= ->]. by apply Hm.
Qed.

Lemma fmap_never {A B} (e : exn) (m : result A) (f : A -> B) :
  m <> Raise e -> f <$> m <> Raise e.
Proof. destruct m; cbn; congruence. Qed.

Lemma scan_never little fp e :
  e <> EOFError -> _read_undefined_length_value little fp <> Raise e.
Proof.
intros He. destruct fp as [c p]. unfold _read_undefined_length_value.
rewrite scan_loop_find by (cbn; lia).
destruct (find _ _); [destruct (decide _)|]; congruence.
Qed.

Lemma read_unpack_never little c f e :
  e <> StructError -> read_unpack little c f <> Raise e.
Proof.
intros He. unfold read_unpack. destruct (read _ f) as [b f'].
unfold struct_unpack. destruct (decide _); cbn; congruence.
Qed.

Lemma decode_ascii_never b e : e <> UnicodeDecodeError -> decode_ascii b <> Raise e.
Proof. unfold decode_ascii. destruct (forallb _ _); congruence. Qed.

Section NotDicom.
Context {F : Type} `{PyFloat F} `{PyRuntime}.

Implicit Types (self : SimpleDicomReader F).

Lemma the_file_never self : the_file self <> Raise NotADicomFile.
Proof. unfold the_file. by destruct (_file self). Qed.

Lemma _readDataElement_never self : _readDataElement self <> Raise NotADicomFile.
Proof.
unfold _readDataElement.
apply bind_never; [apply the_file_never|]. intros f _.
apply bind_never; [by apply read_unpack_never|]. intros [group f1] _.
apply bind_never; [by apply read_unpack_never|]. intros [element f2] _.
apply bind_never.
- destruct (is_implicit_VR self); [by apply read_unpack_never|].
  destruct (read 2 f2) as [vr f3]. destruct (bool_decide _).
  + destruct (read 2 f3). by apply read_unpack_never.
  + by apply read_unpack_never.
- intros [vl f3] _. destruct (_ && _); [done|]. destruct (vl =? _).
  + apply bind_never; [by apply scan_never|]. by intros [[? ?] ?] _.
  + by destruct (read _ f3).
Qed.

Lemma header_loop_never fuel self uid : header_loop fuel self uid <> Raise NotADicomFile.
Proof.
revert self uid. induction fuel as [|fuel IH]; intros self uid; [done|].
cbn [header_loop]. apply bind_never; [apply the_file_never|]. intros f _.
apply bind_never; [apply _readDataElement_never|].
intros [[[group element] value] self'] _. destruct (group =? 2).
- apply bind_never; [|intros; apply IH].
  destruct (_ && _); [|done]. by apply fmap_never, decode_ascii_never.
- apply bind_never; [apply the_file_never|done].
Qed.

Lemma converter_never self vr x : converter self vr x <> Raise NotADicomFile.
Proof.
assert (forall c, VInt (F:=F) <$> struct_unpack (_unpackPrefix self) c x
                  <> Raise NotADicomFile) as Hu.
{ intros c. apply fmap_never. unfold struct_unpack. by destruct (decide _). }
assert (forall t, _splitValues (F:=F) x t backslash <> Raise NotADicomFile) as Hs.
{ intros t. unfold _splitValues. apply bind_never; [|done].
  by apply fmap_never, decode_ascii_never. }
assert (forall g : string -> value F, g <$> decode_ascii x <> Raise NotADicomFile) as Ha.
{ intros g. by apply fmap_never, decode_ascii_never. }
assert (forall g : string -> value F, g <$> decode_utf8 x <> Raise NotADicomFile) as Hd.
{ intros g. apply fmap_never. unfold decode_utf8. by destruct (utf8_decode x). }
unfold converter.
repeat match goal with
       | |- match ?s with EmptyString => _ | String _ _ => _ end <> _ => destruct s
       | |- match ?a with Ascii _ _ _ _ _ _ _ _ => _ end <> _ => destruct a
       | |- (if ?b then _ else _) <> _ => destruct b
       end; try done; first [apply Hu | apply Hs | apply Ha | apply Hd].
Qed.

Lemma data_elements_loop_never fuel self :
  data_elements_loop fuel self <> Raise NotADicomFile.
Proof.
revert self. induction fuel as [|fuel IH]; intros self; [done|].
cbn [data_elements_loop].
pose proof (_readDataElement_never self) as Hr.
destruct (_readDataElement self) as [[[[group element] value] self']|e|];
  [|by destruct e|done].
destruct (bool_decide _); [|apply IH].
destruct (MINIDICT !! _) as [[name vr]|]; [|apply IH].
pose proof (converter_never self' vr value) as Hc.
destruct (converter self' vr value) as [v|e|]; [apply IH|by destruct e|done].
Qed.

Lemma getattr_never self key : getattr self key <> Raise NotADicomFile.
Proof. unfold getattr. by destruct (_ !! _). Qed.

Lemma py_gt_int_never (v : value F) z : py_gt v (VInt z) <> Raise NotADicomFile.
Proof. by destruct v. Qed.

Lemma py_getitem_never (v : value F) i : py_getitem v i <> Raise NotADicomFile.
Proof.
destruct v; cbn; try done.
- by destruct (String.get _ _).
- by destruct (_ !! _).
- by destruct (_ !! _).
Qed.

Lemma py_float_never (v : value F) : py_float v <> Raise NotADicomFile.
Proof. destruct v; cbn; try done. by destruct (f_of_string _). Qed.

Lemma py_abs_never (v : value F) : py_abs v <> Raise NotADicomFile.
Proof. by destruct v. Qed.

Lemma _get_shape_and_sampling_never self :
  _get_shape_and_sampling self <> Raise NotADicomFile.
Proof.
unfold _get_shape_and_sampling.
repeat first
  [ done
  | apply getattr_never | apply py_gt_int_never | apply py_getitem_never
  | apply py_float_never | apply py_abs_never
  | apply bind_never; [|intros ? _]
  | match goal with |- (if ?b then _ else _) <> _ => destruct b end ].
Qed.

Lemma _read_header_never self : _read_header self <> Raise NotADicomFile.
Proof.
unfold _read_header. apply bind_never; [apply the_file_never|]. intros f _.
apply bind_never.
- pose proof (header_loop_never (S (length (content f))) self None) as Hl.
  destruct (header_loop _ _ _) as [|e|]; [done|by destruct e|done].
- intros [uid self'] _. apply bind_never; [|by intros [[? ?] ?] _].
  unfold handle_transfer_syntax. destruct uid as [uid|]; [|done].
  repeat (destruct (decide _); [try done|]); [|done].
  apply bind_never; [|done]. unfold _inflate.
  apply bind_never; [apply the_file_never|]. intros f' _.
  cbn. by destruct (zlib_decompress_raw _).
Qed.

Lemma _read_magic (from_path : bool) self f :
  _file self = Some f ->
  _read from_path self = Raise NotADicomFile <-> take 4 (drop 128 (content f)) <> DICM.
Proof.
intros Hf. unfold _read, the_file. rewrite Hf. cbn [mbind result_bind].
unfold read, seek. cbn [content pos].
destruct (decide (take 4 (drop 128 (content f)) ≠ DICM)) as [Hm|Hm]; [done|].
split; [|done]. intros Hr. exfalso. revert Hr.
apply bind_never; [apply _read_header_never|]. intros ? _.
apply bind_never.
{ unfold _read_data_elements. apply bind_never; [apply the_file_never|].
  intros; apply data_elements_loop_never. }
intros ? _. apply bind_never; [apply _get_shape_and_sampling_never|done].
Qed.

(** X4: a file is refused with [NotADicomFile] exactly when the four
    bytes behind the 128 bytes of preamble are not "DICM" (a shorter file
    included); no later step of the reading raises this exception.  The
    format's [_can_read], which looks at the first bytes of the file,
    gives the same verdict. *)
Theorem not_a_dicom_file_iff (src : source) (request : Request) (n : nat) :
  (132 <= n)%nat ->
  firstbytes request = take n (source_bytes src) ->
  (new_SimpleDicomReader (F:=F) src = Raise NotADicomFile
   <-> take 4 (drop 128 (source_bytes src)) <> DICM) /\
  (_can_read request = false
   <-> new_SimpleDicomReader (F:=F) src = Raise NotADicomFile).
Proof.
intros Hn Hfirst.
assert (new_SimpleDicomReader (F:=F) src = Raise NotADicomFile
        <-> take 4 (drop 128 (source_bytes src)) <> DICM) as Hiff.
{ unfold new_SimpleDicomReader.
  destruct src as [filename data|f]; cbn zeta beta iota.
  - by apply (_read_magic true _ (File data 0)).
  - by apply (_read_magic false _ f). }
split; [done|]. rewrite Hiff. unfold _can_read. rewrite Hfirst.
rewrite skipn_firstn_comm, take_take, Nat.min_l by lia.
by rewrite bool_decide_eq_false.
Qed.
End NotDicom.

Lemma not_a_dicom_file_iff_witness :
  _can_read (request_for [] (text "plain text, not DICOM") EXPECT_IM) = false /\
  new_SimpleDicomReader (F:=Q) (FromPath "notes.txt" (text "plain text, not DICOM"))
  = Raise NotADicomFile.
Proof.
pose proof (not_a_dicom_file_iff (F:=Q)
              (FromPath "notes.txt" (text "plain text, not DICOM"))
              (request_for [] (text "plain text, not DICOM") EXPECT_IM) 132
              ltac:(lia) ltac:(reflexivity)) as [Hmagic Hcan].
split; [reflexivity|]. apply Hmagic. vm_compute. discriminate.
Defined.

(** ** What a parsed reader holds *)

Section ParsedInfo.
Context {F : Type} `{PyFloat F} `{PyRuntime}.

Implicit Types (self : SimpleDicomReader F) (k : string).

(** Reading an element touches the file and the place of the pixel data,
    nothing else. *)
Lemma _readDataElement_keeps self self' group element value :
  _readDataElement self = Ok (group, element, value, self') ->
  _info self' = _info self /\ _unpackPrefix self' = _unpackPrefix self /\
  is_implicit_VR self' = is_implicit_VR self /\
  is_little_endian self' = is_little_endian self /\
  _filename self' = _filename self /\ disk self' = disk self.
Proof.
unfold _readDataElement. intros Hr.
apply bind_Ok in Hr as (f & _ & Hr).
apply bind_Ok in Hr as ([g f1] & _ & Hr).
apply bind_Ok in Hr as ([e f2] & _ & Hr).
apply bind_Ok in Hr as ([vl f3] & _ & Hr).
destruct (_ && _); [by injection Hr as <- <- <- <-|].
destruct (vl =? _).
- apply bind_Ok in Hr as ([[v f4] out] & _ & Hr). by injection Hr as <- <- <- <-.
- destruct (read _ f3). by injection Hr as <- <- <- <-.
Qed.

Lemma header_loop_keeps fuel self uid uid' self' :
  header_loop fuel self uid = Ok (uid', self') -> _info self' = _info self.
Proof.
revert self uid. induction fuel as [|fuel IH]; intros self uid; [done|].
cbn [header_loop]. intros Hl.
apply bind_Ok in Hl as (f & _ & Hl).
apply bind_Ok in Hl as ([[[group element] value] self1] & Hr & Hl).
apply _readDataElement_keeps in Hr as (Hi & _).
destruct (group =? 2).
- apply bind_Ok in Hl as (uid1 & _ & Hl). apply IH in Hl. congruence.
- apply bind_Ok in Hl as (f1 & _ & Hl). injection Hl as <- <-. done.
Qed.

Lemma _read_header_info self self' :
  _read_header self = Ok self' ->
  exists uid, _info self' = <["TransferSyntaxUID" := uid]> (_info self).
Proof.
unfold _read_header. intros Hh.
apply bind_Ok in Hh as (f & _ & Hh).
apply bind_Ok in Hh as ([uid self1] & Hl & Hh).
assert (_info self1 = _info self) as Hi.
{ destruct (header_loop _ _ _) as [[uid1 self2]|e|] eqn:Hloop; [|by destruct e|done].
  injection Hl as <- <-. by apply header_loop_keeps in Hloop. }
apply bind_Ok in Hh as ([[implicit little] self2] & Ht & Hh).
injection Hh as <-. exists (value_of_uid uid). cbn [_info set_mode].
unfold handle_transfer_syntax in Ht. destruct uid as [uid|].
- repeat (destruct (decide _); [try (injection Ht as <- <- <-; cbn; by rewrite Hi)|]);
    [|done].
  apply bind_Ok in Ht as (self3 & Hinf & Ht). injection Ht as <- <- <-.
  unfold _inflate in Hinf. apply bind_Ok in Hinf as (f' & _ & Hinf).
  destruct (read_rest f'). destruct (zlib_decompress_raw _); [|done].
  injection Hinf as <-. cbn. by rewrite Hi.
- injection Ht as <- <- <-. cbn. by rewrite Hi.
Qed.

(** The element loop only adds, and only names of the tag dictionary. *)
Lemma data_elements_loop_keys fuel self self' :
  data_elements_loop fuel self = Ok self' ->
  (forall k, is_Some (_info self !! k) -> is_Some (_info self' !! k)) /\
  (forall k, is_Some (_info self' !! k) ->
             is_Some (_info self !! k) \/ exists tag vr, MINIDICT !! tag = Some (k, vr)).
Proof.
revert self. induction fuel as [|fuel IH]; intros self; [done|].
cbn [data_elements_loop]. intros Hl.
destruct (_readDataElement self) as [[[[group element] value] self1]|e|] eqn:Hr.
- apply _readDataElement_keeps in Hr as (Hi & _). rewrite <- Hi.
  destruct (bool_decide _); [|by apply IH].
  destruct (MINIDICT !! (group, element)) as [[name vr]|] eqn:Htag; [|by apply IH].
  destruct (converter self1 vr value) as [v|e|].
  + apply IH in Hl as [Hmono Hnew]. cbn [_info set_info] in *. split.
    * intros k Hk. apply Hmono.
      destruct (decide (name = k)) as [->|Hne];
        [by rewrite lookup_insert_eq|by rewrite lookup_insert_ne].
    * intros k Hk. destruct (Hnew k Hk) as [Hold|Hdict]; [|by right].
      destruct (decide (name = k)) as [->|Hne]; [right; eauto|].
      left. by rewrite lookup_insert_ne in Hold.
  + destruct e; try done; injection Hl as <-; auto.
  + done.
- destruct e; try done; injection Hl as <-; auto.
- done.
Qed.

Lemma getattr_is_Some self k v : getattr self k = Ok v -> is_Some (_info self !! k).
Proof. unfold getattr. destruct (_ !! _); [eauto|done]. Qed.

(** Without these four no shape and no sampling can be made. *)
Lemma _get_shape_and_sampling_needs self self' :
  _get_shape_and_sampling self = Ok self' ->
  Forall (fun k => is_Some (_info self !! k))
         ["SamplesPerPixel"; "Rows"; "Columns"; "PixelSpacing"].
Proof.
unfold _get_shape_and_sampling. intros Hg.
apply bind_Ok in Hg as (multi & _ & Hg).
apply bind_Ok in Hg as (shape & Hshape & Hg).
apply bind_Ok in Hg as (ps & Hps%getattr_is_Some & _).
assert (is_Some (_info self !! "SamplesPerPixel") /\ is_Some (_info self !! "Rows") /\
        is_Some (_info self !! "Columns")) as (? & ? & ?); [|by repeat constructor].
clear Hps. destruct multi.
- apply bind_Ok in Hshape as (spp & Hspp%getattr_is_Some & Hshape).
  apply bind_Ok in Hshape as ([] & _ & Hshape);
    repeat (apply bind_Ok in Hshape as (? & ?%getattr_is_Some & Hshape)); done.
- apply bind_Ok in Hshape as (spp & Hspp%getattr_is_Some & Hshape).
  apply bind_Ok in Hshape as ([] & _ & Hshape).
  + apply bind_Ok in Hshape as (bits & _ & Hshape). destruct (py_eq _ _); [|done].
    repeat (apply bind_Ok in Hshape as (? & ?%getattr_is_Some & Hshape)); done.
  + repeat (apply bind_Ok in Hshape as (? & ?%getattr_is_Some & Hshape)); done.
Qed.

(** The names the tag dictionary can give: neither of the two names
    whose tags are written a second time further down the display. *)
Lemma MINIDICT_names tag name vr :
  MINIDICT !! tag = Some (name, vr) ->
  name <> "SOPClassUID" /\ name <> "SOPInstanceUID" /\
  name <> "TransferSyntaxUID" /\ name <> "shape" /\ name <> "sampling".
Proof.
intros Htag.
assert (map_Forall (fun _ v => v.1 ≠ "SOPClassUID" /\ v.1 ≠ "SOPInstanceUID" /\
                               v.1 ≠ "TransferSyntaxUID" /\ v.1 ≠ "shape" /\
                               v.1 ≠ "sampling") MINIDICT) as Hall.
{ refine (bool_decide_unpack _ _). vm_compute. exact I. }
exact (Hall tag (name, vr) Htag).
Qed.

(** X5: the info of a reader that parsing returns.  It holds
    [TransferSyntaxUID], [shape], [sampling], [SamplesPerPixel], [Rows],
    [Columns] and [PixelSpacing]; every other key is a name of the tag
    dictionary; and [SOPClassUID] and [SOPInstanceUID] are never among
    them, their tags being given to [IntervalNumber] and [AngleNumber]
    further down the dictionary. *)
Theorem parsed_info_keys (src : source) (r : SimpleDicomReader F) :
  new_SimpleDicomReader src = Ok r ->
  Forall (fun k => is_Some (_info r !! k))
         ["TransferSyntaxUID"; "shape"; "sampling";
          "SamplesPerPixel"; "Rows"; "Columns"; "PixelSpacing"] /\
  (forall k, is_Some (_info r !! k) ->
             k ∈ ["TransferSyntaxUID"; "shape"; "sampling"] \/
             exists tag vr, MINIDICT !! tag = Some (k, vr)) /\
  _info r !! "SOPClassUID" = None /\ _info r !! "SOPInstanceUID" = None /\
  MINIDICT !! (0x0020, 0x0016) = Some ("IntervalNumber", "IS") /\
  MINIDICT !! (0x0020, 0x0018) = Some ("AngleNumber", "IS").
Proof.
intros Hnew.
assert (exists self0 self1 self2 self3 fuel uid,
          _info self0 = ∅ /\
          _info self1 = <["TransferSyntaxUID" := uid]> (_info self0) /\
          data_elements_loop fuel self1 = Ok self2 /\
          _get_shape_and_sampling self2 = Ok self3 /\
          _info r = _info self3)
  as (self0 & self1 & self2 & self3 & fuel & uid & H0' & H1' & H2' & H3' & H4').
{ unfold new_SimpleDicomReader in Hnew.
  destruct src as [filename data|f]; cbn zeta beta iota in Hnew; unfold _read in Hnew;
    apply bind_Ok in Hnew as (f0 & _ & Hnew);
    destruct (read 4 (seek 128 f0)) as [magic f1]; destruct (decide _); try done;
    apply bind_Ok in Hnew as (self1 & Hh & Hnew);
    apply _read_header_info in Hh as [uid Hh];
    apply bind_Ok in Hnew as (self2 & Hd & Hnew);
    apply bind_Ok in Hnew as (self3 & Hg & Hnew);
    injection Hnew as <-;
    unfold _read_data_elements in Hd; apply bind_Ok in Hd as (f2 & _ & Hd);
    eexists _, self1, self2, self3, _, uid;
    (split; [|split; [exact Hh|split; [exact Hd|split; [exact Hg|by destruct self3]]]]);
    done. }
pose proof (_get_shape_and_sampling_needs _ _ H3') as Hneeds.
apply _get_shape_and_sampling_Ok in H3' as (shape & raw & s0 & s1 & H3' & _).
apply data_elements_loop_keys in H2' as [Hmono Hnew'].
rewrite H0' in H1'.
assert (forall k, is_Some (_info self2 !! k) -> is_Some (_info r !! k)) as Hkeep.
{ intros k Hk. rewrite H4', H3'.
  destruct (decide ("sampling" = k)) as [<-|?]; [by rewrite lookup_insert_eq|].
  rewrite lookup_insert_ne by done.
  destruct (decide ("shape" = k)) as [<-|?]; [by rewrite lookup_insert_eq|].
  by rewrite lookup_insert_ne. }
assert (forall k, is_Some (_info r !! k) ->
           k ∈ ["TransferSyntaxUID"; "shape"; "sampling"] \/
           exists tag vr, MINIDICT !! tag = Some (k, vr)) as Hwhite.
{ intros k. rewrite H4', H3'.
  destruct (decide ("sampling" = k)) as [<-|?]; [intros _; left; set_solver|].
  rewrite lookup_insert_ne by done.
  destruct (decide ("shape" = k)) as [<-|?]; [intros _; left; set_solver|].
  rewrite lookup_insert_ne by done. intros Hk.
  destruct (Hnew' k Hk) as [Hold|Hdict]; [|by right]. rewrite H1' in Hold.
  destruct (decide ("TransferSyntaxUID" = k)) as [<-|?]; [left; set_solver|].
  rewrite lookup_insert_ne, lookup_empty in Hold by done. by destruct Hold. }
split.
{ repeat apply Forall_cons in Hneeds as [? Hneeds].
  repeat constructor; try (by apply Hkeep).
  - apply Hkeep, Hmono. rewrite H1'. by rewrite lookup_insert_eq.
  - rewrite H4', H3'. by rewrite lookup_insert_ne, lookup_insert_eq.
  - rewrite H4', H3'. by rewrite lookup_insert_eq. }
split; [exact Hwhite|].
assert (forall k, k ∉ ["TransferSyntaxUID"; "shape"; "sampling"] ->
                  (forall tag vr, MINIDICT !! tag <> Some (k, vr)) ->
                  _info r !! k = None) as Hnone.
{ intros k Hk Hdict. destruct (_info r !! k) eqn:E; [|done].
  destruct (Hwhite k) as [?|(tag & vr & Htag)]; [by rewrite E|done|].
  by apply Hdict in Htag. }
split; [|split; [|split; vm_compute; reflexivity]].
- apply Hnone.
  + intros Hin. repeat (apply elem_of_cons in Hin as [Hin|Hin]; [done|]).
    by apply elem_of_nil in Hin.
  + intros tag vr Htag. by apply MINIDICT_names in Htag as (? & _).
- apply Hnone.
  + intros Hin. repeat (apply elem_of_cons in Hin as [Hin|Hin]; [done|]).
    by apply elem_of_nil in Hin.
  + intros tag vr Htag. by apply MINIDICT_names in Htag as (_ & ? & _).
Qed.
End ParsedInfo.

Lemma parsed_info_keys_witness :
  new_SimpleDicomReader (F:=Q) spaced_source = Ok (parsed "spaced.dcm" spaced_slice) /\
  _info (parsed "spaced.dcm" spaced_slice) !! "SOPClassUID" = None /\
  is_Some (_info (parsed "spaced.dcm" spaced_slice) !! "Rows").
Proof.
assert (new_SimpleDicomReader (F:=Q) spaced_source = Ok (parsed "spaced.dcm" spaced_slice))
  as Hparse by (vm_compute; reflexivity).
split; [exact Hparse|].
destruct (parsed_info_keys spaced_source _ Hparse) as (Hkeys & _ & Hsop & _).
split; [exact Hsop|].
repeat apply Forall_cons in Hkeys as [? Hkeys]. done.
Defined.

(** ** Loading the pixels *)

Section Loading.
Context {F : Type} `{PyFloat F} `{PyRuntime} {ndarray : Type} `{NumPy F ndarray}.

Implicit Types (self : SimpleDicomReader F).

(** The two steps that make the array look at the info and at the byte
    order, and at nothing else of the reader. *)
Lemma _pixel_data_numpy_ext self1 self2 :
  _info self1 = _info self2 -> is_little_endian self1 = is_little_endian self2 ->
  _pixel_data_numpy (ndarray:=ndarray) self1 = _pixel_data_numpy self2.
Proof.
intros Hi Hl. unfold _pixel_data_numpy, contains, getattr. by rewrite Hi, Hl.
Qed.

Lemma _apply_slope_and_offset_ext self1 self2 (data : ndarray) :
  _info self1 = _info self2 ->
  _apply_slope_and_offset self1 data = _apply_slope_and_offset self2 data.
Proof.
intros Hi. unfold _apply_slope_and_offset, contains, getattr. by rewrite Hi.
Qed.

(** X6: [get_numpy_array] leaves the metadata as it is.  Of the info it
    changes the entry [PixelData] alone, which holds the placeholder
    afterwards and not the raw bytes; the file name, the place of the
    pixel data and the byte order stay. *)
Theorem get_numpy_array_keeps_info self self' (data : ndarray) :
  get_numpy_array self = Ok (data, self') ->
  _info self' = <["PixelData" := VBytes converted_message]> (_info self) /\
  _filename self' = _filename self /\ disk self' = disk self /\
  _pixel_data_loc self' = _pixel_data_loc self /\
  is_implicit_VR self' = is_implicit_VR self /\
  is_little_endian self' = is_little_endian self /\
  _unpackPrefix self' = _unpackPrefix self.
Proof.
unfold get_numpy_array. destruct (contains self "PixelData"); cbn [negb]; [|done].
intros Hg. apply bind_Ok in Hg as (self1 & Hload & Hg).
apply bind_Ok in Hg as (arr & _ & Hg). apply bind_Ok in Hg as (arr' & _ & Hg).
injection Hg as <- <-. cbn [_info _filename disk _pixel_data_loc is_implicit_VR
  is_little_endian _unpackPrefix set_info].
assert (self1 = self \/
        exists f value, self1 = set_info (set_file self (Some f))
                                  (<["PixelData" := VBytes value]> (_info self)))
  as [->|(f & value & ->)]; [|done|].
- destruct (_pixel_data_loc self) as [[here vl]|]; [|injection Hload as <-; by left].
  apply bind_Ok in Hload as (n & _ & Hload).
  destruct (decide _); [|injection Hload as <-; by left].
  apply bind_Ok in Hload as (f & _ & Hload).
  apply bind_Ok in Hload as ([value f'] & _ & Hload).
  injection Hload as <-. right. eauto.
- cbn. by rewrite insert_insert_eq.
Qed.

(** X7: the pixels can be loaded again.  After a first call that read
    them from the file, a second call on the reader as the first left it
    returns the same array and leaves the reader as it is: the
    placeholder is short enough to make the second call read the file
    again, from the same place. *)
Theorem get_numpy_array_again self self' (data : ndarray) (n : nat) :
  is_Some (_pixel_data_loc self) ->
  getattr self "PixelData" ≫= py_len = Ok n -> (n < 100)%nat ->
  get_numpy_array self = Ok (data, self') ->
  get_numpy_array self' = Ok (data, self').
Proof.
intros [[here vl] Hloc] Hn Hshort. unfold get_numpy_array at 1.
destruct (contains self "PixelData"); cbn [negb]; [|done].
rewrite Hloc, Hn. cbn [mbind result_bind]. rewrite decide_True by done.
intros Hg. apply bind_Ok in Hg as (self1 & Hload & Hg).
apply bind_Ok in Hload as (f & Hf & Hload).
apply bind_Ok in Hload as ([value f'] & Hvalue & Hload). injection Hload as <-.
set (self1 := set_info (set_file self (Some f'))
                (<["PixelData" := VBytes value]> (_info self))) in *.
apply bind_Ok in Hg as (arr & Harr & Hg). apply bind_Ok in Hg as (arr' & Harr' & Hg).
injection Hg as <- <-.
set (self' := set_info self1 _).
assert (content f' = content f /\
        (if vl =? 4294967295
         then '(value, f, _) ← _read_undefined_length_value (_unpackPrefix self) (seek here f');
              Ok (value, f)
         else Ok (read (Z.to_nat vl) (seek here f'))) = Ok (value, f')) as [Hc Hagain].
{ destruct (vl =? 4294967295).
  - apply bind_Ok in Hvalue as ([[v f2] out] & Hscan & Hvalue). injection Hvalue as -> ->.
    pose proof (scan_loop_Ok _ _ _ _ _ _ _ Hscan) as [Hc _]. cbn [content seek] in Hc.
    split; [done|]. unfold seek. rewrite Hc. fold (seek here f). by rewrite Hscan.
  - injection Hvalue as <- <-. split; [done|]. done. }
unfold get_numpy_array.
assert (contains self' "PixelData" = true) as ->
  by (unfold contains, self'; cbn; by rewrite lookup_insert_eq).
cbn [negb].
replace (_pixel_data_loc self') with (Some (here, vl)) by done.
replace (getattr self' "PixelData" ≫= py_len) with (Ok (A:=nat) 66%nat)
  by (unfold getattr, self'; cbn; by rewrite lookup_insert_eq).
cbn [mbind result_bind]. rewrite decide_True by lia.
replace (_file self') with (Some f') by done. cbn [mbind result_bind].
replace (_unpackPrefix self') with (_unpackPrefix self) by done.
rewrite Hagain. cbn [mbind result_bind].
assert (set_info (set_file self' (Some f'))
          (<["PixelData" := VBytes value]> (_info self')) = self1) as ->.
{ unfold self', self1. destruct self. cbn. f_equal. by rewrite !insert_insert_eq. }
rewrite Harr. cbn [mbind result_bind]. rewrite Harr'. done.
Qed.
End Loading.

Lemma get_numpy_array_keeps_info_witness :
  match get_numpy_array (ndarray:=zarray) (parsed "spaced.dcm" spaced_slice) with
  | Ok (data, self') =>
    _info self' =
      <["PixelData" := VBytes converted_message]> (_info (parsed "spaced.dcm" spaced_slice))
  | _ => False
  end.
Proof.
assert (is_Ok (get_numpy_array (ndarray:=zarray) (parsed "spaced.dcm" spaced_slice)) = true)
  as Hok by (vm_compute; reflexivity).
destruct (get_numpy_array (parsed "spaced.dcm" spaced_slice)) as [[data self']|e|] eqn:E;
  [|discriminate Hok..].
exact (proj1 (get_numpy_array_keeps_info _ _ _ E)).
Defined.

Lemma get_numpy_array_again_witness :
  match get_numpy_array (ndarray:=zarray) (parsed "spaced.dcm" spaced_slice) with
  | Ok (data, self') => get_numpy_array self' = Ok (data, self')
  | _ => False
  end.
Proof.
assert (is_Ok (get_numpy_array (ndarray:=zarray) (parsed "spaced.dcm" spaced_slice)) = true)
  as Hok by (vm_compute; reflexivity).
destruct (get_numpy_array (parsed "spaced.dcm" spaced_slice)) as [[data self']|e|] eqn:E;
  [|discriminate Hok..].
refine (get_numpy_array_again (parsed "spaced.dcm" spaced_slice) self' data 30 _ _ _ E).
- refine (bool_decide_unpack _ _). vm_compute. exact I.
- vm_compute. reflexivity.
- lia.
Defined.

(** ** Sorting a series *)

Section SortPermutation.
Context {F : Type} `{PyFloat F} {A : Type}.

Implicit Types (k : value F) (a : A) (s kl : list (value F * A)).

Lemma insert_by_key_Permutation k a s s' :
  insert_by_key k a s = Ok s' -> s' ≡ₚ (k, a) :: s.
Proof.
revert s'. induction s as [|[k' a'] s IH]; intros s'; cbn [insert_by_key].
- by intros [= <-].
- intros Hi. apply bind_Ok in Hi as ([] & _ & Hi).
  + apply bind_Ok in Hi as (r & Hr & [= <-]). rewrite (IH _ Hr). apply Permutation_swap.
  + by injection Hi as <-.
Qed.

Lemma sort_keyed_Permutation kl s : sort_keyed kl = Ok s -> s ≡ₚ kl.
Proof.
revert s. induction kl as [|[k a] kl IH]; intros s; cbn [sort_keyed].
- by intros [= <-].
- intros Hs. apply bind_Ok in Hs as (s0 & Hs0 & Hi).
  rewrite (insert_by_key_Permutation _ _ _ _ Hi). by rewrite (IH _ Hs0).
Qed.

Lemma sort_by_Permutation (key : A -> result (value F)) (l l' : list A) :
  sort_by key l = Ok l' -> l' ≡ₚ l.
Proof.
unfold sort_by. intros Hs.
apply bind_Ok in Hs as (kl & Hkl & Hs). apply bind_Ok in Hs as (s & Hs & [= <-]).
apply with_keys_Ok in Hkl as [<- _]. apply sort_keyed_Permutation in Hs.
by apply Permutation_map.
Qed.

(** The keys are all computed before anything is compared: one item
    without a key makes the sort raise what the key raises. *)
Lemma with_keys_Raise (key : A -> result (value F)) (l : list A) e :
  (forall a, a ∈ l -> is_Ok (key a) = true \/ key a = Raise e) ->
  Exists (fun a => key a = Raise e) l ->
  with_keys key l = Raise e.
Proof.
induction l as [|a l IH]; intros Hall Hex; [by apply Exists_nil in Hex|].
cbn [with_keys].
destruct (Hall a ltac:(left)) as [Hok|Hraise]; [|by rewrite Hraise].
destruct (key a) as [k| |] eqn:E; try done. cbn.
apply Exists_cons in Hex as [Hex|Hex]; [congruence|].
rewrite IH; [done| |done]. intros a' Ha'. apply Hall. by right.
Qed.
End SortPermutation.

Section SortSeries.
Context {F : Type} `{PyFloat F} `{PyRuntime}.

(** X8: [_sort] puts the slices in the order of their instance numbers
    and changes nothing else: the sorted entries are a permutation of the
    entries, no slice stands behind one with a greater instance number,
    the series keeps its suid and its info, and sorting once more changes
    nothing. *)
Theorem _sort_permutes (s s' : DicomSeries.t F) :
  DicomSeries._sort s = Ok s' ->
  DicomSeries._entries s' ≡ₚ DicomSeries._entries s /\
  key_sorted (fun k : SimpleDicomReader F => getattr k "InstanceNumber")
             (DicomSeries._entries s') /\
  DicomSeries._suid s' = DicomSeries._suid s /\
  DicomSeries._info s' = DicomSeries._info s /\
  DicomSeries._sort s' = Ok s'.
Proof.
intros Hs. pose proof (_sort_Ok _ _ Hs) as [Hsorted Hsuid].
unfold DicomSeries._sort in Hs. apply bind_Ok in Hs as (L & HL & [= <-]).
split; [by apply sort_by_Permutation in HL|].
split; [done|]. split; [done|]. split; [done|].
by apply _sort_sorted.
Qed.

(** X9: a slice without an instance number makes [_sort] raise
    AttributeError, and with it [splitSerieIfRequired], which the
    directory scan calls outside of any handler; the list of series and
    the progress sink are as they were. *)
Theorem split_needs_instance_numbers (i : nat) (series : list (DicomSeries.t F))
    (serie : DicomSeries.t F) (log : progress_log) :
  series !! i = Some serie ->
  Exists (fun dcm : SimpleDicomReader F => contains dcm "InstanceNumber" = false)
         (DicomSeries._entries serie) ->
  DicomSeries._sort serie = Raise (AttributeError "InstanceNumber") /\
  splitSerieIfRequired i series log = (Raise (AttributeError "InstanceNumber"), log).
Proof.
intros Hi Hex.
assert (DicomSeries._sort serie = Raise (AttributeError "InstanceNumber")) as Hsort.
{ unfold DicomSeries._sort, sort_by. rewrite (with_keys_Raise _ _ (AttributeError "InstanceNumber")); [done| |].
  - intros a _. cbn beta. unfold getattr.
    destruct (_info a !! "InstanceNumber"); [by left|by right].
  - eapply Exists_impl; [exact Hex|]. intros a. cbn beta. unfold contains, getattr.
    destruct (_info a !! "InstanceNumber"); [|done].
    intros Hc. apply bool_decide_eq_false in Hc. by destruct Hc. }
split; [done|]. unfold splitSerieIfRequired. by rewrite Hi, Hsort.
Qed.
End SortSeries.

Lemma _sort_permutes_witness :
  match DicomSeries._sort six_reversed with
  | Ok s' =>
    DicomSeries._entries s' ≡ₚ DicomSeries._entries six_reversed /\
    _filename <$> DicomSeries._entries s'
    = ["a.dcm"; "b.dcm"; "c.dcm"; "d.dcm"; "e.dcm"; "f.dcm"]
  | _ => False
  end.
Proof.
assert (is_Ok (DicomSeries._sort six_reversed) = true) as Hok
  by (vm_compute; reflexivity).
assert ((fun s => _filename <$> DicomSeries._entries s) <$> DicomSeries._sort six_reversed
        = Ok ["a.dcm"; "b.dcm"; "c.dcm"; "d.dcm"; "e.dcm"; "f.dcm"]) as Hn
  by (vm_compute; reflexivity).
destruct (DicomSeries._sort six_reversed) as [s'|e|] eqn:E; [|discriminate Hok..].
split; [exact (proj1 (_sort_permutes _ _ E))|]. by injection Hn.
Defined.

Lemma split_needs_instance_numbers_witness :
  splitSerieIfRequired 0 [unnumbered_series] []
  = (Raise (AttributeError "InstanceNumber"), []).
Proof.
refine (proj2 (split_needs_instance_numbers 0 [unnumbered_series] unnumbered_series []
                 _ _)).
- reflexivity.
- apply Exists_cons_hd. reflexivity.
Defined.

(** ** Finishing a series *)

Section Finish.
Context {F : Type} `{PyFloat F}.

Implicit Types (self : DicomSeries.t F) (log : progress_log).

(** X10: what [_finish] leaves alone.  It keeps the entries and the suid
    of the series and tells the progress sink nothing but sampling
    warnings.  A series without entries is returned as it is; a series of
    one slice takes over the info of that slice; in both cases nothing is
    read of the slices, so nothing can fail, and nothing is written. *)
Theorem _finish_keeps self self' log log' :
  DicomSeries._finish self log = (Ok self', log') ->
  DicomSeries._entries self' = DicomSeries._entries self /\
  DicomSeries._suid self' = DicomSeries._suid self /\
  (exists w, log' = log ++ w /\
             Forall (fun e => e = PWrite DicomSeries.sampling_warning) w) /\
  (DicomSeries._entries self = [] -> self' = self /\ log' = log) /\
  (forall only, DicomSeries._entries self = [only] ->
                DicomSeries._info self' = dcm_info F only /\ log' = log).
Proof.
intros Hf.
assert (DicomSeries._entries self' = DicomSeries._entries self /\
        DicomSeries._suid self' = DicomSeries._suid self) as [He Hs].
{ revert Hf. unfold DicomSeries._finish.
  destruct (DicomSeries._entries self) as [|ds1 [|ds rest]] eqn:E.
  - intros [= <- <-]. by rewrite E.
  - intros [= <- <-]. cbn. by rewrite E.
  - destruct (_ ≫= _) as [[dimensions sampling]|e|]; [|done..].
    destruct (DicomSeries.finish_loop _ _ _ _ _ _) as [[[ds2 sum]|e|] log1]; [|done..].
    intros [= Hr <-]. bind_inv Hr. injection Hr as <-. cbn. by rewrite E. }
split; [done|]. split; [done|]. split; [|split].
- destruct (_finish_log self log) as (w & Hl & Hw). rewrite Hl in Hf.
  injection Hf as _ <-. eauto.
- intros E. revert Hf. unfold DicomSeries._finish. rewrite E. by intros [= <- <-].
- intros only E. revert Hf. unfold DicomSeries._finish. rewrite E. by intros [= <- <-].
Qed.

Lemma measurable_Ok (ds : SimpleDicomReader F) :
  measurable ds = true ->
  exists z d s, DicomSeries.z_position ds = Ok z /\
                DicomSeries.dimensions_of ds = Ok d /\
                DicomSeries.sampling_of ds = Ok s.
Proof.
unfold measurable. intros [[Hz Hd]%andb_prop Hs]%andb_prop.
destruct (DicomSeries.z_position ds); [|done..].
destruct (DicomSeries.dimensions_of ds); [|done..].
destruct (DicomSeries.sampling_of ds); [|done..]. eauto 10.
Qed.

Lemma finish_loop_mismatch dimensions sampling L : forall (ds1 : SimpleDicomReader F) sum log,
  measurable ds1 = true -> forallb measurable L = true ->
  existsb (fun ds => match DicomSeries.dimensions_of ds with
                     | Ok d => negb (py_eq dimensions d)
                     | _ => false
                     end) L = true ->
  (DicomSeries.finish_loop dimensions sampling ds1 sum L log).1
  = Raise (ValueError DicomSeries.dimension_message).
Proof.
induction L as [|ds2 L IH]; intros ds1 sum log H1 HL Hex; [done|].
cbn [forallb existsb] in HL, Hex. apply andb_prop in HL as [H2 HL].
cbn [DicomSeries.finish_loop]. unfold DicomSeries.finish_step.
destruct (measurable_Ok _ H1) as (z1 & _ & _ & -> & _).
destruct (measurable_Ok _ H2) as (z2 & d2 & s2 & -> & Hd2 & ->).
rewrite Hd2 in *. cbn [mbind result_bind].
destruct (py_eq dimensions d2); cbn [negb orb] in *; [|done].
by apply IH.
Qed.

Lemma existsb_mismatch (first : SimpleDicomReader F) d1 l :
  DicomSeries.dimensions_of first = Ok d1 ->
  forallb measurable l = true ->
  existsb (fun ds => negb (same_dimensions first ds)) l = true ->
  existsb (fun ds => match DicomSeries.dimensions_of ds with
                     | Ok d => negb (py_eq d1 d)
                     | _ => false
                     end) l = true.
Proof.
intros Hd1. unfold same_dimensions. rewrite Hd1.
induction l as [|a l IH]; [done|]. cbn [existsb forallb].
intros [Ha Hl]%andb_prop. destruct (measurable_Ok _ Ha) as (_ & d & _ & _ & -> & _).
intros [Hex|Hex]%orb_prop; apply orb_true_intro; [left; exact Hex|right; by apply IH].
Qed.

(** X11: slices that disagree on rows and columns.  When every slice
    of a series has what the loop of [_finish] reads, and one of them has
    other rows and columns than the first, [_finish] raises ValueError
    ('Dimensions of slices does not match.'). *)
Theorem _finish_dimension_mismatch self log (first : SimpleDicomReader F) rest :
  DicomSeries._entries self = first :: rest ->
  forallb measurable (first :: rest) = true ->
  existsb (fun ds => negb (same_dimensions first ds)) rest = true ->
  (DicomSeries._finish self log).1 = Raise (ValueError DicomSeries.dimension_message).
Proof.
intros He Hm Hex. unfold DicomSeries._finish. rewrite He.
destruct rest as [|ds rest]; [done|].
pose proof Hm as Hm'. cbn [forallb] in Hm'. apply andb_prop in Hm' as [H1 Hrest].
destruct (measurable_Ok _ H1) as (z1 & d1 & s1 & Hz1 & Hd1 & Hs1).
rewrite Hd1, Hs1. cbn [mbind result_bind].
pose proof (finish_loop_mismatch d1 s1 (first :: ds :: rest) first (f_of_Z 0) log H1 Hm)
  as Hloop.
destruct (DicomSeries.finish_loop _ _ _ _ _ _) as [r log1]. cbn [fst] in Hloop.
rewrite Hloop; [done|].
change (existsb ?f (first :: ?l)) with (f first || existsb f l).
apply orb_true_intro. right. by apply (existsb_mismatch first).
Qed.
End Finish.

Lemma _finish_keeps_witness :
  (DicomSeries._finish two_spacings_series []).2 = [PWrite DicomSeries.sampling_warning] /\
  match (DicomSeries._finish two_spacings_series []).1 with
  | Ok self' => DicomSeries._entries self' = DicomSeries._entries two_spacings_series
  | _ => False
  end.
Proof.
split; [vm_compute; reflexivity|].
assert (is_Ok (DicomSeries._finish two_spacings_series []).1 = true) as Hok
  by (vm_compute; reflexivity).
destruct (DicomSeries._finish two_spacings_series []) as [[self'|e|] log'] eqn:E;
  [|discriminate Hok..].
exact (proj1 (_finish_keeps _ _ _ _ E)).
Defined.

Lemma _finish_dimension_mismatch_witness :
  (DicomSeries._finish mismatched_S []).1 = Raise (ValueError DicomSeries.dimension_message).
Proof.
refine (_finish_dimension_mismatch mismatched_S []
          (hd empty_reader (DicomSeries._entries mismatched_S))
          (tl (DicomSeries._entries mismatched_S)) _ _ _).
- vm_compute. reflexivity.
- vm_compute. reflexivity.
- vm_compute. reflexivity.
Defined.

(** ** The scan of the files *)

Section Examine.
Context {F : Type} `{PyFloat F} `{PyRuntime}.

Implicit Types (series : list (DicomSeries.t F)) (log : progress_log)
  (dcm : SimpleDicomReader F).

Lemma register_grouped suid dcm series :
  getattr dcm "SeriesInstanceUID" = Ok suid ->
  grouped series -> grouped (register suid dcm series).
Proof.
intros Hsuid. unfold grouped.
induction series as [|s series IH]; intros Hg; cbn [register].
- repeat constructor; [done|]. exists suid. auto.
- apply Forall_cons in Hg as [[Hne Hs] Hg]. destruct (py_eq suid _) eqn:Heq.
  + constructor; [|done]. cbn. split; [by destruct (DicomSeries._entries s)|].
    apply Forall_app. split; [done|]. repeat constructor. exists suid. auto.
  + constructor; [done|]. by apply IH.
Qed.

Lemma register_slices suid dcm series :
  length (all_slices (register suid dcm series)) = S (length (all_slices series)).
Proof.
unfold all_slices. induction series as [|s series IH]; cbn [register]; [done|].
destruct (py_eq suid _); cbn.
- rewrite !length_app. cbn. lia.
- rewrite !length_app, IH. lia.
Qed.

Lemma examine_files_inv (P : list (DicomSeries.t F) -> nat -> Prop) files :
  (forall suid dcm series n,
      getattr dcm "SeriesInstanceUID" = Ok suid ->
      P series (S n) -> P (register suid dcm series) n) ->
  (forall series n, P series (S n) -> P series n) ->
  forall series count log series' log',
  P series (length files) ->
  examine_files files series count log = (Ok series', log') ->
  P series' 0%nat /\
  exists events, log' = log ++ events /\
                 Forall (fun e => (exists msg, e = PWrite msg) \/
                                  exists n, e = PSetProgress n) events.
Proof.
intros Hreg Hskip. induction files as [|[filename data] files IH];
  intros series count log series' log' HP; cbn [examine_files].
- intros [= <- <-]. split; [done|]. exists []. by rewrite app_nil_r.
- cbn [length] in HP.
  assert (forall log0, examine_files files series count log0 = (Ok series', log') ->
            P series' 0%nat /\
            exists events, log' = log0 ++ events /\
              Forall (fun e => (exists msg, e = PWrite msg) \/
                               exists n, e = PSetProgress n) events) as Hsame.
  { intros log0. apply IH. by apply Hskip. }
  destruct (has_substring _ _); [apply Hsame|].
  destruct (new_SimpleDicomReader _) as [dcm|e|]; [| |done].
  + destruct (getattr dcm "SeriesInstanceUID") as [suid| |] eqn:Hsuid;
      [|apply Hsame..].
    intros Hex. apply IH in Hex as (HP' & events & -> & Hev).
    * split; [done|]. exists (PSetProgress (S count) :: events).
      split; [by rewrite <- app_assoc|]. constructor; [right; eauto|done].
    * by apply Hreg.
  + assert (examine_files files series count (log ++ [PWrite (str_of_exn e)])
            = (Ok series', log') ->
            P series' 0%nat /\
            exists events, log' = log ++ events /\
              Forall (fun e => (exists msg, e = PWrite msg) \/
                               exists n, e = PSetProgress n) events) as Hwrite.
    { intros Hex. apply Hsame in Hex as (HP' & events & -> & Hev).
      split; [done|]. exists (PWrite (str_of_exn e) :: events).
      split; [by rewrite <- app_assoc|]. constructor; [left; eauto|done]. }
    destruct e; first [apply Hsame | apply Hwrite].
Qed.

(** X12: what the loop over the files builds.  Every series it returns
    holds at least one slice, every slice of a series carries the suid of
    the series, there are no more slices than files, and the progress
    sink was told counts and messages only. *)
Theorem examine_files_groups files log series log' :
  examine_files files [] 0 log = (Ok series, log') ->
  grouped series /\
  (length (all_slices series) <= length files)%nat /\
  exists events, log' = log ++ events /\
                 Forall (fun e => (exists msg, e = PWrite msg) \/
                                  exists n, e = PSetProgress n) events.
Proof.
intros Hex.
destruct (examine_files_inv
            (fun series n => grouped series /\
                             (length (all_slices series) + n <= length files)%nat)
            files) with (series := @nil (DicomSeries.t F)) (count := 0%nat) (log := log)
            (series' := series) (log' := log') as ([Hg Hl] & Hev).
- intros suid dcm series0 n Hsuid [Hg Hl]. split; [by apply register_grouped|].
  rewrite register_slices. lia.
- intros series0 n [Hg Hl]. split; [done|lia].
- split; [constructor|]. cbn. lia.
- done.
- split; [done|]. split; [lia|done].
Qed.

(** X13: the files the scan passes over without a word.  A file whose
    name contains DICOMDIR is not opened, and a file that has no "DICM"
    behind its preamble is refused by the reader with the one exception
    that is not reported: the scan goes on as if the file were not
    there. *)
Theorem examine_files_skips filename data files series count log :
  has_substring "DICOMDIR" filename = true \/ take 4 (drop 128 data) <> DICM ->
  examine_files ((filename, data) :: files) series count log
  = examine_files files series count log.
Proof.
intros Hskip. cbn [examine_files].
destruct (has_substring "DICOMDIR" filename); [done|].
destruct Hskip as [?|Hmagic]; [done|].
assert (new_SimpleDicomReader (F:=F) (FromPath filename data) = Raise NotADicomFile) as ->;
  [|done].
unfold new_SimpleDicomReader. cbn zeta beta iota.
by apply (_read_magic true _ (File data 0)).
Qed.
End Examine.

Lemma examine_files_groups_witness :
  match examine_files (F:=Q) mismatched_rows [] 0 [] with
  | (Ok series, log') =>
    grouped series /\ DicomSeries._suid <$> series = [VStr "S"; VStr "T"]
  | _ => False
  end.
Proof.
assert (match (examine_files (F:=Q) mismatched_rows [] 0 []).1 with
        | Ok series => DicomSeries._suid <$> series = [VStr "S"; VStr "T"]
        | _ => False
        end) as Hs by (vm_compute; reflexivity).
destruct (examine_files (F:=Q) mismatched_rows [] 0 []) as [[series|e|] log'] eqn:E;
  [|done..].
split; [|exact Hs]. exact (proj1 (examine_files_groups _ _ _ _ E)).
Defined.

Lemma examine_files_skips_witness :
  examine_files (F:=Q) (("notes.txt", text "plain text, not DICOM") :: mismatched_rows) [] 0 []
  = examine_files mismatched_rows [] 0 [].
Proof.
refine (examine_files_skips "notes.txt" (text "plain text, not DICOM") mismatched_rows
          [] 0%nat [] _).
right. vm_compute. discriminate.
Defined.

(** ** What a split keeps *)

Section SplitKeeps.
Context {F : Type} `{PyFloat F} `{PyRuntime}.

Implicit Types (series : list (DicomSeries.t F)) (log : progress_log)
  (rest cur : list (SimpleDicomReader F)).

Lemma cut_at_nonempty {A} (cur : list A) marked :
  cur <> [] -> Forall (fun B => B <> []) (cut_at cur marked).
Proof.
revert cur. induction marked as [|[[] a] marked IH]; intros cur Hcur; cbn [cut_at].
- by repeat constructor.
- constructor; [done|]. by apply IH.
- apply IH. by destruct cur.
Qed.

Lemma entries_of_buckets (suid : value F) (L2 : list (list (SimpleDicomReader F))) :
  DicomSeries._entries
    <$> ((fun L => DicomSeries.set_entries (DicomSeries.new suid) L) <$> L2) = L2.
Proof. induction L2 as [|B L2 IH]; [done|]. rewrite !fmap_cons, IH. done. Qed.

(** The loop writes warnings about missing files, each naming a slice. *)
Lemma split_loop_writes rest : forall (ds1 : SimpleDicomReader F) d L2 log,
  exists w,
    (split_loop ds1 d L2 rest log).2 = log ++ w /\
    Forall (fun e => exists ds, ds ∈ ds1 :: rest /\
                                e = PWrite (missing_file_warning (_filename ds))) w.
Proof.
induction rest as [|ds2 rest IH]; intros ds1 d L2 log; cbn [split_loop].
- exists []. by rewrite app_nil_r.
- assert (forall w0 d' L2',
            Forall (fun e => exists ds, ds ∈ ds1 :: ds2 :: rest /\
                        e = PWrite (missing_file_warning (_filename ds))) w0 ->
            exists w,
              (split_loop ds2 d' L2' rest (log ++ w0)).2 = log ++ w /\
              Forall (fun e => exists ds, ds ∈ ds1 :: ds2 :: rest /\
                          e = PWrite (missing_file_warning (_filename ds))) w) as Hnext.
  { intros w0 d' L2' Hw0. destruct (IH ds2 d' L2' (log ++ w0)) as (w & -> & Hw).
    exists (w0 ++ w). split; [by rewrite app_assoc|]. apply Forall_app. split; [done|].
    eapply Forall_impl; [exact Hw|]. intros e (ds & Hds & ->). exists ds.
    split; [by right|done]. }
  destruct (newDist_of ds1 ds2) as [nd| |]; [|exists []; by rewrite app_nil_r..].
  destruct (exceeds 2.1 d nd).
  + destruct (Hnext [] (f_of_Z 0) (append_last (L2 ++ [[]]) ds2)) as (w & Hw & Hall);
      [done|]. rewrite app_nil_r in Hw. eauto.
  + destruct (exceeds 1.5 d nd).
    * apply Hnext. repeat constructor. exists ds1. split; [by left|done].
    * destruct (Hnext [] nd (append_last L2 ds2)) as (w & Hw & Hall); [done|].
      rewrite app_nil_r in Hw. eauto.
Qed.

(** X14: a split loses nothing.  Where [splitSerieIfRequired] returns,
    the series at position [i] has been sorted and stands in the list as
    one or several series, its buckets, in its place; the series in front
    of it and behind it are as they were; the buckets hold the sorted
    slices, in their order and each once; no bucket is empty, and every
    bucket has the suid of the series. *)
Theorem split_keeps_slices (i : nat) series log series' log' :
  splitSerieIfRequired i series log = (Ok series', log') ->
  exists serie sorted buckets,
    series !! i = Some serie /\ DicomSeries._sort serie = Ok sorted /\
    series' = take i series ++ buckets ++ drop (S i) series /\
    all_slices buckets = DicomSeries._entries sorted /\
    Forall (fun b => DicomSeries._entries b <> [] /\
                     DicomSeries._suid b = DicomSeries._suid serie) buckets.
Proof.
unfold splitSerieIfRequired.
destruct (series !! i) as [serie|] eqn:Hi; [|done].
pose proof (lookup_lt_Some _ _ _ Hi) as Hlt.
destruct (DicomSeries._sort serie) as [sorted| |] eqn:Hsort; [|done..].
pose proof (_sort_Ok _ _ Hsort) as [_ Hsuid].
destruct (DicomSeries._entries sorted) as [|ds1 rest] eqn:He; [done|].
assert (<[i:=sorted]> series = take i series ++ [sorted] ++ drop (S i) series) as Hins
  by by apply insert_take_drop.
assert (take i (<[i:=sorted]> series) = take i series) as Htake
  by by rewrite take_insert_ge.
assert (drop (S i) (<[i:=sorted]> series) = drop (S i) series) as Hdrop
  by (by rewrite drop_insert_lt by lia).
assert (all_slices [sorted] = ds1 :: rest /\
        Forall (fun b => DicomSeries._entries b <> [] /\
                         DicomSeries._suid b = DicomSeries._suid serie) [sorted])
  as [Hone Honeb].
{ unfold all_slices. cbn. rewrite He, app_nil_r. split; [done|].
  repeat constructor; [by rewrite He|done]. }
destruct (negb _).
{ intros [= <- <-]. exists serie, sorted, [sorted]. by rewrite He. }
destruct (split_loop ds1 (f_of_Z 0) [[ds1]] rest log) as [[L2| |] log1] eqn:Hs; [|done..].
destruct (decide (1 < length L2)%nat) as [Hlen|Hlen]; intros [= <- <-].
2:{ exists serie, sorted, [sorted]. by rewrite He. }
apply (split_loop_Ok rest ds1 _ [] [ds1]) in Hs as (_ & _ & ->). cbn [app].
eexists serie, sorted, _. rewrite Htake, Hdrop, He.
split; [done|]. split; [done|]. split; [reflexivity|]. split.
- unfold all_slices. rewrite entries_of_buckets, concat_cut_at.
  by rewrite snd_zip by (rewrite bucket_starts_length, length_fmap; lia).
- apply Forall_fmap. eapply Forall_impl; [apply (cut_at_nonempty [ds1]); done|].
  intros B HB. by split.
Qed.

Lemma splitSerieIfRequired_writes (i : nat) series log :
  exists w,
    (splitSerieIfRequired i series log).2 = log ++ w /\
    Forall (fun e => exists filename, e = PWrite (missing_file_warning filename)) w.
Proof.
assert (exists w : progress_log,
          log = log ++ w /\
          Forall (fun e => exists filename, e = PWrite (missing_file_warning filename)) w)
  as Hnone by (exists []; by rewrite app_nil_r).
unfold splitSerieIfRequired.
destruct (series !! i) as [serie|]; [|done].
destruct (DicomSeries._sort serie) as [sorted| |]; [|done..].
destruct (DicomSeries._entries sorted) as [|ds1 rest]; [done|].
destruct (negb _); [done|].
destruct (split_loop_writes rest ds1 (f_of_Z 0) [[ds1]] log) as (w & Hw & Hall).
assert (exists w0 : progress_log,
          (split_loop ds1 (f_of_Z 0) [[ds1]] rest log).2 = log ++ w0 /\
          Forall (fun e => exists filename, e = PWrite (missing_file_warning filename)) w0)
  as Hsome.
{ exists w. split; [done|]. eapply Forall_impl; [exact Hall|].
  intros e (ds & _ & ->). eauto. }
destruct (split_loop ds1 (f_of_Z 0) [[ds1]] rest log) as [[L2| |] log1]; [|done..].
by destruct (decide _).
Qed.

Lemma split_all_writes (n : nat) : forall series log,
  exists w,
    (split_all n series log).2 = log ++ w /\
    Forall (fun e => exists filename, e = PWrite (missing_file_warning filename)) w.
Proof.
induction n as [|n IH]; intros series log; cbn [split_all].
- exists []. by rewrite app_nil_r.
- destruct (splitSerieIfRequired_writes n series log) as (w & Hw & Hall).
  destruct (splitSerieIfRequired n series log) as [[series1| |] log1];
    cbn [snd] in Hw; subst log1; [|by eauto..].
  destruct (IH series1 (log ++ w)) as (w' & -> & Hall').
  exists (w ++ w'). split; [by rewrite app_assoc|]. by apply Forall_app.
Qed.

(** X15: a split tells the progress sink nothing but warnings about
    missing files; this on every outcome, a raise included, and for the
    whole round over the series as for one series. *)
Theorem split_writes_warnings (n : nat) series log :
  (exists w,
     (splitSerieIfRequired n series log).2 = log ++ w /\
     Forall (fun e => exists filename, e = PWrite (missing_file_warning filename)) w) /\
  (exists w,
     (split_all n series log).2 = log ++ w /\
     Forall (fun e => exists filename, e = PWrite (missing_file_warning filename)) w).
Proof. split; [apply splitSerieIfRequired_writes|apply split_all_writes]. Qed.

Lemma length_finished series : (length (finished series) <= length series)%nat.
Proof.
unfold finished. induction series as [|s series IH]; [done|]. cbn.
destruct (DicomSeries._finish s []).1; cbn; lia.
Qed.

Lemma finished_length_lt series :
  (length (finished series) < length series)%nat <->
  Exists (fun s => is_Ok (DicomSeries._finish s []).1 = false) series.
Proof.
unfold finished. induction series as [|s series IH].
- cbn. split; [lia|]. intros Hex. by apply Exists_nil in Hex.
- rewrite Exists_cons. cbn [omap list_omap length].
  pose proof (length_finished series) as Hle. unfold finished in Hle.
  destruct (DicomSeries._finish s []).1 as [s'| |]; cbn [is_Ok length].
  + rewrite <- IH. split; [intros Hlt; right; lia|]. intros [Hs|Hlt]; [done|lia].
  + split; [by left|]. intros _. lia.
  + split; [by left|]. intros _. lia.
Qed.

(** X16: what the directory scan reports.  Where [process_directory]
    returns, the progress sink was told, in this order: the start, with
    the number of files found; counts and messages; the finish, with a
    count of series.  That count is the number of series there are when
    the files have been examined, sorted by suid and split, before any
    is finished; what is returned are those of them that [_finish]
    accepts.  So the count is at least the number of series returned,
    and it is greater exactly when a series was dropped. *)
Theorem process_directory_reports (request : Request) log series_ log' :
  process_directory request log = (Ok series_, log') ->
  exists series0 log1 series2 series3 log2 middle,
    examine_files (list_files request) [] 0
      (log ++ [PStart "examining files" "files" (length (list_files request))])
    = (Ok series0, log1) /\
    sort_by (fun x => Ok (DicomSeries._suid x)) series0 = Ok series2 /\
    split_all (length series2) series2 log1 = (Ok series3, log2) /\
    series_ = finished series3 /\
    log' = log ++ [PStart "examining files" "files" (length (list_files request))]
               ++ middle ++ [PFinish (Some (found_message (length series3)))] /\
    Forall (fun e => (exists msg, e = PWrite msg) \/ exists k, e = PSetProgress k) middle /\
    (length series_ <= length series3)%nat /\
    ((length series_ < length series3)%nat <->
     Exists (fun s => is_Ok (DicomSeries._finish s []).1 = false) series3).
Proof.
unfold process_directory. destruct (negb _); [done|].
set (log0 := log ++ [PStart _ _ _]).
destruct (examine_files _ _ _ _) as [[series0| |] log1] eqn:Hex; [|done..].
pose proof Hex as Hex'.
apply (examine_files_inv (fun _ _ => True)) in Hex as (_ & ev1 & -> & Hev1); [|done..].
destruct (sort_by _ series0) as [series2| |] eqn:Hsort; [|done..].
destruct (split_all_writes (length series2) series2 (log0 ++ ev1)) as (ev2 & Hw & Hev2).
destruct (split_all _ _ _) as [[series3| |] log2] eqn:Hsplit; [|done..].
cbn [snd] in Hw. subst log2.
destruct (finish_all_spec series3 0%nat [] ((log0 ++ ev1) ++ ev2)) as (ev3 & -> & Hev3).
intros [= <- <-].
exists series0, (log0 ++ ev1), series2, series3, ((log0 ++ ev1) ++ ev2), (ev1 ++ ev2 ++ ev3).
split; [first [reflexivity | exact Hex']|].
split; [first [reflexivity | exact Hsort]|].
split; [first [reflexivity | exact Hsplit]|]. split; [reflexivity|].
split; [unfold log0; by rewrite <- !app_assoc|]. split.
- apply Forall_app. split; [done|]. apply Forall_app. split.
  + eapply Forall_impl; [exact Hev2|]. intros e [name ->]. left. eauto.
  + eapply Forall_impl; [exact Hev3|]. intros e [->|[k ->]]; [left|right]; eauto.
- split; [apply length_finished|apply finished_length_lt].
Qed.
End SplitKeeps.

Lemma split_keeps_slices_witness :
  exists serie sorted buckets,
    six_series !! 0%nat = Some serie /\ DicomSeries._sort serie = Ok sorted /\
    split_six = take 0 six_series ++ buckets ++ drop 1 six_series /\
    all_slices buckets = DicomSeries._entries sorted /\
    Forall (fun b => DicomSeries._entries b <> [] /\
                     DicomSeries._suid b = DicomSeries._suid serie) buckets.
Proof.
refine (split_keeps_slices (F:=Q) 0 six_series [] split_six [] _).
vm_compute. reflexivity.
Defined.

Lemma process_directory_reports_witness :
  match process_directory (F:=Q) mismatched_request [] with
  | (Ok series_, log') =>
    length series_ = 1%nat /\
    last log' = Some (PFinish (Some "Found 2 correct series.")) /\
    exists series0 log1 series2 series3 log2 middle,
      examine_files (list_files mismatched_request) [] 0
        ([] ++ [PStart "examining files" "files" (length (list_files mismatched_request))])
      = (Ok series0, log1) /\
      sort_by (fun x => Ok (DicomSeries._suid x)) series0 = Ok series2 /\
      split_all (length series2) series2 log1 = (Ok series3, log2) /\
      series_ = finished series3 /\
      log' = [] ++ [PStart "examining files" "files" (length (list_files mismatched_request))]
                ++ middle ++ [PFinish (Some (found_message (length series3)))] /\
      Forall (fun e => (exists msg, e = PWrite msg) \/ exists k, e = PSetProgress k) middle /\
      (length series_ <= length series3)%nat /\
      ((length series_ < length series3)%nat <->
       Exists (fun s => is_Ok (DicomSeries._finish s []).1 = false) series3)
  | _ => False
  end.
Proof.
assert (match (process_directory (F:=Q) mismatched_request []).1 with
        | Ok series_ => length series_ = 1%nat
        | _ => False
        end) as Hs by (vm_compute; reflexivity).
assert (last (process_directory (F:=Q) mismatched_request []).2
        = Some (PFinish (Some "Found 2 correct series."))) as Hl by (vm_compute; reflexivity).
destruct (process_directory (F:=Q) mismatched_request []) as [[series_|e|] log'] eqn:E;
  [|done..].
split; [exact Hs|]. split; [exact Hl|].
exact (process_directory_reports mismatched_request [] _ _ E).
Defined.

(** ** The plugin's reader *)

Section ReaderFacts.
Context {F : Type} `{PyFloat F} `{PyRuntime} {ndarray : Type} `{NumPy F ndarray}.

Implicit Types (self : Reader.t F ndarray).

(** The directory is scanned once: a list of series that was returned is
    kept, and returned again without a scan. *)
Lemma series_Ok self self' s :
  Reader.series self = (Ok s, self') ->
  Reader._series self' = Some s /\ Reader._data self' = Reader._data self /\
  Reader._info self' = Reader._info self /\
  Reader.request self' = Reader.request self /\
  Reader.series self' = (Ok s, self').
Proof.
unfold Reader.series at 1. destruct (Reader._series self) as [s0|] eqn:Es.
- intros [= <- <-]. unfold Reader.series. by rewrite Es.
- destruct (process_directory _ _) as [[s1|e|] log]; intros [= <- <-].
  unfold Reader.series. done.
Qed.

Lemma ensure_data_Ok self self' data :
  Reader.ensure_data self = (Ok data, self') ->
  Reader._data self' = Some data /\ Reader.request self' = Reader.request self /\
  Reader.ensure_data self' = (Ok data, self').
Proof.
unfold Reader.ensure_data at 1. destruct (Reader._data self) as [d|] eqn:Ed.
- intros [= <- <-]. unfold Reader.ensure_data. by rewrite Ed.
- destruct (Reader.series self) as [[s|e|] self1] eqn:Es; [|done..].
  apply series_Ok in Es as (_ & _ & _ & Hreq & _).
  destruct (_ ≫= _) as [[info d]|e|]; intros [= <- <-].
  unfold Reader.ensure_data. done.
Qed.

(** X17: asking for the length twice.  Where [_get_length] returns a
    length, a second call on the reader as the first left it returns the
    same length and leaves the reader as it is: the data loaded and the
    list of series found by the first call are kept, so neither a file
    nor the directory is read again. *)
Theorem _get_length_again self self' (n : nat) :
  Reader._get_length self = (Ok n, self') ->
  Reader._get_length self' = (Ok n, self').
Proof.
unfold Reader._get_length at 1.
destruct (Reader.ensure_data self) as [[data|e|] self1] eqn:Ed; [|done..].
apply ensure_data_Ok in Ed as (Hd & Hreq & Hagain).
assert (forall g : list (DicomSeries.t F) -> nat,
          (let (r, self0) := Reader.series self1 in (g <$> r, self0)) = (Ok n, self') ->
          Reader.ensure_data self' = (Ok data, self') /\
          Reader.request self' = Reader.request self1 /\
          (let (r, self0) := Reader.series self' in (g <$> r, self0)) = (Ok n, self'))
  as Hseries.
{ intros g. destruct (Reader.series self1) as [[s|e|] self2] eqn:Es; intros [= Hn <-].
  apply series_Ok in Es as (Hs & Hd' & _ & Hreq' & Hs').
  rewrite Hs'. cbn. rewrite Hn. split; [|done].
  unfold Reader.ensure_data. by rewrite Hd', Hd. }
destruct (expect (Reader.request self1)) eqn:Hex.
- intros [= <- <-]. unfold Reader._get_length. by rewrite Hagain, Hex.
- destruct (decide _) as [Hn|Hn].
  + intros [= <- <-]. unfold Reader._get_length.
    by rewrite Hagain, Hex, decide_True.
  + intros Hs. apply Hseries in Hs as (He & Hr & Hs).
    unfold Reader._get_length. by rewrite He, Hr, Hex, decide_False.
- destruct (decide _) as [Hn|Hn].
  + intros [= <- <-]. unfold Reader._get_length.
    by rewrite Hagain, Hex, decide_True.
  + intros Hs. apply Hseries in Hs as (He & Hr & Hs).
    unfold Reader._get_length. by rewrite He, Hr, Hex, decide_False.
- intros Hs. apply Hseries in Hs as (He & Hr & Hs).
  unfold Reader._get_length. by rewrite He, Hr, Hex.
- done.
Qed.

(** X18: the meta data that come with the data.  Where [_get_data]
    takes the image from the loaded file (a single image is expected, or
    index 0 is asked of a file of several slices), the info it returns
    with the image is the info [_get_meta_data] returns for the same
    index, and neither call changes the reader. *)
Theorem _get_meta_data_of_loaded_file self self' (index : Z) (a : ndarray)
    (info : gmap string (value F)) (data : ndarray) :
  Reader._data self = Some data ->
  expect (Reader.request self) = EXPECT_IM \/
    (index = 0 /\ (1 < Reader.nslices_of data)%nat) ->
  Reader._get_data self index = (Ok (a, info), self') ->
  self' = self /\ _get_meta_data self (Some index) = (Ok info, self).
Proof.
intros Hd Hloaded. unfold Reader._get_data, _get_meta_data, Reader.ensure_data.
rewrite Hd. destruct Hloaded as [Hex|[-> Hn]].
- rewrite Hex. destruct (decide (1 < _)%nat).
  + destruct (nd_getitem data index); intros [= <- <- <-]. done.
  + destruct (decide (index = 0)); intros [= <- <- <-]. done.
- rewrite !bool_decide_eq_true_2 by done. cbn [andb].
  destruct (expect _).
  + rewrite decide_True by done. destruct (nd_getitem data 0); intros [= <- <- <-]. done.
  + destruct (nd_getitem data 0); intros [= <- <- <-]. done.
  + intros [= <- <- <-]. done.
  + intros [= <- <- <-]. done.
  + done.
Qed.
End ReaderFacts.

Lemma _get_length_again_witness :
  match Reader._get_length (frames_reader EXPECT_MIM) with
  | (Ok n, self') => n = 3%nat /\ Reader._get_length self' = (Ok n, self')
  | _ => False
  end.
Proof.
assert ((Reader._get_length (frames_reader EXPECT_MIM)).1 = Ok 3%nat) as Hn
  by (vm_compute; reflexivity).
destruct (Reader._get_length (frames_reader EXPECT_MIM)) as [[n|e|] self'] eqn:E;
  [|discriminate Hn..].
split; [by injection Hn|]. exact (_get_length_again _ _ _ E).
Defined.

Lemma _get_meta_data_of_loaded_file_witness :
  match Reader._get_data (frames_reader EXPECT_VOL) 0, Reader._data (frames_reader EXPECT_VOL) with
  | (Ok (a, info), self'), Some data =>
    _get_meta_data (frames_reader EXPECT_VOL) (Some 0) = (Ok info, frames_reader EXPECT_VOL)
  | _, _ => False
  end.
Proof.
assert (is_Ok (Reader._get_data (frames_reader EXPECT_VOL) 0).1 = true) as Hok
  by (vm_compute; reflexivity).
assert (option_map (Reader.nslices_of (F:=Q)) (Reader._data (frames_reader EXPECT_VOL))
        = Some 3%nat)
  as Hn by (vm_compute; reflexivity).
destruct (Reader._get_data (frames_reader EXPECT_VOL) 0) as [[[a info]|e|] self'] eqn:E;
  [|discriminate Hok..].
destruct (Reader._data (frames_reader EXPECT_VOL)) as [data|] eqn:Ed; [|discriminate Hn].
injection Hn as Hn.
refine (proj2 (_get_meta_data_of_loaded_file (frames_reader EXPECT_VOL) self' 0 a info data
                 Ed _ E)).
right. split; [reflexivity|lia].
Defined.

(** ** A whole file, written and read back *)

Section Encoded.
Context {F : Type} `{PyFloat F} `{PyRuntime}.

Implicit Types (self : SimpleDicomReader F) (e : element) (es : list element)
  (ms : list meta_element) (pre rest : bytes).

Lemma converter_ext self1 self2 vr x :
  _unpackPrefix self1 = _unpackPrefix self2 -> converter self1 vr x = converter self2 vr x.
Proof. intros Hp. unfold converter. by rewrite Hp. Qed.

Lemma element_at_end_behind self pre :
  _file self = Some (behind pre []) -> _readDataElement self = Raise StructError.
Proof. apply element_at_end. Qed.

Lemma encode_element_length little e :
  well_formed_element e -> (8 <= length (encode_element little e))%nat.
Proof.
intros (_ & _ & Hvr & _). unfold encode_element.
rewrite encode_explicit_length by done. destruct (is_long_VR _); lia.
Qed.

Lemma locate_cons little offset e es loc :
  locate little offset (e :: es) loc
  = locate little (offset + length (encode_element little e)) es
      (locate little offset [e] loc).
Proof. reflexivity. Qed.

(** One element of the body, read by [_readDataElement]. *)
Lemma element_decoded self pre e rest :
  well_formed_element e -> is_implicit_VR self = false ->
  _file self = Some (behind pre (encode_element (_unpackPrefix self) e ++ rest)) ->
  exists self1,
    _readDataElement self
    = Ok (e_group e, e_element e, if is_pixel_data e then deferred else e_value e, self1) /\
    _file self1 = Some (behind (pre ++ encode_element (_unpackPrefix self) e) rest) /\
    _pixel_data_loc self1
    = locate (_unpackPrefix self) (length pre) [e] (_pixel_data_loc self) /\
    _info self1 = _info self /\ _unpackPrefix self1 = _unpackPrefix self /\
    is_implicit_VR self1 = false /\ is_little_endian self1 = is_little_endian self /\
    _filename self1 = _filename self /\ disk self1 = disk self.
Proof.
intros (Hg & Hel & Hvr & Hlen) Hi Hf.
rewrite (explicit_element_decoded self pre _ _ _ _ rest Hg Hel Hvr Hlen Hi Hf).
unfold is_pixel_data. cbn [locate]. fold (is_pixel_data e).
unfold is_pixel_data, encode_element.
destruct ((e_group e =? 32736) && (e_element e =? 16)); eexists; (split; [reflexivity|]);
  cbn; by rewrite ?Hi.
Qed.

(** The loop over the elements of a body that is all there. *)
Lemma data_elements_loop_encoded es : forall fuel self pre,
  Forall well_formed_element es ->
  forallb (convertible (F:=F) (_unpackPrefix self)) es = true ->
  is_implicit_VR self = false ->
  _file self = Some (behind pre (concat (encode_element (_unpackPrefix self) <$> es))) ->
  (length es < fuel)%nat ->
  exists self',
    data_elements_loop fuel self = Ok self' /\
    _info self' = foldl (store (_unpackPrefix self)) (_info self) es /\
    _pixel_data_loc self'
    = locate (_unpackPrefix self) (length pre) es (_pixel_data_loc self) /\
    _unpackPrefix self' = _unpackPrefix self /\
    is_implicit_VR self' = false /\ is_little_endian self' = is_little_endian self /\
    _filename self' = _filename self /\ disk self' = disk self /\
    _file self'
    = Some (behind (pre ++ concat (encode_element (_unpackPrefix self) <$> es)) []).
Proof.
induction es as [|e es IH]; intros [|fuel] self pre Hwf Hconv Hi Hf Hfuel;
  cbn [length] in Hfuel; try lia.
- cbn [data_elements_loop]. rewrite (element_at_end_behind self pre) by done.
  exists self. cbn [fmap list_fmap concat]. rewrite app_nil_r.
  repeat split; first [reflexivity | exact Hi | exact Hf].
- apply Forall_cons in Hwf as [He Hwf]. cbn [forallb] in Hconv.
  apply andb_prop in Hconv as [Hce Hconv].
  rewrite fmap_cons, concat_cons in Hf.
  destruct (element_decoded self pre e _ He Hi Hf)
    as (self1 & Hr & Hf1 & Hloc1 & Hinfo1 & Hp1 & Hi1 & Hl1 & Hn1 & Hd1).
  cbn [data_elements_loop]. rewrite Hr.
  assert (forall self2,
            _file self2 = _file self1 -> _pixel_data_loc self2 = _pixel_data_loc self1 ->
            _info self2 = store (_unpackPrefix self) (_info self) e ->
            _unpackPrefix self2 = _unpackPrefix self1 ->
            is_implicit_VR self2 = false ->
            is_little_endian self2 = is_little_endian self1 ->
            _filename self2 = _filename self1 -> disk self2 = disk self1 ->
            exists self',
              data_elements_loop fuel self2 = Ok self' /\
              _info self' = foldl (store (_unpackPrefix self)) (_info self) (e :: es) /\
              _pixel_data_loc self'
              = locate (_unpackPrefix self) (length pre) (e :: es) (_pixel_data_loc self) /\
              _unpackPrefix self' = _unpackPrefix self /\
              is_implicit_VR self' = false /\
              is_little_endian self' = is_little_endian self /\
              _filename self' = _filename self /\ disk self' = disk self /\
              _file self'
              = Some (behind (pre ++ concat (encode_element (_unpackPrefix self)
                                               <$> (e :: es))) [])) as Hnext.
  { intros self2 Hf2 Hloc2 Hinfo2 Hp2 Hi2 Hl2 Hn2 Hd2.
    destruct (IH fuel self2 (pre ++ encode_element (_unpackPrefix self) e))
      as (self' & Hloop & Hinfo' & Hloc' & Hp' & Hi' & Hl' & Hn' & Hd' & Hf').
    - done.
    - by rewrite Hp2, Hp1.
    - done.
    - by rewrite Hf2, Hf1, Hp2, Hp1.
    - lia.
    - exists self'. rewrite Hloop, Hinfo', Hloc', Hp', Hl', Hn', Hd', Hf'.
      rewrite Hp2, Hp1, Hinfo2, Hloc2, Hloc1, Hl2, Hl1, Hn2, Hn1, Hd2, Hd1.
      rewrite (locate_cons _ _ e es), length_app, fmap_cons, concat_cons, app_assoc.
      repeat split; first [reflexivity | exact Hi']. }
  unfold convertible, stored in Hce. unfold store, stored in Hnext.
  set (kept := bool_decide (e_group e ∈ GROUPS)) in *.
  set (tag := MINIDICT !! (e_group e, e_element e)) in *.
  clearbody kept tag.
  destruct kept; [|by apply (Hnext self1)].
  destruct tag as [[name vr]|]; [|by apply (Hnext self1)].
  rewrite (converter_ext self1 (blank (_unpackPrefix self))) by (by rewrite Hp1).
  destruct (converter (blank (_unpackPrefix self)) vr _) as [v| |]; [|done..].
  apply (Hnext (set_info self1 (<[name:=v]> (_info self1))));
    first [reflexivity | exact Hi1 | cbn [_info set_info]; by rewrite Hinfo1].
Qed.

Lemma uid_after_step uid m :
  well_formed_meta m ->
  (if m_element m =? 16
   then (fun s => Some (strip_nul s)) <$> decode_ascii (m_value m)
   else Ok uid) = Ok (uid_after uid [m]).
Proof.
intros (_ & _ & _ & Hascii). cbn. destruct (Z.eqb_spec (m_element m) 16) as [He|]; [|done].
unfold decode_ascii. by rewrite (Hascii He).
Qed.

(** The loop over the meta elements, which ends at the first element of
    the body and goes back to where that element starts. *)
Lemma header_loop_encoded ms : forall fuel self pre uid e rest,
  Forall well_formed_meta ms -> well_formed_element e -> e_group e <> 2 ->
  _file self
  = Some (behind pre (concat (encode_meta <$> ms) ++ encode_element true e ++ rest)) ->
  _unpackPrefix self = true -> is_implicit_VR self = false ->
  (length ms < fuel)%nat ->
  exists self',
    header_loop fuel self uid = Ok (uid_after uid ms, self') /\
    _file self'
    = Some (behind (pre ++ concat (encode_meta <$> ms)) (encode_element true e ++ rest)) /\
    _pixel_data_loc self'
    = locate true (length (pre ++ concat (encode_meta <$> ms))) [e] (_pixel_data_loc self) /\
    _info self' = _info self /\ _unpackPrefix self' = true /\
    is_implicit_VR self' = false /\ is_little_endian self' = is_little_endian self /\
    _filename self' = _filename self /\ disk self' = disk self.
Proof.
induction ms as [|m ms IH]; intros [|fuel] self pre uid e rest Hwf He Hg Hf Hp Hi Hfuel;
  cbn [length] in Hfuel; try lia.
- cbn [header_loop]. rewrite (proj2 (the_file_Ok self _) Hf). cbn [mbind result_bind].
  cbn [fmap list_fmap concat app] in Hf. rewrite <- Hp in Hf.
  destruct (element_decoded self pre e rest He Hi Hf)
    as (self1 & Hr & Hf1 & Hloc1 & Hinfo1 & Hp1 & Hi1 & Hl1 & Hn1 & Hd1).
  rewrite Hr. cbn [mbind result_bind].
  rewrite (proj2 (Z.eqb_neq _ _) Hg).
  rewrite (proj2 (the_file_Ok self1 _) Hf1). cbn [mbind result_bind].
  eexists. split; [reflexivity|].
  unfold set_file, seek, tell, behind.
  cbn [_file _info _unpackPrefix is_implicit_VR is_little_endian _filename disk
       _pixel_data_loc content pos fmap list_fmap concat].
  rewrite Hp, app_nil_r, <- app_assoc.
  by rewrite Hloc1, Hinfo1, Hp1, Hp, Hi1, Hl1, Hn1, Hd1.
- apply Forall_cons in Hwf as [Hm Hwf].
  cbn [header_loop]. rewrite (proj2 (the_file_Ok self _) Hf). cbn [mbind result_bind].
  rewrite fmap_cons, concat_cons, <- app_assoc in Hf.
  rewrite (meta_element_decoded self pre m _ Hm Hf Hp Hi). cbn [mbind result_bind].
  change (2 =? 2) with true. cbn [andb].
  rewrite (uid_after_step uid m Hm). cbn [mbind result_bind].
  destruct (IH fuel (set_file self (Some (File ((pre ++ encode_meta m)
                       ++ concat (encode_meta <$> ms) ++ encode_element true e ++ rest)
                       (length (pre ++ encode_meta m)))))
              (pre ++ encode_meta m) (uid_after uid [m]) e rest)
    as (self' & Hloop & Hf' & Hloc' & Hrest); try done; [lia|].
  exists self'. rewrite Hloop. split; [done|].
  rewrite fmap_cons, concat_cons, app_assoc. by rewrite Hf', Hloc'.
Qed.

Lemma locate_again little offset e es loc :
  locate little offset (e :: es) (locate little offset [e] loc)
  = locate little offset (e :: es) loc.
Proof. cbn [locate]. by destruct (is_pixel_data e). Qed.

Lemma encoded_length little es :
  Forall well_formed_element es ->
  (length es <= length (concat (encode_element little <$> es)))%nat.
Proof.
induction 1 as [|e es He _ IH]; [done|].
rewrite fmap_cons, concat_cons, length_app. cbn [length].
pose proof (encode_element_length little e He). lia.
Qed.

Lemma concat_meta_fuel ms :
  Forall well_formed_meta ms -> (length ms <= length (concat (encode_meta <$> ms)))%nat.
Proof.
induction 1 as [|m ms (_ & Hvr & _) _ IH]; [done|].
rewrite fmap_cons, concat_cons, length_app. cbn [length].
unfold encode_meta at 1. rewrite encode_explicit_length by done.
destruct (is_long_VR _); lia.
Qed.

Lemma reader_ext (a b : SimpleDicomReader F) :
  _filename a = _filename b -> disk a = disk b -> _file a = _file b ->
  _pixel_data_loc a = _pixel_data_loc b -> is_implicit_VR a = is_implicit_VR b ->
  is_little_endian a = is_little_endian b -> _unpackPrefix a = _unpackPrefix b ->
  _info a = _info b -> a = b.
Proof. destruct a, b. cbn. congruence. Qed.

(** [_read_data_elements] on a body that is all there, with every field
    of the reader it leaves. *)
Lemma _read_data_elements_encoded self pre es :
  Forall well_formed_element es ->
  forallb (convertible (F:=F) (_unpackPrefix self)) es = true ->
  is_implicit_VR self = false ->
  _file self = Some (behind pre (concat (encode_element (_unpackPrefix self) <$> es))) ->
  exists self',
    _read_data_elements self = Ok self' /\
    _info self' = foldl (store (_unpackPrefix self)) (_info self) es /\
    _pixel_data_loc self'
    = locate (_unpackPrefix self) (length pre) es (_pixel_data_loc self) /\
    _unpackPrefix self' = _unpackPrefix self /\
    is_implicit_VR self' = false /\ is_little_endian self' = is_little_endian self /\
    _filename self' = _filename self /\ disk self' = disk self /\
    _file self'
    = Some (behind (pre ++ concat (encode_element (_unpackPrefix self) <$> es)) []).
Proof.
intros Hwf Hconv Hi Hf. unfold _read_data_elements.
rewrite (proj2 (the_file_Ok self _) Hf). cbn [mbind result_bind].
apply (data_elements_loop_encoded es _ self pre Hwf Hconv Hi Hf).
unfold behind. cbn [content]. rewrite length_app.
pose proof (encoded_length (_unpackPrefix self) es Hwf). lia.
Qed.

(** X19: [_read_data_elements] on a body of well-formed elements in
    explicit VR, in either byte order, whose kept values all convert,
    returns (the loop has the fuel to reach the end of the stream).  The
    info it leaves is the info it found with the kept elements stored one
    after the other under their dictionary names, a later one replacing an
    earlier one of the same name, and elements outside the dictionary
    left out; the pixel data location is that of the last (7FE0, 0010)
    element, or the one it found when there is none.  The stream is at
    its end afterwards. *)
Theorem read_data_elements_stores self pre es :
  Forall well_formed_element es ->
  forallb (convertible (F:=F) (_unpackPrefix self)) es = true ->
  is_implicit_VR self = false ->
  _file self = Some (behind pre (concat (encode_element (_unpackPrefix self) <$> es))) ->
  exists self',
    _read_data_elements self = Ok self' /\
    _info self' = foldl (store (_unpackPrefix self)) (_info self) es /\
    _pixel_data_loc self'
    = locate (_unpackPrefix self) (length pre) es (_pixel_data_loc self) /\
    (forall f, _file self' = Some f -> pos f = length (content f)).
Proof.
intros Hwf Hconv Hi Hf.
destruct (_read_data_elements_encoded self pre es Hwf Hconv Hi Hf)
  as (self' & Hr & Hinfo & Hloc & _ & _ & _ & _ & _ & Hf').
exists self'. split; [exact Hr|]. split; [exact Hinfo|]. split; [exact Hloc|].
intros f Hfile. rewrite Hf' in Hfile. injection Hfile as <-.
unfold behind. cbn [pos content]. by rewrite app_nil_r.
Qed.

(** [_read_header] on a file whose meta elements leave a plain transfer
    syntax and whose body starts with an element outside group 2. *)
Lemma _read_header_encoded self ms e es :
  Forall well_formed_meta ms -> well_formed_element e -> e_group e <> 2 ->
  plain_syntax (uid_after None ms) ->
  _file self = Some (File (encoded_file ms (e :: es)) 132) ->
  _unpackPrefix self = true -> is_implicit_VR self = false ->
  exists self',
    _read_header self = Ok self' /\
    _file self'
    = Some (behind (header_only_file ms) (concat (encode_element true <$> e :: es))) /\
    _pixel_data_loc self'
    = locate true (length (header_only_file ms)) [e] (_pixel_data_loc self) /\
    _info self'
    = <["TransferSyntaxUID" := value_of_uid (uid_after None ms)]> (_info self) /\
    _unpackPrefix self' = true /\ is_implicit_VR self' = false /\
    is_little_endian self' = true /\
    _filename self' = _filename self /\ disk self' = disk self.
Proof.
intros Hwf He Hg Hplain Hf Hp Hi. unfold _read_header.
rewrite (proj2 (the_file_Ok self _) Hf). cbn [mbind result_bind content].
assert (_file self
        = Some (behind preamble (concat (encode_meta <$> ms) ++ encode_element true e
                                 ++ concat (encode_element true <$> es)))) as Hf0.
{ rewrite Hf. unfold behind, encoded_file. by rewrite fmap_cons, concat_cons. }
destruct (header_loop_encoded ms (S (length (encoded_file ms (e :: es)))) self preamble
            None e _ Hwf He Hg Hf0 Hp Hi)
  as (self1 & Hloop & Hf1 & Hloc1 & Hinfo1 & Hp1 & Hi1 & Hl1 & Hn1 & Hd1).
{ unfold encoded_file. rewrite !length_app.
  pose proof (concat_meta_fuel ms Hwf). lia. }
rewrite Hloop. cbn [mbind result_bind].
set (uid := uid_after None ms) in *.
assert (forall r : SimpleDicomReader F,
          handle_transfer_syntax uid r = Ok (false, true, r)) as ->.
{ intros r. by destruct Hplain as [->|[->| ->]]. }
cbn [mbind result_bind]. eexists. split; [reflexivity|].
unfold set_mode, set_info, header_only_file.
cbn [_file _info _unpackPrefix is_implicit_VR is_little_endian _filename disk
     _pixel_data_loc].
rewrite Hf1, Hloc1, Hinfo1, Hn1, Hd1, fmap_cons, concat_cons.
repeat split; reflexivity.
Qed.

Lemma magic_of_encoded ms es p :
  read 4 (seek 128 (File (encoded_file ms es) p)) = (DICM, File (encoded_file ms es) 132).
Proof.
unfold read, seek, encoded_file, preamble. cbn [content pos].
rewrite <- app_assoc, drop_app_length' by (by rewrite repeat_length).
by rewrite take_app_length' by done.
Qed.

(** [_read] on such a file, from a reader as [__init__] sets it up. *)
Lemma _read_encoded (from_path : bool) self p ms e es (target : SimpleDicomReader F) :
  Forall well_formed_meta ms -> Forall well_formed_element (e :: es) ->
  e_group e <> 2 -> forallb (convertible (F:=F) true) (e :: es) = true ->
  plain_syntax (uid_after None ms) ->
  _file self = Some (File (encoded_file ms (e :: es)) p) ->
  _unpackPrefix self = true -> is_implicit_VR self = false ->
  _pixel_data_loc self = None -> _info self = ∅ ->
  _filename target = _filename self -> disk target = disk self ->
  _file target = _file (decoded (FromFile (File [] 0)) ms (e :: es)) ->
  _pixel_data_loc target = _pixel_data_loc (decoded (FromFile (File [] 0)) ms (e :: es)) ->
  is_implicit_VR target = false -> is_little_endian target = true ->
  _unpackPrefix target = true ->
  _info target = _info (decoded (FromFile (File [] 0)) ms (e :: es)) ->
  _read from_path self
  = (r ← _get_shape_and_sampling target;
     Ok (if from_path then set_file r None else r)).
Proof.
intros Hms Hes Hg Hconv Hplain Hf Hp Hi Hloc Hinfo Hn Hd Htf Htloc Hti Htl Htp Htinfo.
pose proof Hes as [He _]%Forall_cons.
unfold _read. rewrite (proj2 (the_file_Ok self _) Hf). cbn [mbind result_bind].
rewrite (magic_of_encoded ms (e :: es) p).
destruct (decide (DICM ≠ DICM)) as [Hne|_]; [exfalso; apply Hne; reflexivity|].
destruct (_read_header_encoded
            (set_file self (Some (File (encoded_file ms (e :: es)) 132))) ms e es
            Hms He Hg Hplain eq_refl Hp Hi)
  as (self1 & Hh & Hf1 & Hloc1 & Hinfo1 & Hp1 & Hi1 & Hl1 & Hn1 & Hd1).
rewrite Hh. cbn [mbind result_bind].
destruct (_read_data_elements_encoded self1 (header_only_file ms) (e :: es))
  as (self2 & Hr & Hinfo2 & Hloc2 & Hp2 & Hi2 & Hl2 & Hn2 & Hd2 & Hf2);
  rewrite ?Hp1; try assumption.
rewrite Hr. cbn [mbind result_bind].
replace self2 with target; [reflexivity|].
rewrite Hp1 in Hinfo2, Hloc2, Hp2, Hf2.
cbn [set_file _pixel_data_loc _info _filename disk] in *.
apply reader_ext.
- by rewrite Hn, Hn2, Hn1.
- by rewrite Hd, Hd2, Hd1.
- rewrite Htf, Hf2. unfold decoded, behind, encoded_file, header_only_file. cbn [_file].
  by rewrite app_nil_r, <- !app_assoc.
- rewrite Htloc, Hloc2, Hloc1, Hloc, locate_again. reflexivity.
- by rewrite Hti, Hi2.
- by rewrite Htl, Hl2, Hl1.
- by rewrite Htp, Hp2.
- rewrite Htinfo, Hinfo2, Hinfo1, Hinfo. reflexivity.
Qed.

(** X20: a file written in explicit VR little endian (preamble, magic,
    well-formed meta elements that leave no transfer syntax or a plain
    one, then well-formed body elements of which the first is outside
    group 2 and the kept ones convert) is read back element by element.
    The constructor gives what [_get_shape_and_sampling] makes of the
    reader that holds the transfer syntax and the kept elements under
    their names, the place of the last pixel data element and the stream
    at its end; a reader opened from a path is closed afterwards. *)
Theorem encoded_file_read (src : source) ms e es :
  Forall well_formed_meta ms -> Forall well_formed_element (e :: es) ->
  e_group e <> 2 -> forallb (convertible (F:=F) true) (e :: es) = true ->
  plain_syntax (uid_after None ms) ->
  source_bytes src = encoded_file ms (e :: es) ->
  new_SimpleDicomReader (F:=F) src
  = (self ← _get_shape_and_sampling (decoded src ms (e :: es));
     Ok (match src with FromPath _ _ => set_file self None | FromFile _ => self end)).
Proof.
intros Hms Hes Hg Hconv Hplain Hsrc. unfold new_SimpleDicomReader.
destruct src as [filename data|[c p]]; cbn [source_bytes content] in Hsrc; subst;
  cbn zeta beta iota.
- apply (_read_encoded true _ 0 ms e es); first [assumption | reflexivity].
- apply (_read_encoded false _ p ms e es); first [assumption | reflexivity].
Qed.
End Encoded.

Lemma slice_elements_well_formed : Forall well_formed_element slice_elements.
Proof.
unfold slice_elements.
repeat (apply Forall_cons; split;
        [unfold well_formed_element; repeat split; try reflexivity; discriminate|]).
constructor.
Qed.

Lemma meta_explicit_le_well_formed : Forall well_formed_meta [meta_explicit_le].
Proof.
apply Forall_singleton. unfold well_formed_meta.
repeat split; try reflexivity; try discriminate.
Qed.

Lemma read_data_elements_stores_witness :
  exists self',
    _read_data_elements slice_body_reader = Ok self' /\
    _info self' = foldl (store true) ∅ slice_elements /\
    _pixel_data_loc self' = locate true (length preamble) slice_elements None /\
    (forall f, _file self' = Some f -> pos f = length (content f)).
Proof.
refine (read_data_elements_stores slice_body_reader preamble slice_elements _ _ _ _).
- exact slice_elements_well_formed.
- vm_compute. reflexivity.
- reflexivity.
- reflexivity.
Defined.

Lemma encoded_file_read_witness :
  new_SimpleDicomReader (F:=Q)
    (FromFile (File (encoded_file [meta_explicit_le] slice_elements) 0))
  = (self ← _get_shape_and_sampling
              (decoded (FromFile (File (encoded_file [meta_explicit_le] slice_elements) 0))
                 [meta_explicit_le] slice_elements);
     Ok self).
Proof.
unfold slice_elements.
refine (encoded_file_read (F:=Q) (FromFile (File _ 0)) [meta_explicit_le] _ _ _ _ _ _ _ _).
- exact meta_explicit_le_well_formed.
- exact slice_elements_well_formed.
- discriminate.
- vm_compute. reflexivity.
- right. left. vm_compute. reflexivity.
- reflexivity.
Defined.

(** ** The pixel data, from the file to the array *)

Section PixelValue.
Context {F : Type} `{PyFloat F} `{PyRuntime} {ndarray : Type} `{NumPy F ndarray}.

Implicit Types (self mem : SimpleDicomReader F) (e x : element) (es : list element)
  (pre V : bytes).

Lemma locate_no_pixel little offset es loc :
  forallb (fun x => negb (is_pixel_data x)) es = true ->
  locate little offset es loc = loc.
Proof.
revert offset loc. induction es as [|x es IH]; intros offset loc Hes; [done|].
cbn [forallb] in Hes. apply andb_prop in Hes as [Hx Hes].
cbn [locate]. destruct (is_pixel_data x); [done|]. by apply IH.
Qed.

Lemma locate_app little offset (es1 es2 : list element) loc :
  locate little offset (es1 ++ es2) loc
  = locate little (offset + length (concat (encode_element little <$> es1))) es2
      (locate little offset es1 loc).
Proof.
revert offset loc. induction es1 as [|x es1 IH]; intros offset loc.
- cbn [app locate fmap list_fmap concat length]. by rewrite Nat.add_0_r.
- rewrite fmap_cons, concat_cons, length_app. cbn [app locate].
  rewrite IH. f_equal. lia.
Qed.

Lemma encode_element_value little e :
  exists hdr, encode_element little e = hdr ++ e_value e.
Proof.
unfold encode_element, encode_explicit. eexists. rewrite !app_assoc. reflexivity.
Qed.

(** The place that [locate] gives for the last pixel data element is
    where its value is in the file. *)
Lemma pixel_value_at little pre (es1 es2 : list element) e :
  take (length (e_value e))
    (drop (length pre + length (concat (encode_element little <$> es1))
           + length (encode_element little e) - length (e_value e))
       (pre ++ concat (encode_element little <$> es1 ++ e :: es2)))
  = e_value e.
Proof.
destruct (encode_element_value little e) as [hdr Hh].
rewrite fmap_app, concat_app, fmap_cons, concat_cons, Hh.
set (A := concat (encode_element little <$> es1)).
set (B := concat (encode_element little <$> es2)).
replace (length pre + length A + length (hdr ++ e_value e) - length (e_value e))%nat
  with (length (pre ++ A ++ hdr)) by (rewrite !length_app; lia).
replace (pre ++ A ++ (hdr ++ e_value e) ++ B) with ((pre ++ A ++ hdr) ++ e_value e ++ B)
  by (by rewrite <- !app_assoc).
by rewrite drop_app_length, take_app_length.
Qed.

(** [PixelData] is the name of the tag (7FE0, 0010) and of no other. *)
Lemma MINIDICT_pixel tag name vr :
  MINIDICT !! tag = Some (name, vr) -> name = "PixelData" -> tag = (0x7FE0, 0x0010).
Proof.
intros Htag Hname.
assert (map_Forall (fun k v => v.1 ≠ "PixelData" \/ k = (0x7FE0, 0x0010)) MINIDICT) as Hall.
{ refine (bool_decide_unpack _ _). vm_compute. exact I. }
destruct (Hall tag (name, vr) Htag) as [Hne|Heq]; [by destruct Hne|exact Heq].
Qed.

Lemma is_pixel_data_tag e :
  is_pixel_data e = true <-> (e_group e, e_element e) = (0x7FE0, 0x0010).
Proof.
unfold is_pixel_data. rewrite andb_true_iff, !Z.eqb_eq. split.
- by intros [-> ->].
- by intros [= -> ->].
Qed.

Lemma stored_pixel little e :
  is_pixel_data e = true ->
  stored (F:=F) little e = Some ("PixelData", Ok (VBytes deferred)).
Proof.
intros He. unfold stored. rewrite He.
apply is_pixel_data_tag in He. injection He as -> ->.
assert (bool_decide (0x7FE0 ∈ GROUPS) = true) as -> by (vm_compute; reflexivity).
assert (MINIDICT !! (0x7FE0, 0x0010) = Some ("PixelData", "OB")) as ->
  by (vm_compute; reflexivity).
reflexivity.
Qed.

Lemma store_other little (info : gmap string (value F)) x :
  is_pixel_data x = false ->
  store little info x !! "PixelData" = info !! "PixelData".
Proof.
intros Hx. unfold store, stored.
destruct (bool_decide (e_group x ∈ GROUPS)); [|reflexivity].
destruct (MINIDICT !! (e_group x, e_element x)) as [[name vr]|] eqn:Htag; [|reflexivity].
destruct (converter _ vr _) as [v| |]; [|reflexivity..].
apply lookup_insert_ne. intros ->.
pose proof (MINIDICT_pixel _ _ _ Htag eq_refl) as Hpix.
apply is_pixel_data_tag in Hpix. congruence.
Qed.

Lemma foldl_store_other little es : forall info : gmap string (value F),
  forallb (fun x => negb (is_pixel_data x)) es = true ->
  foldl (store little) info es !! "PixelData" = info !! "PixelData".
Proof.
induction es as [|x es IH]; intros info Hes; [reflexivity|].
cbn [forallb] in Hes. apply andb_prop in Hes as [Hx Hes].
cbn [foldl]. rewrite IH by exact Hes.
apply store_other. by destruct (is_pixel_data x).
Qed.

(** X21: where the pixel data is.  After [_read_data_elements] has read
    a body of well-formed elements, the place it has recorded is that of
    the value of the last pixel data element of the body: the bytes at
    the recorded offset of the file, as many as the recorded length, are
    the value of that element, wherever it stands among the others.  The
    info holds the placeholder under [PixelData], not the value. *)
Theorem pixel_data_located self pre (es1 es2 : list element) e :
  Forall well_formed_element (es1 ++ e :: es2) ->
  forallb (convertible (F:=F) (_unpackPrefix self)) (es1 ++ e :: es2) = true ->
  is_implicit_VR self = false ->
  _file self
  = Some (behind pre (concat (encode_element (_unpackPrefix self) <$> es1 ++ e :: es2))) ->
  is_pixel_data e = true ->
  forallb (fun x => negb (is_pixel_data x)) es2 = true ->
  exists self' (here : nat) (f : file),
    _read_data_elements self = Ok self' /\
    _pixel_data_loc self' = Some (here, Z.of_nat (length (e_value e))) /\
    _file self' = Some f /\
    take (length (e_value e)) (drop here (content f)) = e_value e /\
    _info self' !! "PixelData" = Some (VBytes deferred).
Proof.
intros Hwf Hconv Hi Hf He Hes2.
destruct (_read_data_elements_encoded self pre _ Hwf Hconv Hi Hf)
  as (self' & Hr & Hinfo & Hloc & _ & _ & _ & _ & _ & Hf').
exists self'. eexists. eexists. split; [exact Hr|].
split; [|split; [exact Hf'|split]].
- rewrite Hloc, locate_app. cbn [locate]. rewrite He.
  rewrite locate_no_pixel by exact Hes2. reflexivity.
- unfold behind. cbn [content]. rewrite app_nil_r. apply pixel_value_at.
- rewrite Hinfo, foldl_app. cbn [foldl].
  rewrite foldl_store_other by exact Hes2.
  unfold store. rewrite (stored_pixel _ e He). apply lookup_insert_eq.
Qed.

(** X22: loading the pixels late changes nothing.  When the reader has a
    place recorded for the pixel data (with a defined length) and the
    entry [PixelData] of its info is short, [get_numpy_array] reads the
    value [V] that is at that place, from the open file or from the
    file opened again, and returns the array it would return for a
    reader that has [V] under [PixelData] and nothing to load: the same
    array or the same exception. *)
Theorem deferred_loading_transparent self mem (f : file) (here : nat) V
    (pd : value F) (n : nat) :
  _pixel_data_loc self = Some (here, Z.of_nat (length V)) ->
  Z.of_nat (length V) <> 0xFFFFFFFF ->
  _info self !! "PixelData" = Some pd -> py_len pd = Ok n -> (n < 100)%nat ->
  (_file self = Some f \/ _file self = None /\ disk self = Some (content f)) ->
  take (length V) (drop here (content f)) = V ->
  _info mem = <["PixelData" := VBytes V]> (_info self) ->
  _pixel_data_loc mem = None -> is_little_endian mem = is_little_endian self ->
  fst <$> get_numpy_array (ndarray:=ndarray) self = fst <$> get_numpy_array mem.
Proof.
intros Hloc Hvl Hpd Hn Hshort Hfile Hvalue Hinfo Hnone Hle.
unfold get_numpy_array.
assert (contains self "PixelData" = true) as ->.
{ unfold contains. rewrite Hpd. reflexivity. }
assert (contains mem "PixelData" = true) as ->.
{ unfold contains. rewrite Hinfo, lookup_insert_eq. reflexivity. }
cbn [negb]. rewrite Hloc, Hnone. unfold getattr at 1. rewrite Hpd.
cbn [mbind result_bind]. rewrite Hn. cbn [mbind result_bind].
destruct (decide (n < 100)%nat) as [_|Hge]; [|lia].
assert (exists f0, match _file self with
                   | Some f => Ok f
                   | None => match disk self with
                             | Some data => Ok (File data 0)
                             | None => Raise IOError
                             end
                   end = Ok f0 /\ content f0 = content f) as (f0 & -> & Hc).
{ destruct Hfile as [->|[-> ->]]; eexists; split; reflexivity. }
cbn [mbind result_bind].
rewrite (proj2 (Z.eqb_neq _ _) Hvl). cbn [mbind result_bind].
unfold read, seek. cbn [content pos]. rewrite Nat2Z.id, Hc, Hvalue.
cbn [mbind result_bind].
set (loaded := set_info (set_file self _) _).
rewrite (_pixel_data_numpy_ext loaded mem (eq_sym Hinfo) (eq_sym Hle)).
destruct (_pixel_data_numpy mem) as [arr|ex|]; [|reflexivity..].
cbn [mbind result_bind].
rewrite (_apply_slope_and_offset_ext loaded mem arr (eq_sym Hinfo)).
destruct (_apply_slope_and_offset mem arr) as [arr'|ex|]; reflexivity.
Qed.
End PixelValue.

Lemma pixel_data_located_witness :
  exists (self' : SimpleDicomReader Q) (here : nat) (f : file),
    _read_data_elements slice_body_reader = Ok self' /\
    _pixel_data_loc self' = Some (here, 2) /\
    _file self' = Some f /\
    take 2 (drop here (content f)) = [x00; x00] /\
    _info self' !! "PixelData" = Some (VBytes deferred).
Proof.
refine (pixel_data_located slice_body_reader preamble (take 7 slice_elements) []
          slice_pixel_element _ _ _ _ _ _).
- exact slice_elements_well_formed.
- vm_compute. reflexivity.
- reflexivity.
- reflexivity.
- reflexivity.
- reflexivity.
Defined.

Lemma deferred_loading_transparent_witness :
  fst <$> get_numpy_array (ndarray:=zarray)
            (decoded (F:=Q) (FromFile (File [] 0)) [meta_explicit_le] slice_elements)
  = fst <$> get_numpy_array
              (in_memory (decoded (FromFile (File [] 0)) [meta_explicit_le] slice_elements)
                 [x00; x00]).
Proof.
refine (deferred_loading_transparent
          (decoded (F:=Q) (FromFile (File [] 0)) [meta_explicit_le] slice_elements)
          (in_memory _ [x00; x00])
          (File (encoded_file [meta_explicit_le] slice_elements)
             (length (encoded_file [meta_explicit_le] slice_elements)))
          (length (encoded_file [meta_explicit_le] slice_elements) - 2)
          [x00; x00] (VBytes deferred) 30 _ _ _ _ _ _ _ _ _ _).
- vm_compute. reflexivity.
- discriminate.
- vm_compute. reflexivity.
- reflexivity.
- lia.
- left. reflexivity.
- vm_compute. reflexivity.
- reflexivity.
- reflexivity.
- reflexivity.
Defined.

(** ** The volume of a series *)

Section SeriesArray.
Context {F : Type} `{PyFloat F} `{PyRuntime} {ndarray : Type} `{NumPy F ndarray}.

(** The loop that fills the volume, from slice [z] on. *)
Lemma fill_reports (rest : list (SimpleDicomReader F)) : forall (z : nat) (vol : ndarray)
    (lg : progress_log),
  let '(r, lg') :=
    (fix fill (z : nat) (rest : list (SimpleDicomReader F)) (vol : ndarray)
         (log : progress_log) : result ndarray * progress_log :=
       match rest with
       | [] => (Ok vol, log ++ [PFinish None])
       | dcm :: rest' =>
         match ('(slice, _) ← get_numpy_array dcm;
                nd_setitem vol (Z.of_nat z) slice) with
         | Ok vol => fill (S z) rest' vol (log ++ [PSetProgress (S z)])
         | Raise e => (Raise e, log)
         | OutOfFuel => (OutOfFuel, log)
         end
       end) z rest vol lg in
  if is_Ok r
  then lg' = lg ++ (PSetProgress <$> seq (S z) (length rest)) ++ [PFinish None]
  else exists k, (k < length rest)%nat /\ lg' = lg ++ (PSetProgress <$> seq (S z) k).
Proof.
induction rest as [|dcm rest IH]; intros z vol lg.
- reflexivity.
- destruct (get_numpy_array dcm ≫= _) as [vol'|e|] eqn:Hslice.
  + specialize (IH (S z) vol' (lg ++ [PSetProgress (S z)])).
    match type of IH with (let '(_, _) := ?X in _) => destruct X as [r lg'] end.
    destruct (is_Ok r).
    * rewrite IH. cbn [length seq fmap list_fmap]. by rewrite <- !app_assoc.
    * destruct IH as (k & Hk & ->). exists (S k). split; [cbn [length]; lia|].
      cbn [seq fmap list_fmap]. by rewrite <- !app_assoc.
  + exists 0%nat. split; [cbn [length]; lia|]. by rewrite app_nil_r.
  + exists 0%nat. split; [cbn [length]; lia|]. by rewrite app_nil_r.
Qed.

(** X23: what [DicomSeries.get_numpy_array] tells the progress
    indicator.  A series without slices raises ValueError('Serie does not
    contain any files.') and a series of one slice gives the array of
    that slice, both without a word to the indicator.  For n >= 2
    slices a success has reported start('loading data', '', n), then
    set_progress(2) up to set_progress(n) in this order, then finish();
    a failure has reported nothing at all (the first slice, the shape or
    the allocation failed) or the start and the counts up to the last
    slice that was stored, and never finish(): the indicator is left
    running. *)
Theorem series_array_reports (self : DicomSeries.t F) (log : progress_log) :
  let '(r, log') := DicomSeries.get_numpy_array (ndarray:=ndarray) self log in
  match DicomSeries._entries self with
  | [] => r = Raise (ValueError DicomSeries.no_files_message) /\ log' = log
  | [only] => r = fst <$> get_numpy_array only /\ log' = log
  | _ :: rest =>
    let n := length (DicomSeries._entries self) in
    if is_Ok r
    then log' = log ++ PStart "loading data" "" n
                       :: (PSetProgress <$> seq 2 (length rest)) ++ [PFinish None]
    else log' = log \/
         exists k, (k < length rest)%nat /\
                   log' = log ++ PStart "loading data" "" n :: (PSetProgress <$> seq 2 k)
  end.
Proof.
unfold DicomSeries.get_numpy_array.
destruct (DicomSeries._entries self) as [|first rest]; [done|].
destruct rest as [|second rest]; [done|].
destruct (_ ≫= _) as [vol|e|]; [|by left..].
pose proof (fill_reports (second :: rest) 1 vol
              (log ++ [PStart "loading data" "" (length (first :: second :: rest))]))
  as Hfill.
match type of Hfill with (let '(_, _) := ?X in _) => destruct X as [r lg'] end.
destruct (is_Ok r).
- rewrite Hfill. by rewrite <- !app_assoc.
- right. destruct Hfill as (k & Hk & ->). exists k. split; [exact Hk|].
  by rewrite <- !app_assoc.
Qed.
End SeriesArray.

(** ** A value that does not convert *)

Section Unconvertible.
Context {F : Type} `{PyFloat F} `{PyRuntime}.

Implicit Types (self : SimpleDicomReader F) (e : element) (es : list element)
  (pre rest : bytes).

(** The loop over the first elements of a body, whatever comes behind
    them. *)
Lemma data_elements_loop_prefix es : forall fuel self pre rest,
  Forall well_formed_element es ->
  forallb (convertible (F:=F) (_unpackPrefix self)) es = true ->
  is_implicit_VR self = false ->
  _file self
  = Some (behind pre (concat (encode_element (_unpackPrefix self) <$> es) ++ rest)) ->
  exists self1,
    data_elements_loop (length es + fuel) self = data_elements_loop fuel self1 /\
    _info self1 = foldl (store (_unpackPrefix self)) (_info self) es /\
    _unpackPrefix self1 = _unpackPrefix self /\ is_implicit_VR self1 = false /\
    _file self1
    = Some (behind (pre ++ concat (encode_element (_unpackPrefix self) <$> es)) rest).
Proof.
induction es as [|e es IH]; intros fuel self pre rest Hwf Hconv Hi Hf.
- exists self. cbn [fmap list_fmap concat length Nat.add foldl app] in *.
  rewrite app_nil_r. repeat split; first [reflexivity | exact Hi | exact Hf].
- apply Forall_cons in Hwf as [He Hwf]. cbn [forallb] in Hconv.
  apply andb_prop in Hconv as [Hce Hconv].
  rewrite fmap_cons, concat_cons, <- app_assoc in Hf.
  destruct (element_decoded self pre e _ He Hi Hf)
    as (self1 & Hr & Hf1 & _ & Hinfo1 & Hp1 & Hi1 & _).
  cbn [length Nat.add data_elements_loop]. rewrite Hr.
  assert (forall self2,
            _file self2 = _file self1 ->
            _info self2 = store (_unpackPrefix self) (_info self) e ->
            _unpackPrefix self2 = _unpackPrefix self1 ->
            is_implicit_VR self2 = false ->
            exists self',
              data_elements_loop (length es + fuel) self2 = data_elements_loop fuel self' /\
              _info self' = foldl (store (_unpackPrefix self)) (_info self) (e :: es) /\
              _unpackPrefix self' = _unpackPrefix self /\ is_implicit_VR self' = false /\
              _file self'
              = Some (behind (pre ++ concat (encode_element (_unpackPrefix self)
                                               <$> (e :: es))) rest)) as Hnext.
  { intros self2 Hf2 Hinfo2 Hp2 Hi2.
    destruct (IH fuel self2 (pre ++ encode_element (_unpackPrefix self) e) rest)
      as (self' & Hloop & Hinfo' & Hp' & Hi' & Hf').
    - done.
    - by rewrite Hp2, Hp1.
    - done.
    - by rewrite Hf2, Hf1, Hp2, Hp1.
    - exists self'. rewrite Hloop, Hinfo', Hp', Hf'.
      rewrite Hp2, Hp1, Hinfo2, fmap_cons, concat_cons, app_assoc.
      repeat split; first [reflexivity | exact Hi']. }
  unfold convertible, stored in Hce. unfold store, stored in Hnext.
  set (kept := bool_decide (e_group e ∈ GROUPS)) in *.
  set (tag := MINIDICT !! (e_group e, e_element e)) in *.
  clearbody kept tag.
  destruct kept; [|by apply (Hnext self1)].
  destruct tag as [[name vr]|]; [|by apply (Hnext self1)].
  rewrite (converter_ext self1 (blank (_unpackPrefix self))) by (by rewrite Hp1).
  destruct (converter (blank (_unpackPrefix self)) vr _) as [v| |]; [|done..].
  apply (Hnext (set_info self1 (<[name:=v]> (_info self1))));
    first [reflexivity | exact Hi1 | cbn [_info set_info]; by rewrite Hinfo1].
Qed.

(** X24: a kept element whose value does not convert.  When the
    conversion raises struct.error (a US or UL value that is not two or
    four bytes long), [_read_data_elements] stops there and returns
    without an error: the elements in front of it are stored, the element
    itself and all that is behind it in the file are not looked at.  Any
    other exception of the conversion (a text that does not decode) is
    raised to the caller. *)
Theorem conversion_error_ends_reading self pre es e rest (name : string) (ex : exn) :
  Forall well_formed_element es -> well_formed_element e ->
  forallb (convertible (F:=F) (_unpackPrefix self)) es = true ->
  stored (F:=F) (_unpackPrefix self) e = Some (name, Raise ex) ->
  is_implicit_VR self = false ->
  _file self
  = Some (behind pre (concat (encode_element (_unpackPrefix self) <$> es)
                      ++ encode_element (_unpackPrefix self) e ++ rest)) ->
  exists self',
    _info self' = foldl (store (_unpackPrefix self)) (_info self) es /\
    _read_data_elements self
    = match ex with
      | EOFError | StructError => Ok self'
      | _ => Raise ex
      end.
Proof.
intros Hwf He Hconv Hstored Hi Hf. unfold _read_data_elements.
rewrite (proj2 (the_file_Ok self _) Hf). cbn [mbind result_bind].
destruct (data_elements_loop_prefix es
            (S (length (content (behind pre (concat (encode_element (_unpackPrefix self) <$> es)
                      ++ encode_element (_unpackPrefix self) e ++ rest))) - length es))
            self pre _ Hwf Hconv Hi Hf)
  as (self1 & Hloop & Hinfo1 & Hp1 & Hi1 & Hf1).
replace (S (length (content _))) with (length es + S (length (content
           (behind pre (concat (encode_element (_unpackPrefix self) <$> es)
                      ++ encode_element (_unpackPrefix self) e ++ rest))) - length es))%nat.
2:{ unfold behind. cbn [content]. rewrite !length_app.
    pose proof (encoded_length (_unpackPrefix self) es Hwf). lia. }
rewrite Hloop. cbn [data_elements_loop].
rewrite <- Hp1 in Hf1 at 2.
destruct (element_decoded self1 _ e rest He Hi1 Hf1)
  as (self2 & Hr & _ & _ & Hinfo2 & Hp2 & _).
rewrite Hr. unfold stored in Hstored.
destruct (bool_decide (e_group e ∈ GROUPS)); [|discriminate Hstored].
destruct (MINIDICT !! (e_group e, e_element e)) as [[name' vr]|]; [|discriminate Hstored].
injection Hstored as -> Hconverter.
rewrite (converter_ext self2 (blank (_unpackPrefix self))) by (by rewrite Hp2, Hp1).
rewrite Hconverter.
exists self2. split; [by rewrite Hinfo2, Hinfo1|].
destruct ex; reflexivity.
Qed.
End Unconvertible.

Lemma conversion_error_ends_reading_witness :
  exists self' : SimpleDicomReader Q,
    _info self' = foldl (store true) ∅ (take 1 slice_elements) /\
    _read_data_elements long_rows_reader = Ok self'.
Proof.
refine (conversion_error_ends_reading long_rows_reader preamble (take 1 slice_elements)
          long_rows_element (concat (encode_element true <$> drop 5 slice_elements))
          "Rows" StructError _ _ _ _ _ _).
- apply Forall_cons; split; [|constructor].
  unfold well_formed_element; repeat split; try reflexivity; discriminate.
- unfold well_formed_element; repeat split; try reflexivity; discriminate.
- vm_compute. reflexivity.
- vm_compute. reflexivity.
- reflexivity.
- reflexivity.
Defined.
